(** * smartlink-cli: browser-extension installers

  A shallow embedding of the extension installers of smartlink-cli
  (utils/extensions.ts, utils/vivaldi.ts, utils/opera.ts, utils/firefox.ts,
  utils/browser.ts, installExtension.ts and the yargs entry point), the
  properties of the installation procedure that its specification states,
  and further properties of the same code: the download, the registry, the
  search for profiles, the bookkeeping of Firefox, what the patch writes.

  Conventions:
  - a Node [Buffer] and the contents of a file are a [list byte];
  - a JavaScript string is a [string] (a sequence of bytes, UTF-8);
  - a path is the list of its components, so [path.join p "a" "b"] is
    [p ++ ["a"; "b"]];
  - the file system, the clock and the trace of outside effects (log lines,
    browsers closed and opened, registry writes) are threaded through a
    state-and-exception monad [M];
  - an 'error' event that has no listener ends the process: it is the
    exception [Unhandled], which no [try] block stops, after the event
    [Exit 1];
  - a log line is recorded with its logger, its level and the text of its
    message, from which the interpolated paths, identifiers and errors are
    left out with the punctuation that introduces them;
  - what the program does not define itself (JSON.parse, JSON.stringify, the
    unzip tool, the network, the platform, the clock, md5) is a field of
    the record [Runtime], over which every definition is parameterised. *)

From Stdlib Require Import ZArith Ascii String.
From Stdlib.Strings Require Import Byte.
From stdpp Require Import gmap strings list fin_maps pretty.

#[local] Set Warnings "-register-all".
#[local] Open Scope string_scope.

Abbreviation bytes := (list byte).

#[global] Instance byte_eq_dec : EqDecision byte := Byte.byte_eq_dec.
Abbreviation path := (list string).

(** ** The archive scan (utils/extensions.ts, and inlined in every installer) *)

Module Archive.

(** [crxData[i] === 0x50 && crxData[i + 1] === 0x4b && crxData[i + 2] === 0x03
    && crxData[i + 3] === 0x04]; an index past the end reads [undefined],
    which is not [===] to any number. *)
Definition byte_is (crxData : bytes) (i : nat) (b : byte) : bool :=
    match crxData !! i with
    | Some c => Byte.eqb c b
    | None => false
    end.

Definition signature_at (crxData : bytes) (i : nat) : bool :=
    byte_is crxData i x50 && byte_is crxData (i + 1) x4b
    && byte_is crxData (i + 2) x03 && byte_is crxData (i + 3) x04.

(** The loop [for (let i = 0; i < crxData.length - 4; i++)]: [n] is the
    number of iterations left; when it ends without a [break],
    [zipStartOffset] still holds its initial value 0. *)
Fixpoint scan (crxData : bytes) (i n : nat) : nat :=
    match n with
    | O => 0
    | S n' => if signature_at crxData i then i else scan crxData (S i) n'
    end.

(** [crxData.length - 4] is negative for a buffer of fewer than 4 bytes: the
    loop body never runs. *)
Definition zipStartOffset (crxData : bytes) : nat :=
    scan crxData 0 (Z.to_nat (Z.of_nat (length crxData) - 4)).

(** [crxData.slice(zipStartOffset)] *)
Definition slice (crxData : bytes) (start : nat) : bytes := drop start crxData.

(** The signature occurs at offset [k], all four bytes inside the buffer. *)
Definition occurs_at (crxData : bytes) (k : nat) : Prop :=
    crxData !! k = Some x50 ∧ crxData !! (k + 1) = Some x4b
    ∧ crxData !! (k + 2) = Some x03 ∧ crxData !! (k + 3) = Some x04.

Definition first_occurrence (crxData : bytes) (k : nat) : Prop :=
    occurs_at crxData k ∧ ∀ j, j < k → ¬ occurs_at crxData j.

Definition no_signature (crxData : bytes) : Prop :=
    ∀ k, ¬ occurs_at crxData k.

End Archive.

(** ** The version-coded directory name *)

Module Version.

(** [s.replace(/\./g, "_")]: every dot becomes an underscore. The byte of
    '.' never occurs inside a multi-byte UTF-8 sequence, so replacing bytes
    and replacing characters agree. *)
Fixpoint replace_dots (s : string) : string :=
    match s with
    | EmptyString => EmptyString
    | String c r =>
        String (if Ascii.eqb c "." then "_"%char else c) (replace_dots r)
    end.

(** [manifest.version.replace(/\./g, "_") + "_0"] *)
Definition versionFormatted (version : string) : string :=
    replace_dots version +:+ "_0".

(** Reading a directory name back: drop the fixed suffix ["_0"], turn every
    underscore into a dot. Not part of the program; used to state that the
    mapping can be undone. *)
Fixpoint replace_underscores (s : string) : string :=
    match s with
    | EmptyString => EmptyString
    | String c r =>
        String (if Ascii.eqb c "_" then "."%char else c) (replace_underscores r)
    end.

Fixpoint strip_suffix_0 (s : string) : option string :=
    match s with
    | EmptyString => None
    | String c r =>
        if String.eqb s "_0" then Some EmptyString
        else String c <$> strip_suffix_0 r
    end.

Definition version_of_directory (dir : string) : option string :=
    replace_underscores <$> strip_suffix_0 dir.

Definition no_underscore (s : string) : bool :=
    forallb (λ c, negb (Ascii.eqb c "_")) (list_ascii_of_string s).

(** A Chromium manifest version: digits and dots only. *)
Definition version_char (c : ascii) : bool :=
    Ascii.eqb c "." || (Nat.leb 48 (nat_of_ascii c) && Nat.leb (nat_of_ascii c) 57).

Definition is_version_string (s : string) : bool :=
    forallb version_char (list_ascii_of_string s).

End Version.

(** ** String methods *)

Module Str.

Definition newline : string := String "010" "".

(** [s.split(sep)] for a separator of one character, given as a test *)
Fixpoint split_by (is_sep : ascii → bool) (s : string) (current : string) : list string :=
    match s with
    | EmptyString => [current]
    | String c r =>
        if is_sep c then current :: split_by is_sep r ""
        else split_by is_sep r (current +:+ String c "")
    end.

Definition split (sep : ascii) (s : string) : list string :=
    split_by (Ascii.eqb sep) s "".

(** [s.trim()], for the white space of ASCII *)
Fixpoint trim_start (s : string) : string :=
    match s with
    | EmptyString => EmptyString
    | String c r => if Ascii.is_space c then trim_start r else s
    end.

Definition trim (s : string) : string :=
    String.rev (trim_start (String.rev (trim_start s))).

(** [s.startsWith(p)], [s.endsWith(p)], [s.includes(p)] *)
Definition startsWith (s p : string) : bool := String.prefix p s.

Definition endsWith (s p : string) : bool :=
    String.prefix (String.rev p) (String.rev s).

Fixpoint includes (s sub : string) : bool :=
    String.prefix sub s ||
    match s with
    | EmptyString => false
    | String _ r => includes r sub
    end.

(** [s.substring(n)] *)
Fixpoint substring_from (n : nat) (s : string) : string :=
    match n, s with
    | O, _ => s
    | S n', String _ r => substring_from n' r
    | S _, EmptyString => EmptyString
    end.

(** [s.replace(pattern, "")] for a string pattern: the first occurrence
    is removed. *)
Fixpoint remove_first (pattern s : string) : string :=
    if String.prefix pattern s then substring_from (String.length pattern) s
    else match s with
         | EmptyString => EmptyString
         | String c r => String c (remove_first pattern r)
         end.

(** [s.replace(/\.xpi$/, "")] *)
Definition remove_suffix (suffix s : string) : string :=
    if endsWith s suffix
    then String.rev (substring_from (String.length suffix) (String.rev s))
    else s.

Definition is_letter (c : ascii) : bool :=
    let n := nat_of_ascii c in
    (Nat.leb 65 n && Nat.leb n 90) || (Nat.leb 97 n && Nat.leb n 122).

(** [/^[A-Za-z]:/.test(s)] *)
Definition drive_prefix (s : string) : bool :=
    match s with
    | String c (String ":" _) => is_letter c
    | _ => false
    end.

End Str.

(** ** JavaScript values and property access *)

Module JS.

(** What [JSON.parse] returns and what the program builds from it. An array
    carries, next to its elements, the named properties assigned to it
    ([JSON.stringify] prints the elements only). Numbers are the integers;
    the program only tests a number read from a file for truthiness and
    copies it. *)
Inductive value :=
  | VUndef
  | VNull
  | VBool (b : bool)
  | VNum (n : Z)
  | VStr (s : string)
  | VArr (elems : list value) (props : gmap string value)
  | VObj (props : gmap string value).

(** Exceptions: [new Error(message)] thrown by the program, the errors of
    the engine, of [fs] (with their code), of [execSync] (a command that
    exits with a non-zero status) and of [https] (the 'error' event).
    [Unhandled code] is no value that a [catch] clause receives: it stands
    for the 'error' event of a stream that has no listener for it, which
    Node reports as an uncaught exception and which ends the process. *)
Inductive exn :=
  | Error (message : string)
  | TypeError
  | SyntaxError
  | RangeError
  | SystemError (code : string)
  | ChildProcessError
  | TransportError
  | Unhandled (code : string).

(** The exceptions that no [try] block stops *)
Definition fatal (e : exn) : bool :=
    match e with
    | Unhandled _ => true
    | _ => false
    end.

Inductive result (A : Type) :=
  | Ok (a : A)
  | Throw (e : exn).
Arguments Ok {A} a.
Arguments Throw {A} e.

#[global] Instance result_ret : MRet result := λ A a, Ok a.
#[global] Instance result_bind : MBind result := λ A B f r,
    match r with
    | Ok a => f a
    | Throw e => Throw e
    end.

(** [error.message] *)
Definition message_of (e : exn) : string :=
    match e with
    | Error message => message
    | TypeError => "TypeError"
    | SyntaxError => "SyntaxError"
    | RangeError => "RangeError"
    | SystemError code => code
    | ChildProcessError => "Command failed"
    | TransportError => "request failed"
    | Unhandled code => code
    end.

(** [`${error}`] *)
Definition describe (e : exn) : string :=
    match e with
    | Error message => "Error: " +:+ message
    | TypeError => "TypeError"
    | SyntaxError => "SyntaxError"
    | RangeError => "RangeError"
    | SystemError code => "Error: " +:+ code
    | ChildProcessError => "Error: Command failed"
    | TransportError => "Error: request failed"
    | Unhandled code => "Error: " +:+ code
    end.

Definition obj (l : list (string * value)) : value := VObj (list_to_map l).
Definition arr (l : list value) : value := VArr l ∅.
Definition strs (l : list string) : value := arr (VStr <$> l).

(** [!v] is [negb (truthy v)] *)
Definition truthy (v : value) : bool :=
    match v with
    | VUndef | VNull => false
    | VBool b => b
    | VNum n => negb (n =? 0)%Z
    | VStr s => negb (String.eqb s "")
    | VArr _ _ | VObj _ => true
    end.

(** [a || b] *)
Definition or_else (a b : value) : value := if truthy a then a else b.

(** A canonical array index: the decimal numeral, with no leading zero, of
    a number below 2^32 - 1. *)
Definition digit_of (c : ascii) : option N :=
    let n := N_of_ascii c in
    if ((48 <=? n) && (n <=? 57))%N then Some (n - 48)%N else None.

Fixpoint parse_digits (s : string) (acc : N) : option N :=
    match s with
    | EmptyString => Some acc
    | String c r => d ← digit_of c; parse_digits r (acc * 10 + d)%N
    end.

Definition array_index (k : string) : option nat :=
    match k with
    | EmptyString => None
    | String c r =>
        if Ascii.eqb c "0" && negb (String.eqb r "") then None
        else n ← parse_digits k 0;
             if (n <? 4294967295)%N then Some (N.to_nat n) else None
    end.

(** [v[k]] and [v.k], own properties. The keys the program reads
    (extensions, settings, opsettings, external_extensions, known_enabled,
    pinned_extensions, version, name, permissions, host_permissions,
    profile, info_cache, addons, id, and the name of a profile directory)
    are not inherited from a built-in prototype, so a key that is not an
    own property reads [undefined]. Reading a property of [undefined] or
    [null] is a TypeError. *)
Definition get (v : value) (k : string) : result value :=
    match v with
    | VUndef | VNull => Throw TypeError
    | VBool _ | VNum _ => Ok VUndef
    | VStr s =>
        if String.eqb k "length" then Ok (VNum (Z.of_nat (String.length s)))
        else match array_index k with
             | Some i =>
                 if Nat.ltb i (String.length s) then Ok (VStr (String.substring i 1 s))
                 else Ok VUndef
             | None => Ok VUndef
             end
    | VArr elems props =>
        if String.eqb k "length" then Ok (VNum (Z.of_nat (length elems)))
        else match array_index k with
             | Some i => Ok (default VUndef (elems !! i))
             | None => Ok (default VUndef (props !! k))
             end
    | VObj props => Ok (default VUndef (props !! k))
    end.

(** [v?.k] *)
Definition get_opt (v : value) (k : string) : result value :=
    match v with
    | VUndef | VNull => Ok VUndef
    | _ => get v k
    end.

(** Assigning a named property. On an object without an own property
    ["__proto__"], assigning that key changes the prototype and no own
    property. *)
Definition store (props : gmap string value) (k : string) (x : value)
    : gmap string value :=
    if String.eqb k "__proto__" && bool_decide (props !! k = None)
    then props else <[k:=x]> props.

(** [elems[i] = x]: past the end the array grows, the slots in between
    are holes, which read [undefined]. *)
Definition store_index (elems : list value) (i : nat) (x : value) : list value :=
    if Nat.ltb i (length elems) then <[i:=x]> elems
    else elems ++ replicate (i - length elems) VUndef ++ [x].

(** [v[k] = x], in the strict mode of a class body: a TypeError on
    [undefined], [null] and on a primitive. The program assigns, under a
    key that is not fixed, an object literal only: assigning one to the
    [length] of an array is a RangeError. The result is the object after
    the assignment. *)
Definition set (v : value) (k : string) (x : value) : result value :=
    match v with
    | VUndef | VNull | VBool _ | VNum _ | VStr _ => Throw TypeError
    | VArr elems props =>
        if String.eqb k "length" then Throw RangeError
        else match array_index k with
             | Some i => Ok (VArr (store_index elems i x) props)
             | None => Ok (VArr elems (store props k x))
             end
    | VObj props => Ok (VObj (store props k x))
    end.

Definition is_str (s : string) (v : value) : bool :=
    match v with
    | VStr s' => String.eqb s' s
    | _ => false
    end.

(** [c.includes(s)] for a string [s]: the method of arrays, the method of
    strings; anything else has no callable [includes]. *)
Definition includes (c : value) (s : string) : result bool :=
    match c with
    | VArr elems props =>
        if bool_decide (props !! "includes" = None)
        then Ok (existsb (is_str s) elems) else Throw TypeError
    | VStr s' => Ok (Str.includes s' s)
    | _ => Throw TypeError
    end.

(** [c.push(x)]: the array after the call *)
Definition push (c : value) (x : value) : result value :=
    match c with
    | VArr elems props =>
        if bool_decide (props !! "push" = None)
        then Ok (VArr (elems ++ [x]) props) else Throw TypeError
    | _ => Throw TypeError
    end.

(** [strings.includes(v)] for a [string[]] of the options *)
Definition string_list_includes (l : list string) (v : value) : bool :=
    match v with
    | VStr s => bool_decide (s ∈ l)
    | _ => false
    end.

End JS.
Export JS.

(** ** The file system *)

Module Fs.

(** Regular files with their contents, and directories. The root is the
    empty path and is not listed; the empty path also stands for the empty
    string, which names nothing. Access rights are not modelled. *)
Record t := mk { files : gmap path bytes; dirs : gset path }.

Definition is_file (fs : t) (p : path) : bool := bool_decide (is_Some (files fs !! p)).
Definition is_dir (fs : t) (p : path) : bool := bool_decide (p ∈ dirs fs).

(** [fs.existsSync(p)] *)
Definition existsSync (fs : t) (p : path) : bool := is_dir fs p || is_file fs p.

(** [path.dirname] and [path.basename] *)
Definition dirname (p : path) : path := removelast p.
Definition basename (p : path) : string := default "" (last p).

(** [p] and the directories above it, the outermost first *)
Definition ancestors (p : path) : list path := (λ k, take k p) <$> seq 1 (length p).

Definition parent_is_dir (fs : t) (p : path) : bool :=
    match p with
    | [] => false
    | _ => bool_decide (dirname p = []) || is_dir fs (dirname p)
    end.

(** [fs.mkdirSync(p, { recursive: true })] *)
Definition mkdirSync (fs : t) (p : path) : result t :=
    if bool_decide (p = []) then Throw (SystemError "ENOENT")
    else if existsb (is_file fs) (ancestors p) then Throw (SystemError "EEXIST")
    else Ok (mk (files fs) (dirs fs ∪ list_to_set (ancestors p))).

(** [fs.rmSync(p, { recursive: true, force: true })]: [p] and all below it *)
Definition rmSync (fs : t) (p : path) : t :=
    if bool_decide (p = []) then fs
    else mk (filter (λ kv, ¬ p `prefix_of` kv.1) (files fs))
            (filter (λ q, ¬ p `prefix_of` q) (dirs fs)).

(** [fs.readFileSync(p)] *)
Definition readFileSync (fs : t) (p : path) : result bytes :=
    match files fs !! p with
    | Some content => Ok content
    | None => Throw (SystemError (if is_dir fs p then "EISDIR" else "ENOENT"))
    end.

(** [fs.writeFileSync(p, content)] *)
Definition writeFileSync (fs : t) (p : path) (content : bytes) : result t :=
    if is_dir fs p then Throw (SystemError "EISDIR")
    else if parent_is_dir fs p then Ok (mk (<[p:=content]> (files fs)) (dirs fs))
    else Throw (SystemError "ENOENT").

(** [fs.unlinkSync(p)] *)
Definition unlinkSync (fs : t) (p : path) : result t :=
    if is_file fs p then Ok (mk (delete p (files fs)) (dirs fs))
    else Throw (SystemError (if is_dir fs p then "EISDIR" else "ENOENT")).

(** [fs.statSync(p).isDirectory()] *)
Definition isDirectory (fs : t) (p : path) : result bool :=
    if is_dir fs p then Ok true
    else if is_file fs p then Ok false
    else Throw (SystemError "ENOENT").

(** [fs.readdirSync(p)]: the names directly below [p], in the order of
    the underlying finite set *)
Definition child_name (p q : path) : option string :=
    if bool_decide (dirname q = p) then last q else None.

Definition readdirSync (fs : t) (p : path) : result (list string) :=
    if is_dir fs p || bool_decide (p = [])
    then Ok (omap (child_name p) (elements (dom (files fs) ∪ dirs fs)))
    else Throw (SystemError (if is_file fs p then "ENOTDIR" else "ENOENT")).

(** Writing the entries of an archive below [dest], creating the
    directories they need. *)
Definition write_entry (dest : path) (fs : t) (entry : path * bytes) : result t :=
    fs' ← mkdirSync fs (dirname (dest ++ entry.1));
    writeFileSync fs' (dest ++ entry.1) entry.2.

Fixpoint write_entries (dest : path) (fs : t) (entries : list (path * bytes))
    : result t :=
    match entries with
    | [] => Ok fs
    | entry :: rest => fs' ← write_entry dest fs entry; write_entries dest fs' rest
    end.

End Fs.

(** ** The world outside the program *)

Inductive Browser := chrome | firefox | edge | vivaldi | brave | opera.

Inductive Platform := win32 | darwin | linux | other_platform.

#[global] Instance Browser_eq_dec : EqDecision Browser.
Proof. solve_decision. Defined.

#[global] Instance Platform_eq_dec : EqDecision Platform.
Proof. solve_decision. Defined.

(** What [https.get] delivers: the 'error' event, or a response with its
  status code, its [Location] header and its body. *)
Inductive response :=
  | RequestError
  | Response (statusCode : Z) (location : string) (body : bytes).

Record Runtime := {
  platform : Platform;                      (* process.platform, os.platform() *)
  homedir : path;                           (* os.homedir() *)
  tmpdir : path;                            (* os.tmpdir() *)
  pid : Z;                                  (* process.pid *)
  JSON_parse : bytes → option value;        (* of a file read as utf8; None: SyntaxError *)
  JSON_stringify : value → bytes;           (* JSON.stringify(v, null, 2) *)
  object_to_string : value → option string; (* String(v) of an object; None: TypeError *)
  unzip : bytes → option (list (path * bytes)); (* unzip -o, Expand-Archive -Force *)
  https_get : string → response;
  Date_now : nat → Z;                       (* the successive readings of the clock *)
  net_session : bool;                       (* "net session" exits with status 0 *)
  reg_add : string → bool;                  (* REG ADD under the hive succeeds *)
  firefox_running : bool;                   (* tasklist / pgrep finds firefox *)
  md5 : string → string;                    (* createHash("md5").update(s).digest("hex") *)
  AdmZip : bytes → option (list (string * bytes)); (* new AdmZip(file): its entries *)
  AdmZip_toBuffer : list (string * bytes) → bytes;
  mtime : path → Z;                         (* statSync(p).mtime as a number *)
}.

(** What leaves the process. *)
Inductive event :=
  | Log (logger level message : string)
  | ConsoleError (message : string)
  | Kill (procName : string)                  (* BrowserController.close *)
  | Launch (browser : Browser) (url : string) (profileName : string)
  | Wait (ms : Z)
  | RegAdd (hive key extensionId : string)
  | Exit (code : Z).

#[global] Instance event_eq_dec : EqDecision event.
Proof. solve_decision. Defined.

Record state := mkState { fs : Fs.t; trace : list event; clock : nat }.

(** ** The monad of the program: state and exceptions *)

Definition M (A : Type) : Type := state → result A * state.

#[global] Instance M_ret : MRet M := λ A a s, (Ok a, s).
#[global] Instance M_bind : MBind M := λ A B f m s,
  match m s with
  | (Ok a, s') => f a s'
  | (Throw e, s') => (Throw e, s')
  end.

Definition throw {A} (e : exn) : M A := λ s, (Throw e, s).

(** [try { m } catch (error) { handler error }]: the handler runs on what
    [m] throws, unless the process has ended in [m]. *)
Definition try_catch {A} (m : M A) (handler : exn → M A) : M A := λ s,
  match m s with
  | (Ok a, s') => (Ok a, s')
  | (Throw e, s') => if fatal e then (Throw e, s') else handler e s'
  end.

Definition lift {A} (r : result A) : M A := λ s, (r, s).

Definition emit (e : event) : M unit := λ s,
  (Ok tt, mkState (fs s) (trace s ++ [e]) (clock s)).

Definition read_fs {A} (f : Fs.t → A) : M A := λ s, (Ok (f (fs s)), s).

Definition try_fs {A} (f : Fs.t → result A) : M A := λ s, (f (fs s), s).

Definition update_fs (f : Fs.t → result Fs.t) : M unit := λ s,
  match f (fs s) with
  | Ok fs' => (Ok tt, mkState fs' (trace s) (clock s))
  | Throw e => (Throw e, s)
  end.

Definition existsSync (p : path) : M bool := read_fs (λ fs, Fs.existsSync fs p).
Definition mkdirSync (p : path) : M unit := update_fs (λ fs, Fs.mkdirSync fs p).
Definition rmSync (p : path) : M unit := update_fs (λ fs, Ok (Fs.rmSync fs p)).
Definition readFileSync (p : path) : M bytes := try_fs (λ fs, Fs.readFileSync fs p).
Definition writeFileSync (p : path) (content : bytes) : M unit :=
  update_fs (λ fs, Fs.writeFileSync fs p content).
Definition unlinkSync (p : path) : M unit := update_fs (λ fs, Fs.unlinkSync fs p).
Definition readdirSync (p : path) : M (list string) := try_fs (λ fs, Fs.readdirSync fs p).
Definition isDirectory (p : path) : M bool := try_fs (λ fs, Fs.isDirectory fs p).

(** The body of a loop or of a function either runs to its end (or to
  [continue]), or executes [return]. *)
Inductive completion := Next | Return.

(** [for (const x of l) { body x }] *)
Fixpoint for_of {A} (l : list A) (body : A → M completion) : M completion :=
  match l with
  | [] => mret Next
  | x :: rest =>
      c ← body x;
      match c with
      | Next => for_of rest body
      | Return => mret Return
      end
  end.

Definition when (b : bool) (m : M unit) : M unit := if b then m else mret tt.

(** ** Options (type.d.ts) *)

Record Config := mkConfig {
  smartLinkUrl : option string;
  secret : option string;
}.

Record InstallerOptions := mkOptions {
  profiles : option (list string);
  installDir : option path;
  downloadDir : option path;
  forceReinstall : option bool;
  logLevel : option string;
  pinExtension : option bool;
  config : option Config;
}.

(** The truthiness of an optional string, flag and path: [undefined], the
  empty string and [false] are falsy. *)
Definition truthy_string (o : option string) : bool :=
  match o with
  | Some s => negb (String.eqb s "")
  | None => false
  end.

Definition truthy_flag (o : option bool) : bool := default false o.

Definition truthy_path (o : option path) : bool :=
  match o with
  | Some p => negb (bool_decide (p = []))
  | None => false
  end.

(** [this.options.config?.smartLinkUrl && this.options.config?.secret] *)
Definition config_supplied (options : InstallerOptions) : bool :=
  truthy_string (config options ≫= smartLinkUrl)
  && truthy_string (config options ≫= secret).

(** An installer object: its options after defaulting, and the home
  directory read at construction. *)
Record Installer := mkInstaller {
  options : InstallerOptions;
  userHomeDir : path;
}.

(** [`${o}`] of an optional string *)
Definition show (o : option string) : string := default "undefined" o.

Section Node.

Context (rt : Runtime).

(** [path.join(p, s)]: the segments of [s] are appended; empty segments
    and "." are dropped, ".." steps up. On win32 the backslash separates
    segments too. *)
Definition is_separator (c : ascii) : bool :=
    Ascii.eqb c "/" ||
    match platform rt with
    | win32 => Ascii.eqb c "\"
    | _ => false
    end.

Definition push_segment (p : path) (segment : string) : path :=
    if String.eqb segment "" || String.eqb segment "." then p
    else if String.eqb segment ".." then removelast p
    else p ++ [segment].

Definition path_join (p : path) (s : string) : path :=
    foldl push_segment p (Str.split_by is_separator s "").

Definition now : M Z := λ s,
    (Ok (Date_now rt (clock s)), mkState (fs s) (trace s) (S (clock s))).

(** [JSON.parse(fs.readFileSync(p, "utf8"))] *)
Definition read_json (p : path) : M value :=
    content ← readFileSync p;
    match JSON_parse rt content with
    | Some v => mret v
    | None => throw SyntaxError
    end.

(** [String(v)], as a template literal computes it *)
Definition to_string (v : value) : result string :=
    match v with
    | VUndef => Ok "undefined"
    | VNull => Ok "null"
    | VBool b => Ok (if b then "true" else "false")
    | VNum n => Ok (pretty n)
    | VStr s => Ok s
    | VArr _ _ | VObj _ =>
        match object_to_string rt v with
        | Some s => Ok s
        | None => Throw TypeError
        end
    end.

(** The method [log] of the installers: a level it does not know is
    logged as info. *)
Definition log (logger level message : string) : M unit :=
    emit (Log logger
            (if bool_decide (level ∈ ["debug"; "info"; "warn"; "error"])
             then level else "info")
            message).

(** [execSync] of [unzip -o zip -d dest] and of [Expand-Archive -Force]:
    the entries are written below [dest], existing files are overwritten;
    the command fails when the file is not an archive or an entry cannot
    be written. *)
Definition expand_archive (zip dest : path) : M unit :=
    try_catch
      (content ← readFileSync zip;
       match unzip rt content with
       | Some entries => update_fs (λ fs, Fs.write_entries dest fs entries)
       | None => throw ChildProcessError
       end)
      (λ _, throw ChildProcessError).

End Node.

(** ** utils/constants.ts and utils/browser.ts *)

Definition BrowserProcesses (browser : Browser) : list string :=
  match browser with
  | chrome => ["chrome"; "chromium"]
  | edge => ["msedge"; "edge"; "microsoft-edge"]
  | firefox => ["firefox"]
  | opera => ["opera"]
  | brave => ["brave"]
  | vivaldi => ["vivaldi"]
  end.

Module BrowserController.

(** [close]: for every process name of the browser, the processes found
    under that name, but this one, are killed; whatever fails in between
    is swallowed by the empty [catch]. *)
Definition close (browser : Browser) : M unit :=
    for_of (BrowserProcesses browser) (λ procName, emit (Kill procName);; mret Next);;
    mret tt.

(** [openWithUrl]: the launch command is started with [exec], the program
    waits five seconds and closes the browser again. Every [Browser] has
    its command, so the [default] branches are not reached. *)
Definition openWithUrl (browser : Browser) (url profileName : string) : M unit :=
    emit (Launch browser url profileName);;
    emit (Wait 5000);;
    close browser.

End BrowserController.


(** ** utils/extensions.ts *)

Module Extensions.
Section WithRuntime.

Context (rt : Runtime).

(** The manifest substituted when the archive cannot be read. *)
Definition fallback_manifest (description : string) : value :=
    obj [("version", VStr "1.0.0");
         ("name", VStr "VaultySid");
         ("description", VStr description);
         ("manifest_version", VNum 3);
         ("permissions", strs ["activeTab"; "contextMenus"; "storage"; "scripting"]);
         ("host_permissions", strs ["file:///*"; "http://localhost:3000/*"; "https://*/*"])].

(** The [try] block of [extractManifestFromCrx]. *)
Definition extract_manifest (crxFilePath : path) : M value :=
    crxData ← readFileSync crxFilePath;
    let zipStartOffset := Archive.zipStartOffset crxData in
    (if bool_decide (zipStartOffset = 0)
     then throw (Error "Format CRX invalide: signature ZIP non trouvée")
     else mret tt);;
    let tempDir := path_join rt (tmpdir rt) "vaultysid-extension-temp" in
    tempDir_exists ← existsSync tempDir;
    when (negb tempDir_exists) (mkdirSync tempDir);;
    let tempZipPath := path_join rt tempDir "extension.zip" in
    writeFileSync tempZipPath (Archive.slice crxData zipStartOffset);;
    let extractDir := path_join rt tempDir "extracted" in
    extractDir_exists ← existsSync extractDir;
    when extractDir_exists (rmSync extractDir);;
    mkdirSync extractDir;;
    try_catch (expand_archive rt tempZipPath extractDir)
      (λ error,
         emit (ConsoleError "Erreur lors de l'extraction du ZIP");;
         throw (Error ("Impossible d'extraire le fichier ZIP: " +:+ describe error)));;
    let manifestPath := path_join rt extractDir "manifest.json" in
    manifest_exists ← existsSync manifestPath;
    (if negb manifest_exists
     then throw (Error "manifest.json non trouvé dans l'extension")
     else mret tt);;
    manifest ← read_json rt manifestPath;
    rmSync tempDir;;
    mret manifest.

(** [extractManifestFromCrx]: whatever the [try] block throws is caught,
    printed, and answered with the fallback manifest. *)
Definition extractManifestFromCrx (crxFilePath : path) : M value :=
    try_catch (extract_manifest crxFilePath)
      (λ error,
         emit (ConsoleError "Erreur lors de l'extraction du manifest");;
         mret (fallback_manifest "VaultySid Chrome Extension")).

End WithRuntime.
End Extensions.

(** ** What the Chromium installers share, statement for statement

  utils/vivaldi.ts and utils/opera.ts repeat these fragments verbatim; they
  are written once here and used by both [Vivaldi] and [Opera]. *)

Module Chromium.
Section WithRuntime.

Context (rt : Runtime) (logger : string).

(** The constructor: the options with their defaults, the download
    directory created when it is missing. *)
Definition default_options (o : InstallerOptions) : InstallerOptions :=
    mkOptions (profiles o) (installDir o)
      (Some (default (path_join rt (tmpdir rt) "vaultysid-extension-download")
               (downloadDir o)))
      (Some (default false (forceReinstall o)))
      (Some (default "info" (logLevel o)))
      (Some (default false (pinExtension o)))
      (config o).

Definition new (o : InstallerOptions) : M Installer :=
    let this := mkInstaller (default_options o) (homedir rt) in
    let dir := default [] (downloadDir (options this)) in
    dir_exists ← existsSync dir;
    (if truthy_path (downloadDir (options this)) && negb dir_exists
     then mkdirSync dir;; emit (Log logger "debug" "Dossier de téléchargement créé")
     else mret tt);;
    emit (Log logger "debug" "Dossier de téléchargement");;
    emit (Log logger "debug" "Configuration");;
    mret this.

(** [https.get] of the store URL into [crxFilePath], following one
    redirect. [createWriteStream] creates the file, empty; the body is
    piped into it when the status is 200; the file is unlinked when the
    request itself fails. [createWriteStream] itself never throws: a file
    that cannot be opened makes the stream emit 'error', for which the
    program registers no listener, so that the process ends there, with
    status 1, before any answer to the request is handled. *)
Definition crxUrl (extensionId : string) : string :=
    "https://clients2.google.com/service/update2/crx?response=redirect&prodversion=89.0.4389.114&acceptformat=crx2,crx3&x=id%3D"
    +:+ extensionId +:+ "%26installsource%3Dondemand%26uc".

Definition createWriteStream (p : path) : M unit := λ s,
    match Fs.writeFileSync (fs s) p [] with
    | Ok fs' => (Ok tt, mkState fs' (trace s) (clock s))
    | Throw e => (Throw (Unhandled (message_of e)),
                  mkState (fs s) (trace s ++ [Exit 1]) (clock s))
    end.

Definition pipe (body : bytes) (p : path) : M unit :=
    update_fs (λ fs, Ok (Fs.mk (<[p:=body]> (Fs.files fs)) (Fs.dirs fs))).

Definition unlink (p : path) : M unit :=
    update_fs (λ fs, Ok (Fs.mk (delete p (Fs.files fs)) (Fs.dirs fs))).

Definition http_status_error (statusCode : Z) : exn :=
    Error ("Échec du téléchargement de l'extension: HTTP status " +:+ pretty statusCode).

(** [verbose]: utils/opera.ts logs the response and the failures, and
    utils/vivaldi.ts does not. *)
Definition downloadExtension (verbose : bool) (this : Installer)
      (extensionId : string) : M path :=
    log logger "info" "Téléchargement de l'extension";;
    if negb (truthy_path (downloadDir (options this)))
    then throw (Error (if verbose
                       then "Le répertoire de téléchargement n'est pas défini."
                       else "Le répertoire de téléchargement n'est pas défini"))
    else
      let dir := default [] (downloadDir (options this)) in
      let crxFilePath := path_join rt dir (extensionId +:+ ".crx") in
      log logger "debug" "URL de téléchargement";;
      log logger "debug" "Chemin du fichier crx";;
      dir_exists ← existsSync dir;
      when (negb dir_exists) (mkdirSync dir);;
      createWriteStream crxFilePath;;
      match https_get rt (crxUrl extensionId) with
      | RequestError =>
          unlink crxFilePath;;
          when verbose (log logger "error" "Erreur lors du téléchargement");;
          throw TransportError
      | Response statusCode location body =>
          when verbose (log logger "debug" "Réponse HTTP");;
          if bool_decide (statusCode = 302%Z ∨ statusCode = 301%Z) then
            when verbose (log logger "debug" "Redirection vers");;
            match https_get rt location with
            | RequestError =>
                unlink crxFilePath;;
                when verbose (log logger "error" "Erreur lors du téléchargement");;
                throw TransportError
            | Response redirectStatus _ redirectBody =>
                if bool_decide (redirectStatus ≠ 200%Z)
                then throw (http_status_error redirectStatus)
                else pipe redirectBody crxFilePath;;
                     log logger "info" "Extension téléchargée";;
                     mret crxFilePath
            end
          else if bool_decide (statusCode = 200%Z) then
            pipe body crxFilePath;;
            log logger "info" "Extension téléchargée";;
            mret crxFilePath
          else
            when verbose (log logger "error" "Échec du téléchargement");;
            throw (http_status_error statusCode)
      end.

(** The browser as the messages of its installer name it *)
Definition of_browser (browser : Browser) : string :=
    match browser with
    | opera => "d'Opera"
    | _ => "de Vivaldi"
    end.

(** [openVivaldiWithConfigUrl], [openOperaWithConfigUrl]: what
    [BrowserController.openWithUrl] throws is logged and dropped. *)
Definition openWithConfigUrl (verbose : bool) (browser : Browser)
      (profileName smartLinkUrl secret : string) : M unit :=
    try_catch
      (let configUrl := smartLinkUrl +:+ "/#SmartLinkExtensionSecret=" +:+ secret in
       when verbose (log logger "debug" "URL de configuration";;
                     log logger "debug" "Ouverture avec le profil");;
       BrowserController.openWithUrl browser configUrl profileName;;
       log logger (if verbose then "info" else "debug")
         (logger +:+ " fermé après chargement de l'URL de configuration"))
      (λ error, log logger "error"
                  ("Échec de l'ouverture " +:+ of_browser browser
                   +:+ " avec l'URL de configuration")).

(** [manifest.version.replace(/\./g, "_") + "_0"]: a TypeError unless
    [manifest.version] is a string. *)
Definition version_directory (manifest : value) : result string :=
    version ← get manifest "version";
    match version with
    | VStr v => Ok (Version.versionFormatted v)
    | _ => Throw TypeError
    end.

(** The [try] block that unpacks the archive into the version directory.
    The scan is the one of [extractManifestFromCrx], without its test of
    the offset. *)
Definition extract_archive (this : Installer) (crxFilePath extensionVersionDir : path)
    : M completion :=
    crxData ← readFileSync crxFilePath;
    let zipStartOffset := Archive.zipStartOffset crxData in
    if negb (truthy_path (downloadDir (options this))) then mret Return
    else
      let tempZipPath := path_join rt (default [] (downloadDir (options this))) "extension.zip" in
      writeFileSync tempZipPath (Archive.slice crxData zipStartOffset);;
      expand_archive rt tempZipPath extensionVersionDir;;
      log logger "info" "Extension extraite";;
      mret Next.

(** The [try] block with its [catch]: when unpacking fails, the manifest
    alone is written into the version directory. *)
Definition extract_or_write_manifest (this : Installer)
      (crxFilePath extensionVersionDir : path) (manifest : value) : M completion :=
    try_catch (extract_archive this crxFilePath extensionVersionDir)
      (λ error,
         log logger "error" "Erreur lors de l'extraction de l'extension";;
         writeFileSync (path_join rt extensionVersionDir "manifest.json")
           (JSON_stringify rt manifest);;
         mret Next).

(** The record written for the extension; [permissions] and
    [host_permissions] are [manifest.permissions] and
    [manifest.host_permissions], the three numbers are the readings of
    [Date.now()] in the order of the literal. *)
Definition settings_record (extensionId versionFormatted : string)
      (manifest permissions host_permissions : value)
      (first_install installation last_update : Z) : value :=
    obj
      [("account_extension_type", VNum 0);
       ("active_permissions",
        obj [("api", or_else permissions
                       (strs ["activeTab"; "contextMenus"; "storage"; "scripting"]));
             ("explicit_host", or_else host_permissions
                       (strs ["file:///*"; "http://localhost:3000/*"; "https://*/*"]));
             ("manifest_permissions", arr []);
             ("scriptable_host", arr [])]);
       ("commands", obj []);
       ("content_settings", arr []);
       ("creation_flags", VNum 9);
       ("first_install_time", VStr (pretty first_install));
       ("from_webstore", VBool true);
       ("granted_permissions",
        obj [("api", or_else permissions
                       (strs ["activeTab"; "contextMenus"; "storage"; "tabs"; "scripting"]));
             ("explicit_host", or_else host_permissions
                       (strs ["*://*/*"; "file:///*"; "http://localhost:3000/*"; "https://*/*"]));
             ("manifest_permissions", arr []);
             ("scriptable_host", arr [])]);
       ("incognito_content_settings", arr []);
       ("incognito_preferences", obj []);
       ("installation_time", VNum (installation `div` 1000));
       ("last_update_time", VStr (pretty last_update));
       ("location", VNum 1);
       ("path", VStr (extensionId +:+ "/" +:+ versionFormatted));
       ("preferences", obj []);
       ("regular_only_preferences", obj []);
       ("serviceworkerevents",
        strs ["contextMenus.onClicked"; "runtime.onInstalled"; "tabs.onHighlighted";
              "tabs.onRemoved"; "tabs.onUpdated"]);
       ("state", VNum 1);
       ("was_installed_by_default", VBool false);
       ("was_installed_by_oem", VBool false);
       ("withholding_permissions", VBool false);
       ("manifest", manifest)].

(** The object literal is evaluated before it is assigned: the two reads
    of the manifest, then the clock. *)
Definition build_settings_record (extensionId versionFormatted : string)
      (manifest : value) : M value :=
    permissions ← lift (get manifest "permissions");
    host_permissions ← lift (get manifest "host_permissions");
    first_install ← now rt;
    installation ← now rt;
    last_update ← now rt;
    mret (settings_record extensionId versionFormatted manifest permissions
            host_permissions first_install installation last_update).

Definition external_record (install_time : Z) : value :=
    obj [("external_update_url", VStr "https://clients2.google.com/service/update2/crx");
         ("install_time", VNum (install_time `div` 1000));
         ("location", VNum 1)].

(** [v.k.… = …]: the object held under [v.k] is updated in place. *)
Definition update (v : value) (k : string) (f : value → result value) : result value :=
    child ← get v k;
    child' ← f child;
    set v k child'.

(** [if (!v.k) v.k = init] *)
Definition ensure (v : value) (k : string) (init : value) : result value :=
    child ← get v k;
    if truthy child then Ok v else set v k init.

(** [if (!list.includes(extensionId)) list.push(extensionId)] *)
Definition add_once (extensionId : string) (known : value) : result value :=
    JS.includes known extensionId ≫= λ present : bool,
    if present then Ok known else JS.push known (VStr extensionId).

(** [if (!preferences.extensions.external_extensions)
      preferences.extensions.external_extensions = {}] *)
Definition ensure_external (preferences : value) : result value :=
    update preferences "extensions" (λ e, ensure e "external_extensions" (obj [])).

(** The statements from the assignment of the external_extensions entry
    to the pinned list. *)
Definition register (this : Installer) (extensionId : string) (install_time : Z)
      (preferences : value) : result value :=
    preferences ← update preferences "extensions"
                    (λ e, update e "external_extensions"
                            (λ x, set x extensionId (external_record install_time)));
    preferences ← update preferences "extensions" (λ e, ensure e "known_enabled" (arr []));
    preferences ← update preferences "extensions"
                    (λ e, update e "known_enabled" (add_once extensionId));
    if truthy_flag (pinExtension (options this)) then
      preferences ← update preferences "extensions"
                      (λ e, ensure e "pinned_extensions" (arr []));
      update preferences "extensions"
        (λ e, update e "pinned_extensions" (add_once extensionId))
    else Ok preferences.

Definition ensure_and_register (this : Installer) (extensionId : string)
      (preferences : value) : M value :=
    preferences ← lift (ensure_external preferences);
    install_time ← now rt;
    lift (register this extensionId install_time preferences).

(** The end of the body of the loop: the file is written, and the browser
    is opened on the configuration URL when both parts of it are truthy. *)
Definition write_and_relaunch (verbose : bool) (browser : Browser) (this : Installer)
      (profile preferenceFile : path) (preferences : value) : M completion :=
    writeFileSync preferenceFile (JSON_stringify rt preferences);;
    log logger "info" "Extension installée pour le profil";;
    (if config_supplied (options this) then
       log logger "info" ("Ouverture " +:+ of_browser browser
                          +:+ " avec l'URL de configuration pour le profil");;
       openWithConfigUrl verbose browser (Fs.basename profile)
         (show (config (options this) ≫= smartLinkUrl))
         (show (config (options this) ≫= secret))
     else mret tt);;
    mret Next.

(** Cleaning the download directory, after the loop. *)
Definition cleanup (this : Installer) : M unit :=
    log logger "info" "Nettoyage du dossier de téléchargement";;
    dir_exists ← existsSync (default [] (downloadDir (options this)));
    when (truthy_path (downloadDir (options this)) && dir_exists)
      (rmSync (default [] (downloadDir (options this))));;
    log logger "info"
      ("Installation terminée. Veuillez redémarrer " +:+ logger
       +:+ " pour activer l'extension.").

(** The filter of [getProfiles]:
    [localState.profile.info_cache[path.basename(profile)]?.name] *)
Definition profile_name (localState : value) (profile : path) : result value :=
    p ← get localState "profile";
    info_cache ← get p "info_cache";
    entry ← get info_cache (Fs.basename profile);
    get_opt entry "name".

Fixpoint filter_profiles (wanted : list string) (localState : value)
      (found : list path) : result (list path) :=
    match found with
    | [] => Ok []
    | profile :: rest =>
        name ← profile_name localState profile;
        kept ← filter_profiles wanted localState rest;
        Ok (if string_list_includes wanted name then profile :: kept else kept)
    end.

(** [`${manifest.name} v${manifest.version}`], the text of the log line
    that follows [extractManifestFromCrx] *)
Definition manifest_summary (manifest : value) : result string :=
    name ← get manifest "name";
    name ← to_string rt name;
    version ← get manifest "version";
    version ← to_string rt version;
    Ok (name +:+ " v" +:+ version).

(** CHECK_EXISTING: an existing version directory is removed under
    [forceReinstall]; without it the profile is left ([continue]);
    [rest] is the remainder of the body of the loop. *)
Definition check_existing (this : Installer) (extensionVersionDir : path)
      (rest : M completion) : M completion :=
    installed ← existsSync extensionVersionDir;
    if installed && truthy_flag (forceReinstall (options this)) then
      log logger "info" "Suppression du dossier de version existant";;
      rmSync extensionVersionDir;;
      rest
    else if installed && negb (truthy_flag (forceReinstall (options this))) then
      log logger "info"
        "L'extension est déjà installée. Utilisez l'option forceReinstall pour la réinstaller.";;
      mret Next
    else rest.

(** The download with its [catch], which wraps the error. *)
Definition download (verbose : bool) (this : Installer) (extensionId : string) : M path :=
    try_catch
      (crxFilePath ← downloadExtension verbose this extensionId;
       log logger "info" "Extension téléchargée";;
       mret crxFilePath)
      (λ error,
         log logger "error" "Erreur lors du téléchargement de l'extension";;
         throw (Error ("Échec du téléchargement de l'extension: " +:+ describe error))).

End WithRuntime.
End Chromium.

(** ** utils/vivaldi.ts *)

Module Vivaldi.
Section WithRuntime.

Context (rt : Runtime).

Definition logger : string := "Vivaldi".

Definition new : InstallerOptions → M Installer := Chromium.new rt logger.

Definition checkAdminPrivileges : bool :=
    match platform rt with
    | win32 => net_session rt
    | _ => true
    end.

(** [execSync] of a [REG ADD] command *)
Definition reg_add_command (hive extensionId : string) : M unit :=
    if reg_add rt hive
    then emit (RegAdd hive "Software\Policies\Vivaldi\ExtensionInstallForcelist" extensionId)
    else throw ChildProcessError.

Definition installExtensionViaRegistry (this : Installer) (extensionId : string) : M unit :=
    if negb (bool_decide (platform rt = win32))
    then throw (Error "Cette méthode ne fonctionne que sous Windows")
    else if negb checkAdminPrivileges then
      log logger "error"
        "Privilèges administratifs requis pour installer l'extension via le registre Windows";;
      throw (Error
        "Privilèges administratifs requis pour installer l'extension via le registre Windows")
    else
      try_catch
        (log logger "info" "Ajout de l'extension au registre Windows (HKLM)";;
         log logger "debug" "Commande d'ajout au registre";;
         reg_add_command "HKLM" extensionId;;
         log logger "info" "Extension ajoutée avec succès au registre Windows")
        (λ error,
           log logger "error" "Échec de l'ajout au registre Windows";;
           try_catch
             (log logger "info"
                "Tentative d'ajout de l'extension au registre utilisateur (HKCU)";;
              log logger "debug" "Commande d'ajout au registre";;
              reg_add_command "HKCU" extensionId;;
              log logger "info" "Extension ajoutée avec succès au registre utilisateur")
             (λ userError,
                log logger "error" "Échec de l'ajout au registre utilisateur";;
                throw (Error ("Échec de l'installation de l'extension via le registre: "
                              +:+ describe userError)))).

Definition getVivaldiPath (this : Installer) : M path :=
    let vivaldiPath :=
      match platform rt with
      | darwin => (userHomeDir this ++ ["Library"; "Application Support"; "Vivaldi"])%list
      | win32 => (userHomeDir this ++ ["AppData"; "Local"; "Vivaldi"; "User Data"])%list
      | _ => (userHomeDir this ++ [".config"; "vivaldi"])%list
      end in
    found ← existsSync vivaldiPath;
    if negb found
    then throw (Error "Vivaldi n'est pas installé ou le chemin est incorrect")
    else mret vivaldiPath.

Definition getVivaldiProfiles (this : Installer) : M (list path) :=
    vivaldiPath ← getVivaldiPath this;
    entries ← readdirSync vivaldiPath;
    let found :=
      path_join rt vivaldiPath <$>
        filter (λ dir, Str.startsWith dir "Profile" = true ∨ dir = "Default") entries in
    if bool_decide (length found = 0)
    then throw (Error "Aucun profil Vivaldi trouvé")
    else mret found.

Definition getProfiles (this : Installer) : M (list path) :=
    found ← getVivaldiProfiles this;
    match profiles (options this) with
    | None | Some [] => mret found
    | Some wanted =>
        vivaldiPath ← getVivaldiPath this;
        localState ← read_json rt (path_join rt vivaldiPath "Local State");
        lift (Chromium.filter_profiles wanted localState found)
    end.

(** [if (!preferences.extensions) preferences.extensions = {};
     if (!preferences.extensions.settings) preferences.extensions.settings = {};] *)
Definition prepare_settings (preferences : value) : result value :=
    preferences ← Chromium.ensure preferences "extensions" (obj []);
    Chromium.update preferences "extensions" (λ e, Chromium.ensure e "settings" (obj [])).

(** [preferences.extensions.settings[extensionId] = record] *)
Definition assign_record (extensionId : string) (record preferences : value) : result value :=
    Chromium.update preferences "extensions"
      (λ e, Chromium.update e "settings" (λ settings, set settings extensionId record)).

(** The body of [for (const profile of profiles)] from the extraction
    on, for a profile that is not skipped. *)
Definition unpack_and_patch (this : Installer) (extensionId : string) (crxFilePath : path)
      (manifest : value) (profile preferenceFile : path) (preferences : value)
      (versionFormatted : string) (extensionVersionDir : path) : M completion :=
    extracted ← Chromium.extract_or_write_manifest rt logger this crxFilePath
                  extensionVersionDir manifest;
    match extracted with
    | Return => mret Return
    | Next =>
        log logger "info" "Mise à jour des préférences";;
        preferences ← lift (prepare_settings preferences);
        record ← Chromium.build_settings_record rt extensionId versionFormatted manifest;
        preferences ← lift (assign_record extensionId record preferences);
        preferences ← Chromium.ensure_and_register rt this extensionId preferences;
        Chromium.write_and_relaunch rt logger false vivaldi this profile
          preferenceFile preferences
    end.

(** The body of [for (const profile of profiles)]. *)
Definition install_profile (this : Installer) (extensionId : string)
      (crxFilePath : path) (manifest : value) (profile : path) : M completion :=
    let preferenceFile := path_join rt profile "Preferences" in
    let extensionsDir := path_join rt (path_join rt profile "Extensions") extensionId in
    has_preferences ← existsSync preferenceFile;
    if negb has_preferences then mret Next
    else
      preferences ← read_json rt preferenceFile;
      has_extensionsDir ← existsSync extensionsDir;
      when (negb has_extensionsDir) (mkdirSync extensionsDir);;
      versionFormatted ← lift (Chromium.version_directory manifest);
      let extensionVersionDir := path_join rt extensionsDir versionFormatted in
      log logger "debug" "Dossier de version formaté";;
      log logger "debug" "Chemin complet du dossier de version";;
      Chromium.check_existing logger this extensionVersionDir
        (mkdirSync extensionVersionDir;;
         unpack_and_patch this extensionId crxFilePath manifest profile preferenceFile
           preferences versionFormatted extensionVersionDir).

(** The loop over the profiles and the cleaning that follows it; a
    [return] in the body leaves the function before the cleaning. *)
Definition install_all (this : Installer) (extensionId : string) (crxFilePath : path)
      (manifest : value) (targets : list path) : M unit :=
    outcome ← for_of targets (install_profile this extensionId crxFilePath manifest);
    match outcome with
    | Return => mret tt
    | Next => Chromium.cleanup logger this
    end.

Definition installExtension (this : Installer) (extensionId : string) : M unit :=
    try_catch
      (BrowserController.close vivaldi;;
       if bool_decide (platform rt = win32) then
         log logger "info" "Installation de l'extension via le registre Windows";;
         installExtensionViaRegistry this extensionId;;
         (if config_supplied (options this) then
            log logger "info" "Ouverture de Vivaldi avec l'URL de configuration";;
            Chromium.openWithConfigUrl logger false vivaldi "Default"
              (show (config (options this) ≫= smartLinkUrl))
              (show (config (options this) ≫= secret))
          else mret tt);;
         log logger "info"
           "Installation terminée. Veuillez redémarrer Vivaldi pour activer l'extension."
       else
         targets ← getProfiles this;
         log logger "info" "Installation de l'extension pour profils Vivaldi";;
         crxFilePath ← Chromium.download rt logger false this extensionId;
         manifest ← try_catch
                      (manifest ← Extensions.extractManifestFromCrx rt crxFilePath;
                       summary ← lift (Chromium.manifest_summary rt manifest);
                       log logger "info" ("Informations de l'extension récupérées: " +:+ summary);;
                       mret manifest)
                      (λ error,
                         log logger "warn"
                           "Impossible de récupérer les informations de l'extension";;
                         mret (Extensions.fallback_manifest "VaultySid Vivaldi Extension"));
         install_all this extensionId crxFilePath manifest targets)
      (λ error,
         log logger "error" "Erreur dans Vivaldi.installExtension";;
         throw error).

(** [static async installExtension(userHomeDir, extensionId, configObject, pin)] *)
Definition installExtension_static (extensionId : string) (configObject : Config) : M unit :=
    installer ← new (mkOptions None None None (Some true) None None (Some configObject));
    installExtension installer extensionId.

End WithRuntime.
End Vivaldi.

(** ** utils/opera.ts *)

Module Opera.
Section WithRuntime.

Context (rt : Runtime).

Definition logger : string := "Opera".

Definition new : InstallerOptions → M Installer := Chromium.new rt logger.

Definition possiblePaths (this : Installer) : list path :=
    let home := userHomeDir this in
    match platform rt with
    | darwin =>
        [(home ++ ["Library"; "Application Support"; "com.operasoftware.Opera"])%list;
         (home ++ ["Library"; "Application Support"; "Opera"])%list;
         (home ++ ["Library"; "Application Support"; "Opera Software"; "Opera"])%list;
         (home ++ ["Library"; "Application Support"; "Opera Software"; "Opera Stable"])%list]
    | win32 =>
        [(home ++ ["AppData"; "Roaming"; "Opera Software"; "Opera Stable"])%list;
         (home ++ ["AppData"; "Local"; "Opera Software"; "Opera Stable"])%list;
         (home ++ ["AppData"; "Roaming"; "Opera"; "Opera"])%list]
    | _ =>
        [(home ++ [".config"; "opera"])%list;
         (home ++ [".opera"])%list;
         (home ++ [".config"; "opera-stable"])%list]
    end.

Fixpoint first_existing (candidates : list path) : M path :=
    match candidates with
    | [] =>
        throw (Error "Opera n'est pas installé ou le chemin est incorrect. Chemins vérifiés: ")
    | potentialPath :: rest =>
        log logger "debug" "Vérification du chemin Opera";;
        found ← existsSync potentialPath;
        if negb found then first_existing rest
        else log logger "debug" "Chemin Opera trouvé";; mret potentialPath
    end.

Definition getOperaPath (this : Installer) : M path :=
    first_existing (possiblePaths this).

(** [/^[0-9]+$/.test(dir)] *)
Definition all_digits (dir : string) : bool :=
    negb (String.eqb dir "") &&
    forallb (λ c, bool_decide (is_Some (digit_of c))) (list_ascii_of_string dir).

(** The loop over the entries of the Opera directory, inside its [try]:
    the profiles pushed so far, and the error that ended the loop if one
    did. *)
Fixpoint numbered_profiles (fs : Fs.t) (operaPath : path) (entries : list string)
      (found : list path) : list path * option exn :=
    match entries with
    | [] => (found, None)
    | dir :: rest =>
        if Str.startsWith dir "Profile" || all_digits dir then
          let profilePath := path_join rt operaPath dir in
          match Fs.isDirectory fs profilePath with
          | Throw e => (found, Some e)
          | Ok is_directory =>
              if is_directory && negb (bool_decide (profilePath ∈ found))
              then numbered_profiles fs operaPath rest (found ++ [profilePath])
              else numbered_profiles fs operaPath rest found
          end
        else numbered_profiles fs operaPath rest found
    end.

Definition getOperaProfiles (this : Installer) : M (list path) :=
    operaPath ← getOperaPath this;
    let defaultProfile := path_join rt operaPath "Default" in
    has_default ← existsSync defaultProfile;
    let found := if (has_default : bool) then [defaultProfile] else [] in
    found ← try_catch
              (entries ← readdirSync operaPath;
               scanned ← read_fs (λ fs, numbered_profiles fs operaPath entries found);
               match scanned.2 with
               | None => mret scanned.1
               | Some error =>
                   log logger "warn" "Erreur lors de la recherche de profils Opera";;
                   mret scanned.1
               end)
              (λ error,
                 log logger "warn" "Erreur lors de la recherche de profils Opera";;
                 mret found);
    if bool_decide (length found = 0)
    then throw (Error "Aucun profil Opera trouvé")
    else log logger "debug" "Profils Opera trouvés";; mret found.

Definition getProfiles (this : Installer) : M (list path) :=
    found ← getOperaProfiles this;
    match profiles (options this) with
    | None | Some [] => mret found
    | Some wanted =>
        operaPath ← getOperaPath this;
        let localStateFile := path_join rt operaPath "Local State" in
        has_localState ← existsSync localStateFile;
        if (has_localState : bool) then
          localState ← read_json rt localStateFile;
          lift (Chromium.filter_profiles wanted localState found)
        else mret found
    end.

(** [if (!preferences.extensions) preferences.extensions = {};
     if (!preferences.extensions.opsettings) preferences.extensions.settings = {};] *)
Definition prepare_settings (preferences : value) : result value :=
    preferences ← Chromium.ensure preferences "extensions" (obj []);
    Chromium.update preferences "extensions"
      (λ e, opsettings ← get e "opsettings";
            if truthy opsettings then Ok e else set e "settings" (obj [])).

(** [preferences.extensions.opsettings[extensionId] = record] *)
Definition assign_record (extensionId : string) (record preferences : value) : result value :=
    Chromium.update preferences "extensions"
      (λ e, Chromium.update e "opsettings" (λ opsettings, set opsettings extensionId record)).

(** The body of [for (const profile of profiles)] from the extraction
    on, for a profile that is not skipped. The record is assigned under
    [opsettings], which only the file can have brought: the statement
    before it creates [settings]. *)
Definition unpack_and_patch (this : Installer) (extensionId : string) (crxFilePath : path)
      (manifest : value) (profile preferenceFile : path)
      (versionFormatted : string) (extensionVersionDir : path) : M completion :=
    extracted ← Chromium.extract_or_write_manifest rt logger this crxFilePath
                  extensionVersionDir manifest;
    match extracted with
    | Return => mret Return
    | Next =>
        has_preferences ← existsSync preferenceFile;
        if negb has_preferences then mret Next
        else
          log logger "debug" "Mise à jour des préférences";;
          preferences ← read_json rt preferenceFile;
          preferences ← lift (prepare_settings preferences);
          record ← Chromium.build_settings_record rt extensionId versionFormatted manifest;
          preferences ← lift (assign_record extensionId record preferences);
          preferences ← Chromium.ensure_and_register rt this extensionId preferences;
          Chromium.write_and_relaunch rt logger true opera this profile
            preferenceFile preferences
    end.

(** The body of [for (const profile of profiles)]: the version directory
    is made and filled before the Preferences file is looked for. *)
Definition install_profile (this : Installer) (extensionId : string)
      (crxFilePath : path) (manifest : value) (profile : path) : M completion :=
    let preferenceFile := path_join rt profile "Preferences" in
    let extensionsDir := path_join rt (path_join rt profile "Extensions") extensionId in
    has_extensionsDir ← existsSync extensionsDir;
    when (negb has_extensionsDir) (mkdirSync extensionsDir);;
    versionFormatted ← lift (Chromium.version_directory manifest);
    let extensionVersionDir := path_join rt extensionsDir versionFormatted in
    log logger "debug" "Dossier de version formaté";;
    log logger "debug" "Chemin complet du dossier de version";;
    Chromium.check_existing logger this extensionVersionDir
      (mkdirSync extensionVersionDir;;
       unpack_and_patch this extensionId crxFilePath manifest profile preferenceFile
         versionFormatted extensionVersionDir).

(** The loop over the profiles and the cleaning that follows it; a
    [return] in the body leaves the function before the cleaning. *)
Definition install_all (this : Installer) (extensionId : string) (crxFilePath : path)
      (manifest : value) (targets : list path) : M unit :=
    outcome ← for_of targets (install_profile this extensionId crxFilePath manifest);
    match outcome with
    | Return => mret tt
    | Next => Chromium.cleanup logger this
    end.

(** Unlike utils/vivaldi.ts, the [catch] after [extractManifestFromCrx]
    only logs: [manifest] keeps what was assigned to it, and is [undefined]
    when the call itself has thrown. *)
Definition installExtension (this : Installer) (extensionId : string) : M unit :=
    try_catch
      (BrowserController.close opera;;
       targets ← getProfiles this;
       log logger "info" "Installation de l'extension pour profils Opera";;
       crxFilePath ← Chromium.download rt logger true this extensionId;
       manifest ← try_catch
                    (manifest ← Extensions.extractManifestFromCrx rt crxFilePath;
                     try_catch
                       (summary ← lift (Chromium.manifest_summary rt manifest);
                        log logger "info"
                          ("Informations de l'extension récupérées: " +:+ summary);;
                        mret manifest)
                       (λ error,
                          log logger "warn"
                            "Impossible de récupérer les informations de l'extension";;
                          mret manifest))
                    (λ error,
                       log logger "warn"
                         "Impossible de récupérer les informations de l'extension";;
                       mret VUndef);
       install_all this extensionId crxFilePath manifest targets)
      (λ error,
         log logger "error" "Erreur dans Opera.installExtension";;
         throw error).

(** [static async installExtension(userHomeDir, extensionId, configObject, pin)] *)
Definition installExtension_static (extensionId : string) (configObject : Config)
      (pin : bool) : M unit :=
    installer ← new (mkOptions None None None (Some true) None (Some pin) (Some configObject));
    installExtension installer extensionId.

End WithRuntime.
End Opera.

(** ** utils/firefox.ts *)

Module Firefox.

(** An entry of profiles.ini *)
Record Profile := mkProfile {
    name : string;
    location : path;                (* the field [path] *)
    is_default : bool;              (* the field [default] *)
    isRelative : option bool;
}.

Record FirefoxExtensionInstaller := mkFirefox {
    options : InstallerOptions;
    profileDir : path;
    extensionsDir : path;
}.

Section WithRuntime.

Context (rt : Runtime).

Definition logger : string := "Firefox".

(** [a ?? b] *)
Definition nullish_or (a b : value) : value :=
    match a with
    | VUndef | VNull => b
    | _ => a
    end.

(** [a !== b]: primitives by value; two objects met here are never the
    same object. *)
Definition strict_ne (a b : value) : bool :=
    match a, b with
    | VUndef, VUndef | VNull, VNull => false
    | VBool x, VBool y => negb (bool_decide (x = y))
    | VNum x, VNum y => negb (bool_decide (x = y))
    | VStr x, VStr y => negb (String.eqb x y)
    | _, _ => true
    end.

Definition path_to_string (p : path) : string :=
    foldr (λ segment text, "/" +:+ segment +:+ text) "" p.

Fixpoint first_existing (candidates : list path) : M (option path) :=
    match candidates with
    | [] => mret None
    | candidate :: rest =>
        found ← existsSync candidate;
        if (found : bool) then mret (Some candidate) else first_existing rest
    end.

Definition getDefaultFirefoxProfilesDir : M path :=
    let homeDir := homedir rt in
    match platform rt with
    | win32 => mret (homeDir ++ ["AppData"; "Roaming"; "Mozilla"; "Firefox"; "Profiles"])%list
    | darwin => mret (homeDir ++ ["Library"; "Application Support"; "Firefox"; "Profiles"])%list
    | linux =>
        found ← first_existing
                  [(homeDir ++ [".mozilla"; "firefox"])%list;
                   (homeDir ++ ["snap"; "firefox"; "common"; ".mozilla"; "firefox"])%list;
                   (homeDir ++ [".var"; "app"; "org.mozilla.firefox"; "data"; "mozilla";
                                "firefox"])%list];
        match found with
        | Some p => log logger "info" "Found Firefox profiles directory";; mret p
        | None =>
            log logger "warn" "Could not find Firefox profiles directory, using default path";;
            mret (homeDir ++ [".mozilla"; "firefox"])%list
        end
    | other_platform => throw (Error "Unsupported platform")
    end.

(** One line of profiles.ini, in the [forEach] of [parseProfilesIni]:
    the profiles closed so far and the one being read. *)
Definition parse_line (basePath : path) (acc : list Profile * option Profile)
      (line : string) : M (list Profile * option Profile) :=
    let line := Str.trim line in
    if Str.startsWith line "[Profile" then
      mret (match acc.2 with
            | Some currentProfile => (acc.1 ++ [currentProfile])%list
            | None => acc.1
            end,
            Some (mkProfile "" [] false None))
    else
      match acc.2 with
      | None => mret acc
      | Some current =>
          if Str.startsWith line "Name=" then
            mret (acc.1, Some (mkProfile (Str.substring_from 5 line) (location current)
                                 (is_default current) (isRelative current)))
          else if Str.startsWith line "Path=" then
            let relativePath := Str.substring_from 5 line in
            let location :=
              if Str.startsWith relativePath "/" || Str.drive_prefix relativePath
              then path_join rt [] relativePath
              else path_join rt basePath relativePath in
            log logger "debug" "Found profile path";;
            mret (acc.1, Some (mkProfile (name current) location (is_default current)
                                 (isRelative current)))
          else if String.eqb line "Default=1" then
            mret (acc.1, Some (mkProfile (name current) (location current) true
                                 (isRelative current)))
          else if Str.startsWith line "IsRelative=" then
            mret (acc.1, Some (mkProfile (name current) (location current) (is_default current)
                                 (Some (String.eqb (Str.substring_from 11 line) "1"))))
          else mret acc
      end.

Fixpoint parse_lines (basePath : path) (acc : list Profile * option Profile)
      (lines : list string) : M (list Profile * option Profile) :=
    match lines with
    | [] => mret acc
    | line :: rest => acc ← parse_line basePath acc line; parse_lines basePath acc rest
    end.

Definition parseProfilesIni (profilesIni : string) (basePath : path) : M (list Profile) :=
    acc ← parse_lines basePath ([], None) (Str.split "010" profilesIni);
    let found := match acc.2 with
                 | Some currentProfile => (acc.1 ++ [currentProfile])%list
                 | None => acc.1
                 end in
    log logger "info" "Found Firefox profiles";;
    mret found.

Definition read_profiles_ini (p : path) : M (list Profile) :=
    content ← readFileSync p;
    parseProfilesIni (string_of_list_byte content) (Fs.dirname p).

Definition getFirefoxProfiles : M (list Profile) :=
    try_catch
      (dir ← getDefaultFirefoxProfilesDir;
       let profilesIniPath := path_join rt dir "profiles.ini" in
       found ← existsSync profilesIniPath;
       if negb found then
         log logger "error" "Firefox profiles.ini not found";;
         if bool_decide (platform rt = win32) then
           alt ← first_existing
                   [(homedir rt ++ ["AppData"; "Roaming"; "Mozilla"; "Firefox"; "profiles.ini"])%list;
                    (homedir rt ++ ["AppData"; "Local"; "Mozilla"; "Firefox"; "profiles.ini"])%list];
           match alt with
           | Some altPath =>
               log logger "info" "Found profiles.ini at alternative location";;
               read_profiles_ini altPath
           | None => mret []
           end
         else mret []
       else
         content ← readFileSync profilesIniPath;
         log logger "info" "Reading profiles.ini";;
         parseProfilesIni (string_of_list_byte content) (Fs.dirname profilesIniPath))
      (λ error, log logger "error" "Error parsing Firefox profiles";; mret []).

(** The first directory among the entries of the fallback directory *)
Fixpoint first_directory (dir : path) (entries : list string) : M (option path) :=
    match entries with
    | [] => mret None
    | entry :: rest =>
        let profilePath := path_join rt dir entry in
        is_directory ← isDirectory profilePath;
        if (is_directory : bool)
        then log logger "info" "Using fallback profile";; mret (Some profilePath)
        else first_directory dir rest
    end.

Definition findProfileDirectory (installDir : path) : M path :=
    try_catch
      (found ← getFirefoxProfiles;
       match found with
       | [] =>
           fallback ←
             (if bool_decide (platform rt = win32) then
                let defaultProfilePath := path_join rt installDir "Profiles" in
                present ← existsSync defaultProfilePath;
                if (present : bool) then
                  entries ← readdirSync defaultProfilePath;
                  first_directory defaultProfilePath entries
                else mret None
              else mret None);
           match fallback with
           | Some profilePath => mret profilePath
           | None => throw (Error "No Firefox profile found")
           end
       | first :: _ =>
           let defaultProfile := default first (find is_default found) in
           log logger "info" "Using profile";;
           mret (location defaultProfile)
       end)
      (λ error, log logger "error" "Error finding Firefox profile";; throw error).

(** The options of the constructor, [installDir] being what
    [this.options.installDir ??= this.getDefaultFirefoxProfilesDir()] leaves.
    They have no [pinExtension]. *)
Definition default_options (o : InstallerOptions) (installDir : path) : InstallerOptions :=
    mkOptions (profiles o) (Some installDir)
      (Some (default (path_join rt (tmpdir rt) "firefox-extensions") (downloadDir o)))
      (Some (default false (forceReinstall o)))
      (Some (default "info" (logLevel o))) None (config o).

(** The constructor. *)
Definition new (o : InstallerOptions) : M FirefoxExtensionInstaller :=
    let downloads := default (path_join rt (tmpdir rt) "firefox-extensions") (downloadDir o) in
    installDir ← match installDir o with
                 | Some dir => mret dir
                 | None => getDefaultFirefoxProfilesDir
                 end;
    let opts := default_options o installDir in
    downloads_exist ← existsSync downloads;
    (if truthy_path (Some downloads) && negb downloads_exist
     then mkdirSync downloads;; emit (Log logger "debug" "Dossier de téléchargement créé")
     else mret tt);;
    profileDir ← findProfileDirectory installDir;
    if bool_decide (profileDir = [])
    then throw (Error "Could not determine Firefox profile directory")
    else
      let extensionsDir := path_join rt profileDir "extensions" in
      extensions_exist ← existsSync extensionsDir;
      (if negb extensions_exist
       then mkdirSync extensionsDir;; emit (Log logger "debug" "Dossier d'extensions créé")
       else mret tt);;
      emit (Log logger "debug" "Dossier d'extensions");;
      emit (Log logger "debug" "Configuration");;
      mret (mkFirefox opts profileDir extensionsDir).

Definition isFirefoxRunning : M bool := mret (firefox_running rt).

Definition getExtensionFilename (extensionId : string) : string :=
    if Str.startsWith extensionId "http" then
      let lastPart := default "" (last (Str.split "/" extensionId)) in
      if negb (String.eqb lastPart "") && negb (Str.includes lastPart "?")
      then Str.remove_suffix ".xpi" lastPart
      else md5 rt extensionId
    else extensionId.

Definition http_status_error (statusCode : Z) : exn :=
    Error ("Failed to download extension: HTTP status " +:+ pretty statusCode).

Definition downloadExtension (this : FirefoxExtensionInstaller) (extensionId : string)
    : M path :=
    let url :=
      if Str.startsWith extensionId "http://" || Str.startsWith extensionId "https://"
      then extensionId
      else "https://addons.mozilla.org/firefox/downloads/latest/" +:+ extensionId
           +:+ "/addon-" +:+ extensionId +:+ "-latest.xpi" in
    if negb (truthy_path (downloadDir (options this)))
    then throw (Error "Download directory not specified")
    else
      let xpiFilePath := path_join rt (default [] (downloadDir (options this)))
                           (getExtensionFilename extensionId +:+ ".xpi") in
      log logger "debug" "Downloading from";;
      Chromium.createWriteStream xpiFilePath;;
      match https_get rt url with
      | RequestError => Chromium.unlink xpiFilePath;; throw TransportError
      | Response statusCode location body =>
          if bool_decide (statusCode = 302%Z ∨ statusCode = 301%Z) then
            log logger "debug" "Redirecting to";;
            match https_get rt location with
            | RequestError => Chromium.unlink xpiFilePath;; throw TransportError
            | Response redirectStatus _ redirectBody =>
                if bool_decide (redirectStatus ≠ 200%Z)
                then throw (http_status_error redirectStatus)
                else Chromium.pipe redirectBody xpiFilePath;;
                     log logger "info" "Downloaded extension";;
                     mret xpiFilePath
            end
          else if bool_decide (statusCode = 200%Z) then
            Chromium.pipe body xpiFilePath;;
            log logger "info" "Downloaded extension";;
            mret xpiFilePath
          else throw (http_status_error statusCode)
      end.

(** [openFirefoxWithConfigUrl]: the only test is that the configuration
    object is there; it answers [undefined], [true] or [false]. *)
Definition openFirefoxWithConfigUrl (profileName : string) (configParams : option Config)
    : M (option bool) :=
    try_catch
      (match configParams with
       | None => mret None
       | Some params =>
           let configUrl := show (smartLinkUrl params) +:+ "/#SmartLinkExtensionSecret="
                            +:+ show (secret params) in
           BrowserController.openWithUrl firefox configUrl profileName;;
           log logger "info" "Firefox closed after loading configuration URL";;
           mret (Some true)
       end)
      (λ error, log logger "error" "Failed to open Firefox with config URL";; mret (Some false)).

(** The entry appended to [addons]. *)
Definition newExtension (id version name description : value) (target : path)
      (installDate syncGUID_time : Z) (id_text : string) : value :=
    obj
      [("id", id);
       ("syncGUID", VStr (md5 rt (id_text +:+ "-" +:+ pretty syncGUID_time)));
       ("location", VStr "app-profile");
       ("version", version);
       ("type", VStr "extension");
       ("internalName", VNull);
       ("updateURL", VNull);
       ("updateKey", VNull);
       ("optionsURL", VNull);
       ("optionsType", VNull);
       ("aboutURL", VNull);
       ("defaultLocale",
        obj [("name", name); ("description", description);
             ("creator", VNull); ("homepageURL", VNull)]);
       ("visible", VBool true);
       ("active", VBool true);
       ("userDisabled", VBool false);
       ("appDisabled", VBool false);
       ("embedderDisabled", VBool false);
       ("installDate", VNum installDate);
       ("updateDate", VNum installDate);
       ("applyBackgroundUpdates", VNum 1);
       ("path", VStr (path_to_string target));
       ("skinnable", VBool false);
       ("sourceURI", VNull);
       ("releaseNotesURI", VNull);
       ("softDisabled", VBool false);
       ("foreignInstall", VBool false);
       ("strictCompatibility", VBool false);
       ("locales", arr []);
       ("targetApplications",
        arr [obj [("id", VStr "{ec8030f7-c20a-464f-9b0e-13a3a9e97384}");
                  ("minVersion", VStr "42.0");
                  ("maxVersion", VStr "*")]]);
       ("targetPlatforms", arr []);
       ("multiprocessCompatible", VBool true);
       ("signedState", VNum 0);
       ("seen", VBool true);
       ("dependencies", arr []);
       ("incognito", VStr "spanning");
       ("userPermissions", VNull);
       ("icons", obj []);
       ("iconURL", VNull);
       ("blocklistState", VNum 0);
       ("blocklistURL", VNull);
       ("startupData", VNull);
       ("hidden", VBool false);
       ("installTelemetryInfo",
        obj [("source", VStr "file"); ("sourceURL", VNull); ("method", VStr "install")]);
       ("recommendationState", VNull);
       ("rootURI", VStr ("jar:file://" +:+ path_to_string target +:+ "!/"));
       ("temporarilyInstalled", VBool false)].

(** [addons.filter((addon) => addon.id !== id)] *)
Fixpoint without_id (id : value) (addons : list value) : result (list value) :=
    match addons with
    | [] => Ok []
    | addon :: rest =>
        addon_id ← get addon "id";
        kept ← without_id id rest;
        Ok (if strict_ne addon_id id then addon :: kept else kept)
    end.

Definition remove_existing (id : value) (extensionsData : value) : result value :=
    addons ← get extensionsData "addons";
    if truthy addons then
      match addons with
      | VArr elems props =>
          if bool_decide (props !! "filter" = None)
          then kept ← without_id id elems; set extensionsData "addons" (arr kept)
          else Throw TypeError
      | _ => Throw TypeError
      end
    else set extensionsData "addons" (arr []).

(** [updateExtensionsJson]: whatever fails is logged and dropped. *)
Definition updateExtensionsJson (profilePath : path)
      (id name description version : value) (target : path) (installDate : Z) : M unit :=
    try_catch
      (let extensionsJsonPath := path_join rt profilePath "extensions.json" in
       present ← existsSync extensionsJsonPath;
       extensionsData ←
         (if (present : bool) then
            try_catch (read_json rt extensionsJsonPath)
              (λ error,
                 log logger "warn" "Could not parse extensions.json, creating a new one";;
                 mret (obj [("addons", arr [])]))
          else mret (obj [("addons", arr [])]));
       extensionsData ← lift (remove_existing id extensionsData);
       id_text ← lift (to_string rt id);
       syncGUID_time ← now rt;
       let entry := newExtension id version name description target installDate
                      syncGUID_time id_text in
       extensionsData ← lift (Chromium.update extensionsData "addons" (λ a, push a entry));
       writeFileSync extensionsJsonPath (JSON_stringify rt extensionsData);;
       log logger "info" "Updated extensions.json")
      (λ error, log logger "error" "Failed to update extensions.json").

(** [manifest.browser_specific_settings?.gecko?.id] and the same under
    [applications] *)
Definition gecko_id (manifest : value) (k : string) : result value :=
    settings ← get manifest k;
    gecko ← get_opt settings "gecko";
    get_opt gecko "id".

(** The body of the loop of [installXpi] over the profiles *)
Definition install_in_profile (this : FirefoxExtensionInstaller)
      (extensionId name description version : value) (zipBuffer : bytes) (installDate : Z)
      (profile : Profile) : M completion :=
    let extensionsDir := path_join rt (location profile) "extensions" in
    present ← existsSync extensionsDir;
    when (negb present) (mkdirSync extensionsDir);;
    id_text ← lift (to_string rt extensionId);
    let targetPath := path_join rt extensionsDir (id_text +:+ ".xpi") in
    writeFileSync targetPath zipBuffer;;
    log logger "info" "Installed extension";;
    updateExtensionsJson (location profile) extensionId name description version targetPath
      installDate;;
    openFirefoxWithConfigUrl (Firefox.name profile) (config (options this));;
    mret Next.

(** [!this.options.profiles || this.options.profiles.includes(profile.name)] *)
Definition is_wanted (this : FirefoxExtensionInstaller) (profile : Profile) : bool :=
    match profiles (options this) with
    | None => true
    | Some wanted => bool_decide (Firefox.name profile ∈ wanted)
    end.

Definition installXpi (this : FirefoxExtensionInstaller) (xpiFilePath : path) : M value :=
    try_catch
      (content ← readFileSync xpiFilePath;
       entries ← match AdmZip rt content with
                 | Some entries => mret entries
                 | None => throw (Error "Invalid or unsupported zip format")
                 end;
       manifestContent ← match list_find (λ entry, entry.1 = "manifest.json") entries with
                         | Some found => mret found.2.2
                         | None => throw (Error "Invalid extension: manifest.json not found")
                         end;
       manifest ← match JSON_parse rt manifestContent with
                  | Some v => mret v
                  | None => throw SyntaxError
                  end;
       from_settings ← lift (gecko_id manifest "browser_specific_settings");
       extensionId ← (if truthy from_settings then mret from_settings
                      else lift (gecko_id manifest "applications"));
       extensionId ← (if truthy extensionId then mret extensionId
                      else
                        log logger "warn"
                          "Extension ID not found in manifest, generating a random ID";;
                        t ← now rt;
                        mret (VStr ("random-" +:+ md5 rt (pretty t) +:+ "@temporary.addon")));
       let zipBuffer := AdmZip_toBuffer rt entries in
       name ← lift (get manifest "name");
       version ← lift (get manifest "version");
       description ← lift (get manifest "description");
       is_there ← existsSync xpiFilePath;
       (if negb is_there then throw (SystemError "ENOENT") else mret tt);;
       let installDate := mtime rt xpiFilePath in
       found ← getFirefoxProfiles;
       let targets := filter (λ profile, is_wanted this profile = true) found in
       for_of targets
         (install_in_profile this extensionId
            (nullish_or name (VStr "Unknown Extension"))
            (nullish_or description (VStr ""))
            (nullish_or version (VStr "0.0.0"))
            zipBuffer installDate);;
       mret extensionId)
      (λ error, log logger "error" "Failed to install extension";; throw error).

Definition isExtensionInstalled (this : FirefoxExtensionInstaller) (extensionId : string)
    : M bool :=
    existsSync (path_join rt (extensionsDir this) (extensionId +:+ ".xpi")).

(** [installExtension]: it answers [true] or [false], whatever is thrown
    inside; only the end of the process, at a stream that cannot be opened
    in [downloadExtension], leaves it otherwise. *)
Definition installExtension (this : FirefoxExtensionInstaller) (extensionIdOrUrl : string)
    : M bool :=
    try_catch
      (log logger "info" "Installing extension";;
       let lastPart := default "" (last (Str.split "/" extensionIdOrUrl)) in
       let extensionId :=
         if Str.includes extensionIdOrUrl "/"
            && (Str.includes lastPart "@" && Str.endsWith lastPart ".xpi")
         then Str.remove_first ".xpi" lastPart
         else extensionIdOrUrl in
       installed ← isExtensionInstalled this extensionId;
       if installed && negb (truthy_flag (forceReinstall (options this))) then
         log logger "info"
           "Extension is already installed. Use forceReinstall option to reinstall.";;
         mret true
       else
         (match config (options this) with
          | Some _ =>
              running ← isFirefoxRunning;
              if (running : bool) then
                log logger "info" "Firefox is running. Closing Firefox before installation...";;
                BrowserController.close firefox;;
                emit (Wait 2000)
              else mret tt
          | None => mret tt
          end);;
         xpiFilePath ← downloadExtension this extensionIdOrUrl;
         installXpi this xpiFilePath;;
         still_there ← existsSync xpiFilePath;
         when still_there (unlinkSync xpiFilePath);;
         mret true)
      (λ error, log logger "error" "Failed to install extension";; mret false).

(** [installExtensions]: the results by extension id, and the summary. *)
Fixpoint install_each (this : FirefoxExtensionInstaller) (extensionIds : list string)
      (results : gmap string bool) : M (gmap string bool) :=
    match extensionIds with
    | [] => mret results
    | extensionId :: rest =>
        success ← installExtension this extensionId;
        install_each this rest (<[extensionId:=success]> results)
    end.

Definition installExtensions (this : FirefoxExtensionInstaller) (extensionIds : list string)
    : M (gmap string bool) :=
    results ← install_each this extensionIds ∅;
    log logger "info" (Str.newline +:+ "==== Installation Summary ====");;
    for_of (map_to_list results)
      (λ entry, log logger "info"
                  (entry.1 +:+ ": "
                   +:+ (if entry.2 : bool then "✓ Success" else "✗ Failed"));;
                mret Next);;
    log logger "info"
      (Str.newline +:+ "Total: " +:+ pretty (length extensionIds)
       +:+ ", Successful: "
       +:+ pretty (length (filter (λ entry, entry.2 = true) (map_to_list results)))
       +:+ ", Failed: "
       +:+ pretty (length (filter (λ entry, entry.2 = false) (map_to_list results))));;
    mret results.

(** [cleanup] *)
Definition cleanup (this : FirefoxExtensionInstaller) : M unit :=
    let dir := default [] (downloadDir (options this)) in
    present ← existsSync dir;
    if truthy_path (downloadDir (options this)) && present then
      log logger "debug" "Cleaning up download directory";;
      try_catch (rmSync dir)
        (λ error, log logger "warn" "Failed to clean up download directory")
    else mret tt.

End WithRuntime.
End Firefox.

(** ** installExtension.ts and the entry point *)

Module Command.

(** The parsed arguments of the command. *)
Record Argv := mkArgv {
    smartLinkUrl : option string;
    secret : option string;
    browser : option string;
    profiles : option (list string);
    installDir : option path;
    downloadDir : option path;
    forceReinstall : option bool;
    logLevel : option string;
    pinExtension : option bool;
}.

(** [s.toLowerCase()], on the letters of ASCII *)
Definition lower (c : ascii) : ascii :=
    let n := nat_of_ascii c in
    if Nat.leb 65 n && Nat.leb n 90 then ascii_of_nat (n + 32) else c.

Fixpoint toLowerCase (s : string) : string :=
    match s with
    | EmptyString => EmptyString
    | String c r => String (lower c) (toLowerCase r)
    end.

(** [const installerOptions: InstallerOptions = { ... }] *)
Definition installerOptions (argv : Argv) : InstallerOptions :=
    mkOptions (profiles argv) (installDir argv) (downloadDir argv)
      (Some match forceReinstall argv with
            | Some b => b
            | None => true
            end)
      (Some (if truthy_string (logLevel argv) then default "" (logLevel argv) else "info"))
      (pinExtension argv)
      (Some (mkConfig (smartLinkUrl argv) (secret argv))).

Section WithRuntime.

Context (rt : Runtime).

(** utils/chrome.ts, utils/edge.ts and utils/brave.ts are not part of the
    sources at hand: [new Chrome(options).installExtension(id)] and its
    two siblings are parameters. *)
Context (Chrome_install Edge_install Brave_install : InstallerOptions → string → M unit).

Definition logger : string := "InstallExtension".

Definition chromiumExtensionId : string := "hfkipjpbjnpdpaofpilegpmbbfhmoceb".

(** One branch of the chain of [if]s: the installer runs inside a [try]
    whose [catch] logs and throws again. *)
Definition branch (name : string) (install : M unit) : M unit :=
    log logger "info" ("Installation pour " +:+ name +:+ " - Initialisation");;
    log logger "info" ("Installation de l'extension pour " +:+ name);;
    try_catch
      (install;;
       log logger "info" ("Installation de l'extension " +:+ name +:+ " terminée avec succès"))
      (λ error,
         log logger "error" ("Erreur spécifique à " +:+ name +:+ ": " +:+ describe error);;
         throw error).

Definition installExtensionCommand (argv : Argv) : M unit :=
    try_catch
      (log logger "debug" "Arguments de la commande";;
       let browser := if truthy_string (browser argv) then default "" (browser argv)
                      else "chrome" in
       let installerOptions := installerOptions argv in
       log logger "info" ("Début du processus d'installation pour " +:+ toLowerCase browser);;
       log logger "debug" "Options d'installation";;
       (if String.eqb (toLowerCase browser) "chrome" then
          branch "Chrome" (Chrome_install installerOptions chromiumExtensionId)
        else if String.eqb (toLowerCase browser) "edge" then
          branch "Edge" (Edge_install installerOptions chromiumExtensionId)
        else if String.eqb (toLowerCase browser) "brave" then
          branch "Brave" (Brave_install installerOptions chromiumExtensionId)
        else if String.eqb (toLowerCase browser) "opera" then
          branch "Opera"
            (operaInstaller ← Opera.new rt installerOptions;
             log logger "debug" "Instance Opera créée, début de l'installation";;
             Opera.installExtension rt operaInstaller chromiumExtensionId)
        else if String.eqb (toLowerCase browser) "firefox" then
          branch "Firefox"
            (log logger "debug" "Création de l'instance Firefox";;
             Firefox ← Firefox.new rt installerOptions;
             Firefox.installExtensions rt Firefox ["smartlink-extension"];;
             mret tt)
        else if String.eqb (toLowerCase browser) "vivaldi" then
          branch "Vivaldi"
            (vivaldiInstaller ← Vivaldi.new rt installerOptions;
             log logger "debug" "Instance Vivaldi créée, début de l'installation";;
             Vivaldi.installExtension rt vivaldiInstaller chromiumExtensionId)
        else
          log logger "error" ("Navigateur non supporté: " +:+ browser);;
          throw (Error ("Navigateur non supporté: " +:+ browser)));;
       log logger "info" ("Installation réussie pour " +:+ browser))
      (λ error,
         log logger "error" ("Erreur lors de l'installation de l'extension: " +:+ describe error);;
         throw error).

(** The entry point: the handler of the command awaits
    [installExtensionCommand]; when it rejects, the [fail] handler logs the
    error and calls [process.exit(1)]. Parsing the command line is left to
    yargs. *)
Definition cli (argv : Argv) : M unit :=
    (if truthy_string (logLevel argv)
     then log "CLI" "debug" "Niveau de log configuré" else mret tt);;
    log "CLI" "debug" "Exécution de la commande install-extension";;
    try_catch (installExtensionCommand argv)
      (λ err,
         log "CLI" "error" ("Erreur: " +:+ message_of err);;
         emit (Exit 1)).

End WithRuntime.

(** The status the process ends with: the code given to the first
    [process.exit], or 1 when an unhandled 'error' event ends it first;
    0 when the program runs to its end. *)
Fixpoint exit_code (trace : list event) : Z :=
    match trace with
    | [] => 0
    | Exit code :: _ => code
    | _ :: rest => exit_code rest
    end.

End Command.

(** ** The vocabulary of the properties *)

(** A name that is one segment of a path: not empty, not "." or "..", and
    without a separator. The identifier of an extension (32 letters) is
    one. *)
Definition plain_name (name : string) : bool :=
    negb (String.eqb name "") && negb (String.eqb name ".") && negb (String.eqb name "..")
    && forallb (λ c, negb (Ascii.eqb c "/") && negb (Ascii.eqb c "\"))
         (list_ascii_of_string name).

Definition no_dot (s : string) : bool :=
    forallb (λ c, negb (Ascii.eqb c ".")) (list_ascii_of_string s).

(** Whatever the outcome of the run of [m], the file system after it is
    related by [R] to the one before. *)
Definition respects (R : Fs.t → Fs.t → Prop) {A} (m : M A) : Prop :=
    ∀ s r s', m s = (r, s') → R (fs s) (fs s').

(** The file at [p], and whether [p] is a directory, are the same. *)
Definition untouched (p : path) (a b : Fs.t) : Prop :=
    Fs.files b !! p = Fs.files a !! p ∧ Fs.is_dir b p = Fs.is_dir a p.

(** What [r], what a run of [m], throws can be caught: the process does
    not end in it. *)
Definition catchable {A} (r : result A) : Prop :=
    ∀ e, r = Throw e → fatal e = false.

Definition survives {A} (m : M A) : Prop :=
    ∀ s e s', m s = (Throw e, s') → fatal e = false.

(** The process has ended in this run: the last event is its exit, with
    status 1, and no handler has run after it. *)
Definition ended {A} (run : result A * state) : Prop :=
    ∃ code, run.1 = Throw (Unhandled code) ∧ last (trace run.2) = Some (Exit 1).


(** When the run of [m] ends with an exception, the file system after it
    is related by [R] to the one before. *)
Definition fails_within (R : Fs.t → Fs.t → Prop) {A} (m : M A) : Prop :=
    ∀ s e s', m s = (Throw e, s') → R (fs s) (fs s').

(** No file and no directory disappears. *)
Definition grows (a b : Fs.t) : Prop :=
    ∀ q, (Fs.is_dir a q = true → Fs.is_dir b q = true)
         ∧ (Fs.is_file a q = true → Fs.is_file b q = true).

(** The statements of the body of the loop between [JSON.parse] and
    [fs.writeFileSync], for the two statements in which Vivaldi and Opera
    differ: from [preferences] they make [preferences'], for some record
    and some reading of the clock. *)
Definition patches (prepare : value → result value)
    (assign : string → value → value → result value)
    (this : Installer) (extensionId : string) (preferences preferences' : value) : Prop :=
    ∃ record install_time p1 p2 p3,
      prepare preferences = Ok p1
      ∧ assign extensionId record p1 = Ok p2
      ∧ Chromium.ensure_external p2 = Ok p3
      ∧ Chromium.register this extensionId install_time p3 = Ok preferences'.

(** The keys of [preferences.extensions] that hold entries keyed by the
    identifier of an extension, and those that hold lists of identifiers *)
Definition sections : list string := ["settings"; "opsettings"; "external_extensions"].
Definition lists : list string := ["known_enabled"; "pinned_extensions"].

(** What an object of entries holds under every key but [extensionId] is
    what it held; a value that is not truthy counts as absent, as in the
    program. *)
Definition kept_entries (extensionId : string) (m m' : value) : Prop :=
    truthy m = true →
    truthy m' = true ∧ ∀ k, k ≠ extensionId → get m' k = get m k.

(** A list is the same, or the same array with elements added at its end. *)
Definition kept_list (l l' : value) : Prop :=
    truthy l = true →
    l' = l ∨ ∃ elems elems' props,
               l = VArr elems props ∧ l' = VArr elems' props ∧ elems `prefix_of` elems'.

Definition kept_extensions (extensionId : string) (e e' : value) : Prop :=
    truthy e = true →
    truthy e' = true
    ∧ (∀ k, k ∉ sections → k ∉ lists → get e' k = get e k)
    ∧ (∀ k m m', k ∈ sections → get e k = Ok m → get e' k = Ok m' →
                 kept_entries extensionId m m')
    ∧ (∀ k l l', k ∈ lists → get e k = Ok l → get e' k = Ok l' → kept_list l l').

(** The frame of the patch: every key of the Preferences object but
    [extensions] holds what it held, and so does, inside [extensions],
    all that is not the entry or the list element of [extensionId]. *)
Definition frame (extensionId : string) (preferences preferences' : value) : Prop :=
    (∀ k, k ≠ "extensions" → get preferences' k = get preferences k)
    ∧ (∀ e e', get preferences "extensions" = Ok e → get preferences' "extensions" = Ok e' →
               kept_extensions extensionId e e').

(** The values added to the registry, in their order: the hive and the
    identifier of the extension *)
Definition registry_writes (t : list event) : list (string * string) :=
    omap (λ e, match e with
               | RegAdd hive _ extensionId => Some (hive, extensionId)
               | _ => None
               end) t.

(** [preferences.extensions[key][extensionId]] is [x], and
    [preferences.extensions[key]] is a list that includes [extensionId]. *)
Definition holds_under (key extensionId : string) (x : value) (preferences : value) : Prop :=
    ∃ e m, get preferences "extensions" = Ok e ∧ get e key = Ok m ∧ get m extensionId = Ok x.

Definition lists_it (key extensionId : string) (preferences : value) : Prop :=
    ∃ e l, get preferences "extensions" = Ok e ∧ get e key = Ok l
           ∧ JS.includes l extensionId = Ok true.

(** A line that the command itself logs *)
Definition command_log (e : event) : Prop :=
    ∃ level message, e = Log Command.logger level message.

(** [command] runs [install], and logs: from any state it logs, hands the
    state to [install], and logs again; it returns when [install] returns
    and throws what [install] throws, and the files it leaves are those
    that [install] leaves. *)
Definition runs_installer (command install : M unit) : Prop :=
    ∀ s, ∃ before, Forall command_log before ∧ ∃ after, Forall command_log after
      ∧ let run := install (mkState (fs s) (trace s ++ before) (clock s)) in
        command s = (run.1, mkState (fs run.2) (trace run.2 ++ after) (clock run.2)).

(** [browser.toLowerCase()], where [browser] is "chrome" when the argument
    is missing or empty *)
Definition selected (argv : Command.Argv) : string :=
    Command.toLowerCase (if truthy_string (Command.browser argv)
                         then default "" (Command.browser argv) else "chrome").

(** The statements of [installExtension] of Vivaldi (off Windows) and of
    Opera that come before the loop over the profiles: they answer the
    profiles, the path of the archive and the manifest. *)
Definition Vivaldi_before_loop (rt : Runtime) (this : Installer) (extensionId : string)
    : M (list path * path * value) :=
    BrowserController.close vivaldi;;
    targets ← Vivaldi.getProfiles rt this;
    log Vivaldi.logger "info" "Installation de l'extension pour profils Vivaldi";;
    crxFilePath ← Chromium.download rt Vivaldi.logger false this extensionId;
    manifest ← try_catch
                 (manifest ← Extensions.extractManifestFromCrx rt crxFilePath;
                  summary ← lift (Chromium.manifest_summary rt manifest);
                  log Vivaldi.logger "info"
                    ("Informations de l'extension récupérées: " +:+ summary);;
                  mret manifest)
                 (λ error,
                    log Vivaldi.logger "warn"
                      "Impossible de récupérer les informations de l'extension";;
                    mret (Extensions.fallback_manifest "VaultySid Vivaldi Extension"));
    mret (targets, crxFilePath, manifest).

Definition Opera_before_loop (rt : Runtime) (this : Installer) (extensionId : string)
    : M (list path * path * value) :=
    BrowserController.close opera;;
    targets ← Opera.getProfiles rt this;
    log Opera.logger "info" "Installation de l'extension pour profils Opera";;
    crxFilePath ← Chromium.download rt Opera.logger true this extensionId;
    manifest ← try_catch
                 (manifest ← Extensions.extractManifestFromCrx rt crxFilePath;
                  try_catch
                    (summary ← lift (Chromium.manifest_summary rt manifest);
                     log Opera.logger "info"
                       ("Informations de l'extension récupérées: " +:+ summary);;
                     mret manifest)
                    (λ error,
                       log Opera.logger "warn"
                         "Impossible de récupérer les informations de l'extension";;
                       mret manifest))
                 (λ error,
                    log Opera.logger "warn"
                      "Impossible de récupérer les informations de l'extension";;
                    mret VUndef);
    mret (targets, crxFilePath, manifest).

(** The two installers that loop over the profiles of a browser: the
    body of their loop, the loop with the cleaning after it, their
    [installExtension], their logger. *)
Inductive profile_installer := vivaldi_installer | opera_installer.

Definition install_profile_of (i : profile_installer) (rt : Runtime)
    : Installer → string → path → value → path → M completion :=
    match i with
    | vivaldi_installer => Vivaldi.install_profile rt
    | opera_installer => Opera.install_profile rt
    end.

Definition install_all_of (i : profile_installer) (rt : Runtime)
    : Installer → string → path → value → list path → M unit :=
    match i with
    | vivaldi_installer => Vivaldi.install_all rt
    | opera_installer => Opera.install_all rt
    end.

Definition installExtension_of (i : profile_installer) (rt : Runtime)
    : Installer → string → M unit :=
    match i with
    | vivaldi_installer => Vivaldi.installExtension rt
    | opera_installer => Opera.installExtension rt
    end.

Definition logger_of (i : profile_installer) : string :=
    match i with
    | vivaldi_installer => Vivaldi.logger
    | opera_installer => Opera.logger
    end.

(** The run of [installExtension] from [s] comes to the loop in the state
    [s0], with these profiles, this archive and this manifest. Vivaldi
    comes to the loop off Windows only. *)
Definition reaches_loop (i : profile_installer) (rt : Runtime) (this : Installer)
    (extensionId : string) (s : state) (targets : list path) (crxFilePath : path)
    (manifest : value) (s0 : state) : Prop :=
    match i with
    | vivaldi_installer =>
        platform rt ≠ win32
        ∧ Vivaldi_before_loop rt this extensionId s
          = (Ok (targets, crxFilePath, manifest), s0)
    | opera_installer =>
        Opera_before_loop rt this extensionId s = (Ok (targets, crxFilePath, manifest), s0)
    end.

(** ** Scenarios

    A Linux machine with one user, Vivaldi and Opera installed, each with
    the profile Default (and, for Vivaldi, Profile 1). The store answers
    every request with [download]; the archive tool knows one archive. *)

Module Scenario.

Definition braces : bytes := list_byte_of_string "{}".
Definition malformed : bytes := list_byte_of_string "{".
(** The text of a manifest.json that holds the version 1.0.0 and no more *)
Definition manifest_json : bytes :=
    [x7b; x22] ++ list_byte_of_string "version" ++ [x22; x3a; x22]
    ++ list_byte_of_string "1.0.0" ++ [x22; x7d].
Definition background_js : bytes := list_byte_of_string "console.log(1)".

(** A CRX file: a header of four bytes, then the ZIP payload. *)
Definition payload : bytes := [x50; x4b; x03; x04; x14; x00].
Definition crx : bytes := [x43; x72; x32; x34] ++ payload.

(** Six bytes without the signature, and five that end with it. *)
Definition garbage : bytes := [x00; x01; x02; x03; x04; x05].
Definition signature_last : bytes := [x00; x50; x4b; x03; x04].

(** The text of an object with the one key patched, which holds true *)
Definition patched_json : bytes :=
    [x7b; x22] ++ list_byte_of_string "patched" ++ [x22; x3a]
    ++ list_byte_of_string "true" ++ [x7d].

(** The text of a Preferences file that holds one key, the home page *)
Definition homepage_json : bytes :=
    [x7b; x22] ++ list_byte_of_string "homepage" ++ [x22; x3a; x22]
    ++ list_byte_of_string "about:blank" ++ [x22; x7d].

Definition parse (content : bytes) : option value :=
    if bool_decide (content = braces) then Some (obj [])
    else if bool_decide (content = manifest_json) then Some (obj [("version", VStr "1.0.0")])
    else if bool_decide (content = patched_json) then Some (obj [("patched", VBool true)])
    else if bool_decide (content = homepage_json)
    then Some (obj [("homepage", VStr "about:blank")])
    else None.

(** The serialiser of the scenarios prints the same well-formed text for
    every value; no statement reads more of it than that the parser accepts
    it. *)
Definition stringify (v : value) : bytes := patched_json.

Definition archive_entries : list (path * bytes) :=
    [(["manifest.json"], manifest_json); (["background.js"], background_js)].

Definition entries_of (zip : bytes) : option (list (path * bytes)) :=
    if bool_decide (zip = payload) then Some archive_entries else None.

Definition world (download : response) : Runtime := {|
    platform := linux;
    homedir := ["home"; "user"];
    tmpdir := ["tmp"];
    pid := 4242;
    JSON_parse := parse;
    JSON_stringify := stringify;
    object_to_string := λ _, Some "[object Object]";
    unzip := entries_of;
    https_get := λ _, download;
    Date_now := λ k, (1700000000000 + Z.of_nat k)%Z;
    net_session := false;
    reg_add := λ _, false;
    firefox_running := false;
    md5 := λ text, "d41d8cd98f00b204e9800998ecf8427e";
    AdmZip := λ zip, if bool_decide (zip = payload)
                     then Some [("manifest.json", manifest_json)] else None;
    AdmZip_toBuffer := λ _, payload;
    mtime := λ _, 1700000000000%Z;
  |}.

(** The store serves the CRX file. *)
Definition webstore : Runtime := world (Response 200 "" crx).

(** The store serves six bytes that hold no signature. *)
Definition junk_store : Runtime := world (Response 200 "" garbage).

(** Where the installers download the archive of the extension abc. *)
Definition crx_file : path := ["tmp"; "vaultysid-extension-download"; "abc.crx"].
Definition extension_zip : path := ["tmp"; "vaultysid-extension-download"; "extension.zip"].

(** The store answers 404; the add-ons site serves a plain ZIP file. *)
Definition not_found : Runtime := world (Response 404 "" []).
Definition addons_site : Runtime := world (Response 200 "" payload).

(** The command line names no option. *)
Definition no_arguments : Command.Argv :=
    Command.mkArgv None None None None None None None None None.

(** What yargs makes of [install-extension --browser name]: the options
    that have a default carry it, the URL and the secret are undefined. *)
Definition only_browser (name : string) : Command.Argv :=
    Command.mkArgv None None (Some name) None None None (Some false) (Some "info")
      (Some false).

(** The installers of Chrome, Edge and Brave are not at hand; the
    scenarios do not call them. *)
Definition absent : InstallerOptions → string → M unit :=
    λ _ _, throw (Error "utils/chrome.ts, utils/edge.ts, utils/brave.ts").

Definition vivaldi_dir : path := ["home"; "user"; ".config"; "vivaldi"].
Definition opera_dir : path := ["home"; "user"; ".config"; "opera"].
Definition firefox_dir : path := ["home"; "user"; ".mozilla"; "firefox"].

(** A disk with the given files, and the directories above them. *)
Definition disk (files : list (path * bytes)) : Fs.t :=
    Fs.mk (list_to_map files)
      (list_to_set (mjoin ((λ file, Fs.ancestors (Fs.dirname file.1)) <$> files))).

Definition start (files : list (path * bytes)) : state := mkState (disk files) [] 0.

Definition no_options : InstallerOptions := mkOptions None None None None None None None.

(** Both parts of the configuration supplied, or none. *)
Definition with_config : InstallerOptions :=
    mkOptions None None None None None None
      (Some (mkConfig (Some "https://smartlink.example") (Some "s3cret"))).

Definition empty_config : InstallerOptions :=
    mkOptions None None None None None None (Some (mkConfig None None)).

(** [new Vivaldi(options).installExtension(extensionId)] and its siblings *)
Definition run_vivaldi (rt : Runtime) (o : InstallerOptions) (extensionId : string) : M unit :=
    this ← Vivaldi.new rt o; Vivaldi.installExtension rt this extensionId.

Definition run_opera (rt : Runtime) (o : InstallerOptions) (extensionId : string) : M unit :=
    this ← Opera.new rt o; Opera.installExtension rt this extensionId.

Definition run_firefox (rt : Runtime) (o : InstallerOptions) (extensionIds : list string)
    : M (gmap string bool) :=
    this ← Firefox.new rt o; Firefox.installExtensions rt this extensionIds.

Definition vivaldi_preferences : path := vivaldi_dir ++ ["Default"; "Preferences"].
Definition opera_preferences : path := opera_dir ++ ["Default"; "Preferences"].
Definition vivaldi_version_dir : path :=
    vivaldi_dir ++ ["Default"; "Extensions"; "abc"; "1_0_0_0"].
Definition opera_version_dir : path :=
    opera_dir ++ ["Default"; "Extensions"; "abc"; "1_0_0_0"].

(** An installer as the constructor leaves it, given no option. *)
Definition installer (rt : Runtime) : Installer :=
    mkInstaller (Chromium.default_options rt no_options) (homedir rt).
Definition profiles_ini : bytes :=
    list_byte_of_string
      ("[Profile0]" +:+ Str.newline +:+ "Name=default" +:+ Str.newline
       +:+ "IsRelative=1" +:+ Str.newline +:+ "Path=abcd.default" +:+ Str.newline
       +:+ "Default=1" +:+ Str.newline).

(** Vivaldi with two profiles: the Preferences file of Default is
    malformed, the one of Profile 1 holds {}. *)
Definition two_profiles : state :=
    start [((vivaldi_dir ++ ["Default"; "Preferences"])%list, malformed);
           ((vivaldi_dir ++ ["Profile 1"; "Preferences"])%list, braces)].

Definition download_dir : path := ["tmp"; "vaultysid-extension-download"].

(** [new Vivaldi(options).getProfiles()] *)
Definition vivaldi_profiles (rt : Runtime) (o : InstallerOptions) : M (list path) :=
    this ← Vivaldi.new rt o; Vivaldi.getProfiles rt this.

(** A disk with a Vivaldi, an Opera and a Firefox profile. *)
Definition three_browsers : state :=
    start [(vivaldi_preferences, braces);
           (opera_preferences, braces);
           ((firefox_dir ++ ["profiles.ini"])%list, profiles_ini)].


(** The manifest of the archive, and the disk once the archive is
    downloaded; then the disk after the body of the loop of Vivaldi has run
    for the profile Default. *)
Definition version_1 : value := obj [("version", VStr "1.0.0")].
Definition downloaded : state :=
    start [(vivaldi_preferences, braces); (crx_file, crx)].
Definition installed_once : state :=
    (Vivaldi.install_profile webstore (installer webstore) "abc" crx_file version_1
       (vivaldi_dir ++ ["Default"])%list downloaded).2.

(** An Opera profile that holds a file History and no Preferences file,
    the archive being downloaded; then the disk once the version directory
    is made, once the ZIP part of the archive is written next to the
    archive, and once its entries are written. *)
Definition bare_profile : state :=
    start [((opera_dir ++ ["Default"; "History"])%list, []); (crx_file, crx)].
Definition made (r : result Fs.t) : Fs.t :=
    match r with
    | Ok a => a
    | Throw _ => Fs.mk ∅ ∅
    end.
Definition with_version_dir : Fs.t := made (Fs.mkdirSync (fs bare_profile) opera_version_dir).
Definition with_zip : Fs.t := made (Fs.writeFileSync with_version_dir extension_zip payload).
Definition unpacked : Fs.t :=
    made (Fs.write_entries opera_version_dir with_zip archive_entries).

(** The Preferences file of the profile Default of Vivaldi holds the home
    page; the disk after the body of the loop of Vivaldi has run for it. *)
Definition configured : state :=
    start [(vivaldi_preferences, homepage_json); (crx_file, crx)].
Definition patched_once : state :=
    (Vivaldi.install_profile webstore (installer webstore) "abc" crx_file version_1
       (vivaldi_dir ++ ["Default"])%list configured).2.

(** The same user under Windows, an administrator: the hive of the
    machine refuses the value, the hive of the user takes it. *)
Definition windows : Runtime := {|
    platform := win32;
    homedir := ["C:"; "Users"; "user"];
    tmpdir := ["C:"; "Temp"];
    pid := 4242;
    JSON_parse := parse;
    JSON_stringify := stringify;
    object_to_string := λ _, Some "[object Object]";
    unzip := entries_of;
    https_get := λ _, Response 200 "" crx;
    Date_now := λ k, (1700000000000 + Z.of_nat k)%Z;
    net_session := true;
    reg_add := λ hive, String.eqb hive "HKCU";
    firefox_running := false;
    md5 := λ text, "d41d8cd98f00b204e9800998ecf8427e";
    AdmZip := λ zip, if bool_decide (zip = payload)
                     then Some [("manifest.json", manifest_json)] else None;
    AdmZip_toBuffer := λ _, payload;
    mtime := λ _, 1700000000000%Z;
  |}.

(** The request to the store fails. *)
Definition offline : Runtime := world RequestError.

(** A Firefox installer for the profile abcd.default, and a disk on which
    the extension abc is installed in it. *)
Definition firefox_profile : path := firefox_dir ++ ["abcd.default"].
Definition firefox_installer : Firefox.FirefoxExtensionInstaller :=
    Firefox.mkFirefox (Firefox.default_options webstore no_options firefox_dir)
      firefox_profile (firefox_profile ++ ["extensions"]).
Definition xpi_installed : state :=
    start [((firefox_profile ++ ["extensions"; "abc.xpi"])%list, payload)].


(** Vivaldi with three profiles, which it finds in the order Default,
    Profile 2, Profile 1: the Preferences file of Profile 2 is malformed,
    the two others hold {}. Then the disk when [installExtension] comes to
    the loop, and when the loop has run for the profile Default. *)
Definition three_profiles : state :=
    start [((vivaldi_dir ++ ["Default"; "Preferences"])%list, braces);
           ((vivaldi_dir ++ ["Profile 1"; "Preferences"])%list, braces);
           ((vivaldi_dir ++ ["Profile 2"; "Preferences"])%list, malformed)].
Definition at_the_loop : state :=
    (Vivaldi_before_loop webstore (installer webstore) "abc" three_profiles).2.
Definition after_Default : state :=
    (Vivaldi.install_profile webstore (installer webstore) "abc" crx_file version_1
       (vivaldi_dir ++ ["Default"])%list at_the_loop).2.

(** Opera with three profiles, found in the same order: Default has no
    Preferences file, the file of the two others holds {}. *)
Definition opera_three_profiles : state :=
    start [((opera_dir ++ ["Default"; "History"])%list, []);
           ((opera_dir ++ ["Profile 1"; "Preferences"])%list, braces);
           ((opera_dir ++ ["Profile 2"; "Preferences"])%list, braces)].
Definition opera_at_the_loop : state :=
    (Opera_before_loop webstore (installer webstore) "abc" opera_three_profiles).2.
Definition opera_after_Default : state :=
    (Opera.install_profile webstore (installer webstore) "abc" crx_file version_1
       (opera_dir ++ ["Default"])%list opera_at_the_loop).2.
Definition opera_at_the_failure : state :=
    (Opera.install_profile webstore (installer webstore) "abc" crx_file version_1
       (opera_dir ++ ["Profile 2"])%list opera_after_Default).2.

(** The command line names Vivaldi and nothing else, and no default has
    been applied to it. Then the disk once the command has installed the
    extension, with an empty record of events. *)
Definition vivaldi_argument : Command.Argv :=
    Command.mkArgv None None (Some "Vivaldi") None None None None None None.
Definition installed_by_command : state :=
    mkState (fs (Command.installExtensionCommand webstore absent absent absent
                   vivaldi_argument three_browsers).2) [] 0.

(** A profile whose extensions.json does not parse. *)
Definition broken_registry : state :=
    start [((firefox_profile ++ ["extensions.json"])%list, malformed)].

(** A Local State that names the profile Default "Work", and a Vivaldi
    installer asked for the profiles of that name. *)
Definition local_state : value :=
    obj [("profile",
          obj [("info_cache", obj [("Default", obj [("name", VStr "Work")])])])].
Definition work_only (rt : Runtime) : Installer :=
    mkInstaller
      (Chromium.default_options rt (mkOptions (Some ["Work"]) None None None None None None))
      (homedir rt).

(** An extensions.json that lists the extension abc and one other. *)
Definition two_addons : value :=
    obj [("addons", arr [obj [("id", VStr "abc")]; obj [("id", VStr "other")]])].

End Scenario.

(** * Properties *)

#[local] Open Scope list_scope.

(** ** The version-coded directory name *)

Section VersionFacts.

Import Version.

Lemma strip_suffix_0_app (s : string) : strip_suffix_0 (s +:+ "_0") = Some s.
Proof.
  induction s as [|c s IH]; [reflexivity|].
  change (String c s +:+ "_0") with (String c (s +:+ "_0")).
  cbn [strip_suffix_0]. rewrite IH.
  destruct (String.eqb (String c (s +:+ "_0")) "_0") eqn:E; [|reflexivity].
  apply String.eqb_eq in E. injection E as _ E.
  destruct s as [|c' s]; [discriminate|].
  change (String c' s +:+ "_0") with (String c' (s +:+ "_0")) in E.
  injection E as _ E. destruct s; discriminate.
Qed.

Lemma replace_underscores_dots (v : string) :
  no_underscore v = true → replace_underscores (replace_dots v) = v.
Proof.
  unfold no_underscore. induction v as [|c v IH]; [reflexivity|].
  cbn [list_ascii_of_string forallb replace_dots replace_underscores].
  intros [Hc Hv]%andb_true_iff. rewrite (IH Hv). f_equal.
  destruct (Ascii.eqb c ".") eqn:Edot.
  - apply Ascii.eqb_eq in Edot. subst c. reflexivity.
  - destruct (Ascii.eqb c "_"); [discriminate|reflexivity].
Qed.

Lemma version_string_no_underscore (v : string) :
  is_version_string v = true → no_underscore v = true.
Proof.
  unfold is_version_string, no_underscore.
  induction (list_ascii_of_string v) as [|c l IH]; [reflexivity|].
  cbn [forallb]. intros [Hc Hl]%andb_true_iff.
  rewrite (IH Hl), andb_true_r.
  destruct (Ascii.eqb c "_") eqn:E; [|reflexivity].
  apply Ascii.eqb_eq in E. subst c. discriminate.
Qed.

End VersionFacts.

(** C8. The mapping from a version string to the name of the version
    directory is a total function: the string with each dot replaced by an
    underscore, followed by "_0". On version strings (dot-separated
    components that hold no underscore, as the numeric components of a
    manifest version) the version is recovered from the directory name, so
    the mapping is injective there. *)
Theorem version_directory_reversible (v : string) :
  Version.no_underscore v = true →
  Version.versionFormatted v = Version.replace_dots v +:+ "_0"
  ∧ Version.version_of_directory (Version.versionFormatted v) = Some v
  ∧ ∀ w, Version.no_underscore w = true →
         Version.versionFormatted w = Version.versionFormatted v → w = v.
Proof.
  intros Hv.
  assert (Hrec : ∀ u, Version.no_underscore u = true →
            Version.version_of_directory (Version.versionFormatted u) = Some u).
  { intros u Hu. unfold Version.version_of_directory, Version.versionFormatted.
    rewrite strip_suffix_0_app. cbn. by rewrite replace_underscores_dots. }
  split; [reflexivity|]. split; [by apply Hrec|].
  intros w Hw Heq. apply Hrec in Hw. apply Hrec in Hv.
  rewrite Heq in Hw. congruence.
Qed.

Lemma version_directory_reversible_witness :
  Version.no_underscore "1.2.3" = true
  ∧ Version.versionFormatted "1.2.3" = "1_2_3_0"
  ∧ Version.version_of_directory "1_2_3_0" = Some "1.2.3".
Proof.
  split; [reflexivity|]. split; [reflexivity|].
  exact (proj1 (proj2 (version_directory_reversible "1.2.3" eq_refl))).
Defined.

(** ** Reasoning in the monad *)

Section MonadFacts.

Context {A B : Type}.

Lemma bind_run (m : M A) (f : A → M B) (s : state) :
  (m ≫= f) s = match m s with
                | (Ok a, s') => f a s'
                | (Throw e, s') => (Throw e, s')
                end.
Proof. reflexivity. Qed.

Lemma bind_Ok (m : M A) (f : A → M B) (s s' : state) (b : B) :
  (m ≫= f) s = (Ok b, s') → ∃ a s1, m s = (Ok a, s1) ∧ f a s1 = (Ok b, s').
Proof.
  rewrite bind_run. destruct (m s) as [[a|e] s1]; [eauto|discriminate].
Qed.

Lemma bind_Throw (m : M A) (f : A → M B) (s s' : state) (e : exn) :
  (m ≫= f) s = (Throw e, s') →
  m s = (Throw e, s') ∨ ∃ a s1, m s = (Ok a, s1) ∧ f a s1 = (Throw e, s').
Proof.
  rewrite bind_run. destruct (m s) as [[a|e'] s1]; [eauto|].
  intros [= -> ->]. by left.
Qed.

Lemma bind_step (m : M A) (f : A → M B) (s s1 : state) (a : A) :
  m s = (Ok a, s1) → (m ≫= f) s = f a s1.
Proof. intros H. by rewrite bind_run, H. Qed.

Lemma bind_fail (m : M A) (f : A → M B) (s s1 : state) (e : exn) :
  m s = (Throw e, s1) → (m ≫= f) s = (Throw e, s1).
Proof. intros H. by rewrite bind_run, H. Qed.

End MonadFacts.

(** Splitting a run that ended normally into its steps. *)
Ltac run_inv H :=
  repeat match type of H with
    | (_ ≫= _) _ = (Ok _, _) =>
        let a := fresh "a" in let s1 := fresh "s" in let H1 := fresh "Hstep" in
        apply bind_Ok in H as (a & s1 & H1 & H)
    end.

(** ** The defaults of the options *)

Lemma Chromium_new_options (rt : Runtime) (logger : string) (o : InstallerOptions)
    (s s' : state) (this : Installer) :
  Chromium.new rt logger o s = (Ok this, s') →
  options this = Chromium.default_options rt o.
Proof.
  unfold Chromium.new. intros H. run_inv H.
  by injection H as <- _.
Qed.

Lemma Firefox_new_options (rt : Runtime) (o : InstallerOptions) (s s' : state)
    (this : Firefox.FirefoxExtensionInstaller) :
  Firefox.new rt o s = (Ok this, s') →
  ∃ dir, Firefox.options this = Firefox.default_options rt o dir.
Proof.
  unfold Firefox.new. intros H. run_inv H.
  match type of H with context [bool_decide ?P] => destruct (bool_decide P) end;
    [discriminate|].
  run_inv H. injection H as <- _. eauto.
Qed.

(** ** The scan for the ZIP signature *)

Section ArchiveFacts.

Import Archive.

Lemma byte_is_true (d : bytes) (i : nat) (b : byte) :
  byte_is d i b = true ↔ d !! i = Some b.
Proof.
  unfold byte_is. destruct (d !! i) as [c|]; [|split; discriminate].
  split.
  - intros H. f_equal. by apply Byte.byte_dec_bl.
  - intros [= ->]. by apply Byte.byte_dec_lb.
Qed.

Lemma signature_at_true (d : bytes) (i : nat) : signature_at d i = true ↔ occurs_at d i.
Proof.
  unfold signature_at, occurs_at.
  rewrite !andb_true_iff, !byte_is_true. tauto.
Qed.

(** The loop returns the first offset it meets that holds the signature. *)
Lemma scan_first (d : bytes) (n i k : nat) :
  occurs_at d k → (∀ j, i ≤ j < k → ¬ occurs_at d j) → i ≤ k < i + n →
  scan d i n = k.
Proof.
  revert i. induction n as [|n IH]; intros i Hk Hfirst Hrange; [lia|].
  cbn [scan]. destruct (signature_at d i) eqn:E.
  - apply signature_at_true in E.
    destruct (decide (i = k)) as [|Hne]; [done|].
    exfalso. apply (Hfirst i); [lia|done].
  - assert (i ≠ k).
    { intros ->. apply signature_at_true in Hk. congruence. }
    apply IH; [done| |lia]. intros j Hj. apply Hfirst. lia.
Qed.

Lemma scan_none (d : bytes) (n i : nat) :
  (∀ j, i ≤ j < i + n → ¬ occurs_at d j) → scan d i n = 0.
Proof.
  revert i. induction n as [|n IH]; intros i Hnone; [reflexivity|].
  cbn [scan]. destruct (signature_at d i) eqn:E.
  - apply signature_at_true in E. exfalso. apply (Hnone i); [lia|done].
  - apply IH. intros j Hj. apply Hnone. lia.
Qed.

(** A signature whose first occurrence lies before the last four bytes of
    the buffer is found where it is. *)
Lemma zipStartOffset_first (d : bytes) (k : nat) :
  first_occurrence d k → k + 4 < length d → zipStartOffset d = k.
Proof.
  intros [Hk Hfirst] Hlen. unfold zipStartOffset.
  apply scan_first; [done| |lia]. intros j Hj. apply Hfirst. lia.
Qed.

(** Without a signature the offset is 0, as for a signature at offset 0. *)
Lemma zipStartOffset_none (d : bytes) : no_signature d → zipStartOffset d = 0.
Proof. intros H. apply scan_none. intros j _. apply H. Qed.

End ArchiveFacts.

(** C1 (the installers depart from it). The six bytes 00 01 02 03 04 05
    hold no signature and the scan answers 0 for them. On the manifest path
    the [try] block raises "Format CRX invalide: signature ZIP non trouvée"
    (which [extractManifestFromCrx] itself catches, answering the fallback
    manifest). On the installation path nothing tests the offset: the whole
    buffer is written as extension.zip and handed to the archive tool, whose
    failure is the only error, and the installation of Vivaldi ends
    normally. Besides, the loop stops one offset early: in 00 50 4B 03 04
    the signature first occurs at offset 1 and the scan answers 0. *)
Theorem install_path_ignores_missing_signature :
  Archive.no_signature Scenario.garbage
  ∧ Archive.zipStartOffset Scenario.garbage = 0
  ∧ (Extensions.extract_manifest Scenario.junk_store Scenario.crx_file
       (Scenario.start [(Scenario.crx_file, Scenario.garbage)])).1
    = Throw (Error "Format CRX invalide: signature ZIP non trouvée")
  ∧ (Extensions.extractManifestFromCrx Scenario.junk_store Scenario.crx_file
       (Scenario.start [(Scenario.crx_file, Scenario.garbage)])).1
    = Ok (Extensions.fallback_manifest "VaultySid Chrome Extension")
  ∧ (Chromium.extract_archive Scenario.junk_store "Vivaldi"
       (Scenario.installer Scenario.junk_store) Scenario.crx_file
       Scenario.vivaldi_version_dir
       (Scenario.start [(Scenario.crx_file, Scenario.garbage)])).1
    = Throw ChildProcessError
  ∧ Fs.files (fs (Chromium.extract_archive Scenario.junk_store "Vivaldi"
       (Scenario.installer Scenario.junk_store) Scenario.crx_file
       Scenario.vivaldi_version_dir
       (Scenario.start [(Scenario.crx_file, Scenario.garbage)])).2)
      !! Scenario.extension_zip
    = Some Scenario.garbage
  ∧ (Scenario.run_vivaldi Scenario.junk_store Scenario.no_options "abc"
       (Scenario.start [(Scenario.vivaldi_preferences, Scenario.braces)])).1
    = Ok tt
  ∧ Log "Vivaldi" "error" "Erreur lors de l'extraction de l'extension"
    ∈ trace (Scenario.run_vivaldi Scenario.junk_store Scenario.no_options "abc"
               (Scenario.start [(Scenario.vivaldi_preferences, Scenario.braces)])).2
  ∧ Archive.first_occurrence Scenario.signature_last 1
  ∧ Archive.zipStartOffset Scenario.signature_last = 0.
Proof.
  split.
  { intros k (H & _). do 6 (destruct k as [|k]; [discriminate|]). discriminate. }
  split; [reflexivity|].
  split; [vm_compute; reflexivity|].
  split; [vm_compute; reflexivity|].
  split; [vm_compute; reflexivity|].
  split; [vm_compute; reflexivity|].
  split; [vm_compute; reflexivity|].
  split; [apply (bool_decide_unpack _); vm_compute; exact I|].
  split; [|reflexivity].
  split; [by repeat split|].
  intros j Hj (H & _). destruct j as [|j]; [discriminate|lia].
Qed.

(** A plain ZIP file, whose signature is at offset 0, is refused on the
    manifest path for the same reason. *)
Lemma manifest_path_refuses_offset_0 :
  Archive.first_occurrence Scenario.payload 0
  ∧ (Extensions.extract_manifest Scenario.webstore Scenario.crx_file
       (Scenario.start [(Scenario.crx_file, Scenario.payload)])).1
    = Throw (Error "Format CRX invalide: signature ZIP non trouvée").
Proof.
  split; [split; [by repeat split|intros j Hj; lia]|].
  vm_compute. reflexivity.
Qed.

(** ** Property access on objects *)

Lemma get_VObj (props : gmap string value) (k : string) :
  get (VObj props) k = Ok (default VUndef (props !! k)).
Proof. reflexivity. Qed.

Lemma set_VObj (props : gmap string value) (k : string) (x : value) :
  set (VObj props) k x = Ok (VObj (store props k x)).
Proof. reflexivity. Qed.

Lemma store_plain (props : gmap string value) (k : string) (x : value) :
  k ≠ "__proto__" → store props k x = <[k:=x]> props.
Proof.
  intros H. unfold store. destruct (String.eqb k "__proto__") eqn:E; [|done].
  by apply String.eqb_eq in E.
Qed.

Lemma ret_bind {A B} (a : A) (f : A → result B) : (Ok a ≫= f) = f a.
Proof. reflexivity. Qed.

Lemma throw_bind {A B} (e : exn) (f : A → result B) : (Throw e ≫= f) = Throw e.
Proof. reflexivity. Qed.

Lemma obj_nil : obj [] = VObj ∅.
Proof. reflexivity. Qed.

Ltac js_simpl :=
  repeat (progress (cbn beta iota delta [from_option truthy id negb];
    rewrite ?ret_bind, ?throw_bind, ?get_VObj, ?set_VObj, ?obj_nil,
      ?lookup_insert_eq, ?lookup_empty)).

(** A Preferences object without the key extensions — in particular the
    empty object — makes Opera's assignment under opsettings a TypeError:
    the statement before it has created [settings], not [opsettings]. *)
Lemma Opera_assign_without_extensions (props : gmap string value) (extensionId : string)
    (record : value) :
  props !! "extensions" = None →
  Opera.prepare_settings (VObj props) ≫= Opera.assign_record extensionId record
  = Throw TypeError.
Proof.
  intros H.
  unfold Opera.prepare_settings, Opera.assign_record, Chromium.ensure, Chromium.update.
  rewrite get_VObj, H. js_simpl.
  rewrite !(store_plain _ "extensions") by done. js_simpl.
  rewrite !(store_plain _ "settings") by done. js_simpl.
  rewrite !(store_plain _ "extensions") by done. js_simpl.
  rewrite lookup_insert_ne by done. js_simpl.
  reflexivity.
Qed.

(** The same object makes Vivaldi hold the record under
    extensions.settings[extensionId]. *)
Lemma Vivaldi_assign_without_extensions (props : gmap string value) (extensionId : string)
    (record : value) :
  props !! "extensions" = None → extensionId ≠ "__proto__" →
  ∃ preferences,
    Vivaldi.prepare_settings (VObj props) ≫= Vivaldi.assign_record extensionId record
    = Ok preferences
    ∧ (get preferences "extensions" ≫= λ e, get e "settings" ≫= λ settings,
       get settings extensionId) = Ok record.
Proof.
  intros H Hid.
  unfold Vivaldi.prepare_settings, Vivaldi.assign_record, Chromium.ensure, Chromium.update.
  rewrite get_VObj, H. js_simpl.
  rewrite !(store_plain _ "extensions") by done. js_simpl.
  rewrite !(store_plain _ "settings") by done. js_simpl.
  rewrite !(store_plain _ "extensions") by done. js_simpl.
  rewrite !(store_plain _ extensionId) by done. js_simpl.
  rewrite !(store_plain _ "settings") by done. js_simpl.
  rewrite !(store_plain _ "extensions") by done.
  eexists. split; [reflexivity|]. js_simpl. reflexivity.
Qed.

Lemma settings_record_path (extensionId versionFormatted : string)
    (manifest permissions host_permissions : value) (t1 t2 t3 : Z) :
  get (Chromium.settings_record extensionId versionFormatted manifest permissions
         host_permissions t1 t2 t3) "path"
  = Ok (VStr (extensionId +:+ "/" +:+ versionFormatted)).
Proof. reflexivity. Qed.

(** C2 (Opera departs from it). With a Preferences file that holds {} and
    the extension abc at version 1.0.0, the installation by Opera ends with
    a TypeError: the version directory has been made and filled, the
    Preferences file still holds {}, no record has been written. The same
    installation by Vivaldi ends normally. *)
Theorem opera_fails_on_empty_preferences :
  (Scenario.run_opera Scenario.webstore Scenario.no_options "abc"
     (Scenario.start [(Scenario.opera_preferences, Scenario.braces)])).1
  = Throw TypeError
  ∧ Fs.files (fs (Scenario.run_opera Scenario.webstore Scenario.no_options "abc"
       (Scenario.start [(Scenario.opera_preferences, Scenario.braces)])).2)
      !! Scenario.opera_preferences
    = Some Scenario.braces
  ∧ Fs.files (fs (Scenario.run_opera Scenario.webstore Scenario.no_options "abc"
       (Scenario.start [(Scenario.opera_preferences, Scenario.braces)])).2)
      !! (Scenario.opera_version_dir ++ ["background.js"])%list
    = Some Scenario.background_js
  ∧ (Scenario.run_vivaldi Scenario.webstore Scenario.no_options "abc"
       (Scenario.start [(Scenario.vivaldi_preferences, Scenario.braces)])).1
    = Ok tt
  ∧ Fs.files (fs (Scenario.run_vivaldi Scenario.webstore Scenario.no_options "abc"
       (Scenario.start [(Scenario.vivaldi_preferences, Scenario.braces)])).2)
      !! (Scenario.vivaldi_version_dir ++ ["background.js"])%list
    = Some Scenario.background_js.
Proof. repeat split; vm_compute; reflexivity. Qed.

(** ** Failures and the exit status *)

(** A [try] block whose handler always returns, returns, unless the
    process ends in it. *)
Lemma try_catch_total {A} (m : M A) (handler : exn → M A) :
  survives m →
  (∀ e s, ∃ a s', handler e s = (Ok a, s')) →
  ∀ s, ∃ a s', try_catch m handler s = (Ok a, s').
Proof.
  intros Hm Hh s. unfold try_catch. destruct (m s) as [[a|e] s1] eqn:E; [by eauto|].
  rewrite (Hm _ _ _ E). apply Hh.
Qed.


Lemma log_run (logger level message : string) (s : state) :
  ∃ level', log logger level message s
            = (Ok tt, mkState (fs s) (trace s ++ [Log logger level' message]) (clock s)).
Proof. unfold log, emit. eauto. Qed.


(** C4 (the Firefox installer departs from it). When the download is
    answered with status 404, the command run for Vivaldi and for Opera ends
    with [process.exit(1)]; run for Firefox it logs the failure, then the
    success of the installation, and the process ends with status 0. *)
Theorem firefox_download_failure_exits_0 :
  Command.exit_code (trace (Command.cli Scenario.not_found Scenario.absent Scenario.absent
     Scenario.absent (Scenario.only_browser "firefox") Scenario.three_browsers).2) = 0%Z
  ∧ Log "Firefox" "error" "Failed to install extension"
    ∈ trace (Command.cli Scenario.not_found Scenario.absent Scenario.absent
               Scenario.absent (Scenario.only_browser "firefox") Scenario.three_browsers).2
  ∧ Log "InstallExtension" "info" "Installation de l'extension Firefox terminée avec succès"
    ∈ trace (Command.cli Scenario.not_found Scenario.absent Scenario.absent
               Scenario.absent (Scenario.only_browser "firefox") Scenario.three_browsers).2
  ∧ Command.exit_code (trace (Command.cli Scenario.not_found Scenario.absent Scenario.absent
       Scenario.absent (Scenario.only_browser "vivaldi") Scenario.three_browsers).2) = 1%Z
  ∧ Command.exit_code (trace (Command.cli Scenario.not_found Scenario.absent Scenario.absent
       Scenario.absent (Scenario.only_browser "opera") Scenario.three_browsers).2) = 1%Z.
Proof.
  split; [vm_compute; reflexivity|].
  split; [apply (bool_decide_unpack _); vm_compute; exact I|].
  split; [apply (bool_decide_unpack _); vm_compute; exact I|].
  split; vm_compute; reflexivity.
Qed.

(** ** The relaunch with the configuration URL *)

(** C7 (the Firefox installer departs from it). Run from the command with
    neither URL nor secret, the Firefox installer opens the browser on
    "undefined/#SmartLinkExtensionSecret=undefined" for the profile it has
    installed the extension in; Vivaldi, run the same way, launches
    nothing. *)
Theorem firefox_relaunches_without_configuration :
  config_supplied (Command.installerOptions (Scenario.only_browser "firefox")) = false
  ∧ Launch firefox "undefined/#SmartLinkExtensionSecret=undefined" "default"
    ∈ trace (Command.cli Scenario.addons_site Scenario.absent Scenario.absent
               Scenario.absent (Scenario.only_browser "firefox") Scenario.three_browsers).2
  ∧ Command.exit_code (trace (Command.cli Scenario.addons_site Scenario.absent
       Scenario.absent Scenario.absent (Scenario.only_browser "firefox")
       Scenario.three_browsers).2) = 0%Z
  ∧ Log "Vivaldi" "info" "Extension installée pour le profil"
    ∈ trace (Command.cli Scenario.webstore Scenario.absent Scenario.absent
               Scenario.absent (Scenario.only_browser "vivaldi") Scenario.three_browsers).2
  ∧ ∀ url profileName,
      Launch vivaldi url profileName
      ∉ trace (Command.cli Scenario.webstore Scenario.absent Scenario.absent
                 Scenario.absent (Scenario.only_browser "vivaldi") Scenario.three_browsers).2.
Proof.
  split; [reflexivity|].
  split; [apply (bool_decide_unpack _); vm_compute; exact I|].
  split; [vm_compute; reflexivity|].
  split; [apply (bool_decide_unpack _); vm_compute; exact I|].
  intros url profileName.
  match goal with |- _ ∉ trace ?r.2 =>
    let t := eval vm_compute in (trace r.2) in
    change (trace r.2) with t
  end.
  rewrite list_elem_of_In. cbn. intros H.
  repeat (destruct H as [H|H]; [discriminate|]). exact H.
Qed.

(** ** Running the program step by step *)

Lemma existsSync_run (p : path) (s : state) :
  existsSync p s = (Ok (Fs.existsSync (fs s) p), s).
Proof. reflexivity. Qed.

Lemma lift_run {A} (r : result A) (s : state) : lift r s = (r, s).
Proof. reflexivity. Qed.

Lemma mret_run {A} (a : A) (s : state) : (mret a : M A) s = (Ok a, s).
Proof. reflexivity. Qed.

Lemma throw_run {A} (e : exn) (s : state) : (throw e : M A) s = (Throw e, s).
Proof. reflexivity. Qed.

Lemma emit_run (e : event) (s : state) :
  emit e s = (Ok tt, mkState (fs s) (trace s ++ [e]) (clock s)).
Proof. reflexivity. Qed.

Lemma log_step (logger level message : string) (s : state) :
  log logger level message s
  = (Ok tt, mkState (fs s)
              (trace s ++ [Log logger
                             (if bool_decide (level ∈ ["debug"; "info"; "warn"; "error"])
                              then level else "info") message])
              (clock s)).
Proof. reflexivity. Qed.

Lemma now_run (rt : Runtime) (s : state) :
  now rt s = (Ok (Date_now rt (clock s)), mkState (fs s) (trace s) (S (clock s))).
Proof. reflexivity. Qed.

Lemma readFileSync_run (p : path) (s : state) :
  readFileSync p s = (Fs.readFileSync (fs s) p, s).
Proof. reflexivity. Qed.

Lemma update_fs_run (f : Fs.t → result Fs.t) (s : state) :
  update_fs f s = match f (fs s) with
                  | Ok fs' => (Ok tt, mkState fs' (trace s) (clock s))
                  | Throw e => (Throw e, s)
                  end.
Proof. reflexivity. Qed.

Lemma try_catch_run {A} (m : M A) (handler : exn → M A) (s : state) :
  try_catch m handler s = match m s with
                          | (Ok a, s') => (Ok a, s')
                          | (Throw e, s') => if fatal e then (Throw e, s') else handler e s'
                          end.
Proof. reflexivity. Qed.

Lemma run_pair {A} (m : M A) (s : state) (r : result A) :
  (m s).1 = r → m s = (r, (m s).2).
Proof. intros <-. by destruct (m s). Qed.

(** One step of a run: the first action of a sequence is replaced by its
    result. *)
Ltac mstep :=
  rewrite bind_run;
  first [ rewrite existsSync_run | rewrite lift_run | rewrite mret_run | rewrite throw_run
        | rewrite log_step | rewrite emit_run | rewrite now_run | rewrite readFileSync_run ];
  cbn beta iota.

(** ** Exceptions that can be caught *)

(** What the operations on values and on the file system throw can be
    caught: only a stream that cannot be opened ends the process. *)
Lemma catchable_Ok {A} (a : A) : catchable (Ok a).
Proof. intros e. discriminate. Qed.

Lemma catchable_Throw {A} (e : exn) : fatal e = false → catchable (Throw e : result A).
Proof. by intros H e' [= <-]. Qed.

Lemma catchable_bind {A B} (r : result A) (f : A → result B) :
  catchable r → (∀ a, catchable (f a)) → catchable (r ≫= f).
Proof.
  intros Hr Hf. destruct r as [a|e]; [rewrite ret_bind; apply Hf|].
  rewrite throw_bind. intros e0 [= <-]. by apply (Hr e).
Qed.

Ltac catchable_step :=
  first [ apply catchable_Ok
        | apply catchable_Throw; reflexivity
        | apply catchable_bind; [|intros ?]
        | match goal with
          | |- catchable (match ?x with _ => _ end) => destruct x
          end ].

Lemma catchable_get (v : value) (k : string) : catchable (get v k).
Proof. unfold get. repeat catchable_step. Qed.

Lemma catchable_set (v : value) (k : string) (x : value) : catchable (set v k x).
Proof. unfold set. repeat catchable_step. Qed.

Lemma catchable_includes (c : value) (s : string) : catchable (includes c s).
Proof. unfold includes. repeat catchable_step. Qed.

Lemma catchable_push (c x : value) : catchable (push c x).
Proof. unfold push. repeat catchable_step. Qed.

Lemma catchable_mkdirSync (fs : Fs.t) (p : path) : catchable (Fs.mkdirSync fs p).
Proof. unfold Fs.mkdirSync. repeat catchable_step. Qed.

Lemma catchable_readFileSync (fs : Fs.t) (p : path) : catchable (Fs.readFileSync fs p).
Proof. unfold Fs.readFileSync. repeat catchable_step. Qed.

Lemma catchable_writeFileSync (fs : Fs.t) (p : path) (content : bytes) :
  catchable (Fs.writeFileSync fs p content).
Proof. unfold Fs.writeFileSync. repeat catchable_step. Qed.

Lemma catchable_unlinkSync (fs : Fs.t) (p : path) : catchable (Fs.unlinkSync fs p).
Proof. unfold Fs.unlinkSync. repeat catchable_step. Qed.

Lemma catchable_isDirectory (fs : Fs.t) (p : path) : catchable (Fs.isDirectory fs p).
Proof. unfold Fs.isDirectory. repeat catchable_step. Qed.

Lemma catchable_readdirSync (fs : Fs.t) (p : path) : catchable (Fs.readdirSync fs p).
Proof. unfold Fs.readdirSync. repeat catchable_step. Qed.

Lemma catchable_write_entries (dest : path) (entries : list (path * bytes)) (fs : Fs.t) :
  catchable (Fs.write_entries dest fs entries).
Proof.
  revert fs. induction entries as [|entry entries IH]; intros fs; [apply catchable_Ok|].
  cbn [Fs.write_entries]. apply catchable_bind; [|done].
  unfold Fs.write_entry. apply catchable_bind; [apply catchable_mkdirSync|].
  intros ?. apply catchable_writeFileSync.
Qed.

Create HintDb catchable.

#[global] Hint Resolve catchable_get catchable_set catchable_includes catchable_push
  catchable_mkdirSync catchable_readFileSync catchable_writeFileSync catchable_unlinkSync
  catchable_isDirectory catchable_readdirSync catchable_write_entries : catchable.

Section Survives.

Lemma survives_ret {A} (a : A) : survives (mret a).
Proof. intros s e s'. discriminate. Qed.

Lemma survives_throw {A} (e : exn) : fatal e = false → survives (throw e : M A).
Proof. by intros H s e' s' [= <- _]. Qed.

Lemma survives_lift {A} (r : result A) : catchable r → survives (lift r).
Proof. intros H s e s' [= Hr _]. by apply H. Qed.

Lemma survives_emit (e : event) : survives (emit e).
Proof. intros s e' s'. discriminate. Qed.

Lemma survives_log (logger level message : string) : survives (log logger level message).
Proof. apply survives_emit. Qed.

Lemma survives_now (rt : Runtime) : survives (now rt).
Proof. intros s e s'. discriminate. Qed.

Lemma survives_read_fs {A} (f : Fs.t → A) : survives (read_fs f).
Proof. intros s e s'. discriminate. Qed.

Lemma survives_try_fs {A} (f : Fs.t → result A) :
  (∀ fs, catchable (f fs)) → survives (try_fs f).
Proof. intros H s e s' [= Hf _]. by eapply H. Qed.

Lemma survives_update_fs (f : Fs.t → result Fs.t) :
  (∀ fs, catchable (f fs)) → survives (update_fs f).
Proof.
  intros H s e s'. rewrite update_fs_run.
  destruct (f (fs s)) as [b|e0] eqn:E; [discriminate|].
  intros [= <- _]. by eapply H.
Qed.

Lemma survives_bind {A B} (m : M A) (f : A → M B) :
  survives m → (∀ a, survives (f a)) → survives (m ≫= f).
Proof.
  intros Hm Hf s e s'. rewrite bind_run.
  destruct (m s) as [[a|e0] s1] eqn:E.
  - apply Hf.
  - intros [= <- _]. exact (Hm _ _ _ E).
Qed.

Lemma survives_try_catch {A} (m : M A) (handler : exn → M A) :
  survives m → (∀ e, fatal e = false → survives (handler e)) →
  survives (try_catch m handler).
Proof.
  intros Hm Hh s e s'. rewrite try_catch_run.
  destruct (m s) as [[a|e0] s1] eqn:E; [discriminate|].
  rewrite (Hm _ _ _ E). apply Hh. exact (Hm _ _ _ E).
Qed.

Lemma survives_when (b : bool) (m : M unit) : survives m → survives (when b m).
Proof. intros Hm. destruct b; [exact Hm|apply survives_ret]. Qed.

Lemma survives_for_of {A} (l : list A) (body : A → M completion) :
  (∀ x, survives (body x)) → survives (for_of l body).
Proof.
  intros Hbody. induction l as [|x l IH]; [apply survives_ret|].
  cbn [for_of]. apply survives_bind; [apply Hbody|].
  intros []; [exact IH|apply survives_ret].
Qed.

Lemma survives_existsSync (p : path) : survives (existsSync p).
Proof. apply survives_read_fs. Qed.

Lemma survives_mkdirSync (p : path) : survives (mkdirSync p).
Proof. apply survives_update_fs. intros ?. apply catchable_mkdirSync. Qed.

Lemma survives_rmSync (p : path) : survives (rmSync p).
Proof. apply survives_update_fs. intros ?. apply catchable_Ok. Qed.

Lemma survives_readFileSync (p : path) : survives (readFileSync p).
Proof. apply survives_try_fs. intros ?. apply catchable_readFileSync. Qed.

Lemma survives_writeFileSync (p : path) (content : bytes) : survives (writeFileSync p content).
Proof. apply survives_update_fs. intros ?. apply catchable_writeFileSync. Qed.

Lemma survives_unlinkSync (p : path) : survives (unlinkSync p).
Proof. apply survives_update_fs. intros ?. apply catchable_unlinkSync. Qed.

Lemma survives_readdirSync (p : path) : survives (readdirSync p).
Proof. apply survives_try_fs. intros ?. apply catchable_readdirSync. Qed.

Lemma survives_isDirectory (p : path) : survives (isDirectory p).
Proof. apply survives_try_fs. intros ?. apply catchable_isDirectory. Qed.







End Survives.

#[global] Hint Resolve survives_ret survives_emit survives_log survives_now
  survives_read_fs survives_existsSync survives_mkdirSync survives_rmSync
  survives_readFileSync survives_writeFileSync survives_unlinkSync survives_readdirSync
  survives_isDirectory : catchable.

Ltac catchable_solve :=
  repeat first [ solve [auto with catchable] | catchable_step ].

Ltac survives_step :=
  first [ solve [auto with catchable]
        | apply survives_bind; [|intros ?]
        | apply survives_try_catch; [|intros ? ?]
        | apply survives_when
        | apply survives_throw; first [reflexivity|assumption]
        | apply survives_lift; catchable_solve
        | apply survives_try_fs; intros ?; catchable_solve
        | apply survives_update_fs; intros ?; catchable_solve
        | apply survives_for_of; intros ?
        | progress cbv zeta
        | match goal with
          | |- survives (match ?x with _ => _ end) => destruct x
          end ].

Lemma close_survives (browser : Browser) : survives (BrowserController.close browser).
Proof. unfold BrowserController.close. repeat survives_step. Qed.

Lemma openWithUrl_survives (browser : Browser) (url profileName : string) :
  survives (BrowserController.openWithUrl browser url profileName).
Proof.
  unfold BrowserController.openWithUrl. repeat survives_step.
Qed.

Lemma expand_archive_survives (rt : Runtime) (zip dest : path) :
  survives (expand_archive rt zip dest).
Proof. unfold expand_archive. repeat survives_step. Qed.

#[global] Hint Resolve close_survives openWithUrl_survives expand_archive_survives : catchable.

Section WhatTheInstallersThrow.

Context (rt : Runtime).

Lemma catchable_get_opt (v : value) (k : string) : catchable (get_opt v k).
Proof. unfold get_opt. catchable_solve. Qed.

Lemma catchable_to_string (v : value) : catchable (to_string rt v).
Proof. unfold to_string. catchable_solve. Qed.

Lemma catchable_update (v : value) (k : string) (f : value → result value) :
  (∀ child, catchable (f child)) → catchable (Chromium.update v k f).
Proof. intros Hf. unfold Chromium.update. catchable_solve. Qed.

Lemma catchable_ensure (v : value) (k : string) (init : value) :
  catchable (Chromium.ensure v k init).
Proof. unfold Chromium.ensure. catchable_solve. Qed.

Lemma catchable_add_once (extensionId : string) (known : value) :
  catchable (Chromium.add_once extensionId known).
Proof. unfold Chromium.add_once. catchable_solve. Qed.

Hint Resolve catchable_get_opt catchable_to_string catchable_ensure catchable_add_once
  : catchable.

Ltac pure_solve :=
  repeat first [ solve [auto with catchable]
               | apply catchable_update; intros ?
               | catchable_step ].

Lemma catchable_version_directory (manifest : value) :
  catchable (Chromium.version_directory manifest).
Proof. unfold Chromium.version_directory. pure_solve. Qed.

Lemma catchable_manifest_summary (manifest : value) :
  catchable (Chromium.manifest_summary rt manifest).
Proof. unfold Chromium.manifest_summary. pure_solve. Qed.

Lemma catchable_ensure_external (preferences : value) :
  catchable (Chromium.ensure_external preferences).
Proof. unfold Chromium.ensure_external. pure_solve. Qed.

Lemma catchable_register (this : Installer) (extensionId : string) (install_time : Z)
    (preferences : value) :
  catchable (Chromium.register this extensionId install_time preferences).
Proof. unfold Chromium.register. pure_solve. Qed.

Lemma catchable_filter_profiles (wanted : list string) (localState : value)
    (found : list path) :
  catchable (Chromium.filter_profiles wanted localState found).
Proof.
  induction found as [|profile rest IH]; [apply catchable_Ok|].
  cbn [Chromium.filter_profiles]. unfold Chromium.profile_name. pure_solve.
Qed.

Lemma catchable_Vivaldi_prepare (preferences : value) :
  catchable (Vivaldi.prepare_settings preferences).
Proof. unfold Vivaldi.prepare_settings. pure_solve. Qed.

Lemma catchable_Vivaldi_assign (extensionId : string) (record preferences : value) :
  catchable (Vivaldi.assign_record extensionId record preferences).
Proof. unfold Vivaldi.assign_record. pure_solve. Qed.

Lemma catchable_Opera_prepare (preferences : value) :
  catchable (Opera.prepare_settings preferences).
Proof. unfold Opera.prepare_settings. pure_solve. Qed.

Lemma catchable_Opera_assign (extensionId : string) (record preferences : value) :
  catchable (Opera.assign_record extensionId record preferences).
Proof. unfold Opera.assign_record. pure_solve. Qed.

Lemma catchable_without_id (id : value) (addons : list value) :
  catchable (Firefox.without_id id addons).
Proof.
  induction addons as [|addon rest IH]; [apply catchable_Ok|].
  cbn [Firefox.without_id]. pure_solve.
Qed.

Lemma catchable_remove_existing (id extensionsData : value) :
  catchable (Firefox.remove_existing id extensionsData).
Proof.
  unfold Firefox.remove_existing.
  repeat first [ apply catchable_without_id | solve [auto with catchable] | catchable_step ].
Qed.

Lemma catchable_gecko_id (manifest : value) (k : string) :
  catchable (Firefox.gecko_id manifest k).
Proof. unfold Firefox.gecko_id. pure_solve. Qed.

End WhatTheInstallersThrow.

#[global] Hint Resolve catchable_get_opt catchable_to_string catchable_ensure
  catchable_add_once catchable_version_directory catchable_manifest_summary
  catchable_ensure_external catchable_register catchable_filter_profiles
  catchable_Vivaldi_prepare catchable_Vivaldi_assign catchable_Opera_prepare
  catchable_Opera_assign catchable_without_id catchable_remove_existing catchable_gecko_id
  : catchable.

#[global] Hint Extern 2 (catchable (Chromium.update _ _ _)) =>
  apply catchable_update; intros ? : catchable.


Section WhatTheLoopThrows.

Context (rt : Runtime).

Lemma extract_or_write_manifest_survives (logger : string) (this : Installer)
    (crxFilePath extensionVersionDir : path) (manifest : value) :
  survives (Chromium.extract_or_write_manifest rt logger this crxFilePath
              extensionVersionDir manifest).
Proof.
  unfold Chromium.extract_or_write_manifest, Chromium.extract_archive.
  repeat survives_step.
Qed.

Lemma write_and_relaunch_survives (logger : string) (verbose : bool) (browser : Browser)
    (this : Installer) (profile preferenceFile : path) (preferences : value) :
  survives (Chromium.write_and_relaunch rt logger verbose browser this profile
              preferenceFile preferences).
Proof.
  unfold Chromium.write_and_relaunch, Chromium.openWithConfigUrl.
  repeat survives_step.
Qed.

Lemma Vivaldi_install_profile_survives (this : Installer) (extensionId : string)
    (crxFilePath : path) (manifest : value) (profile : path) :
  survives (Vivaldi.install_profile rt this extensionId crxFilePath manifest profile).
Proof.
  unfold Vivaldi.install_profile, Chromium.check_existing, Vivaldi.unpack_and_patch,
    Chromium.build_settings_record, Chromium.ensure_and_register, read_json.
  repeat first [ apply extract_or_write_manifest_survives | apply write_and_relaunch_survives
               | survives_step ].
Qed.

Lemma Opera_install_profile_survives (this : Installer) (extensionId : string)
    (crxFilePath : path) (manifest : value) (profile : path) :
  survives (Opera.install_profile rt this extensionId crxFilePath manifest profile).
Proof.
  unfold Opera.install_profile, Chromium.check_existing, Opera.unpack_and_patch,
    Chromium.build_settings_record, Chromium.ensure_and_register, read_json.
  repeat first [ apply extract_or_write_manifest_survives | apply write_and_relaunch_survives
               | survives_step ].
Qed.

End WhatTheLoopThrows.

(** ** The options that the command passes *)

Lemma command_log_intro (level message : string) :
  command_log (Log Command.logger level message).
Proof. by eexists _, _. Qed.

Lemma runs_installer_refl (install : M unit) : runs_installer install install.
Proof.
  intros s. exists []. split; [apply Forall_nil_2|]. exists []. split; [apply Forall_nil_2|].
  cbn zeta. rewrite !app_nil_r. destruct s as [a t c]. cbn [fs trace clock].
  by destruct (install _) as [r [a1 t1 c1]].
Qed.

Lemma runs_installer_log_before (level message : string) (command install : M unit) :
  runs_installer command install →
  runs_installer (log Command.logger level message;; command) install.
Proof.
  intros H s. rewrite bind_run, log_step. cbn beta iota.
  destruct (H (mkState (fs s)
                 (trace s ++ [Log Command.logger
                                (if bool_decide (level ∈ ["debug"; "info"; "warn"; "error"])
                                 then level else "info") message]) (clock s)))
    as (before & Hbefore & after & Hafter & Hrun).
  cbn [fs trace clock] in Hrun. rewrite <- app_assoc in Hrun.
  eexists (_ :: before).
  split; [apply Forall_cons; split; [apply command_log_intro|exact Hbefore]|].
  exists after. split; [exact Hafter|]. exact Hrun.
Qed.

Lemma runs_installer_log_after (level message : string) (command install : M unit) :
  runs_installer command install →
  runs_installer (command;; log Command.logger level message) install.
Proof.
  intros H s. destruct (H s) as (before & Hbefore & after & Hafter & Hrun).
  cbn zeta in Hrun. rewrite bind_run, Hrun. exists before. split; [exact Hbefore|].
  destruct (install _) as [[[]|e] s1]; cbn [fst snd].
  - rewrite log_step. cbn [fs trace clock]. rewrite <- app_assoc.
    eexists (after ++ [_]).
    split; [apply Forall_app; split; [exact Hafter|]; apply Forall_cons; split;
            [apply command_log_intro|apply Forall_nil_2]|].
    reflexivity.
  - by exists after.
Qed.

Lemma runs_installer_rethrow (f : exn → string) (command install : M unit) :
  runs_installer command install →
  runs_installer (try_catch command
                    (λ error, log Command.logger "error" (f error);; throw error)) install.
Proof.
  intros H s. destruct (H s) as (before & Hbefore & after & Hafter & Hrun).
  cbn zeta in Hrun. rewrite try_catch_run, Hrun. exists before. split; [exact Hbefore|].
  destruct (install _) as [[[]|e] s1]; cbn [fst snd].
  - by exists after.
  - destruct (fatal e); [by exists after|].
    rewrite bind_run, log_step. cbn beta iota. rewrite throw_run.
    cbn [fs trace clock]. rewrite <- app_assoc.
    eexists (after ++ [_]).
    split; [apply Forall_app; split; [exact Hafter|]; apply Forall_cons; split;
            [apply command_log_intro|apply Forall_nil_2]|].
    reflexivity.
Qed.

Lemma branch_runs_installer (name : string) (install : M unit) :
  runs_installer (Command.branch name install) install.
Proof.
  unfold Command.branch.
  do 2 apply runs_installer_log_before.
  apply (runs_installer_rethrow
           (λ error, "Erreur spécifique à " +:+ name +:+ ": " +:+ describe error)).
  apply runs_installer_log_after, runs_installer_refl.
Qed.

Section CommandOptions.

Context (rt : Runtime).
Context (Chrome_install Edge_install Brave_install : InstallerOptions → string → M unit).

Ltac selects H :=
  unfold Command.installExtensionCommand; cbv zeta;
  unfold selected in H; rewrite H; cbn [String.eqb Ascii.eqb Bool.eqb];
  apply (runs_installer_rethrow
           (λ error, "Erreur lors de l'installation de l'extension: " +:+ describe error));
  do 3 apply runs_installer_log_before;
  apply runs_installer_log_after, branch_runs_installer.

(** C10. With [forceReinstall] undefined in its arguments,
    [installExtensionCommand] builds options that force the reinstallation
    and passes them to the installer it constructs: for each of the six
    browsers the command runs the installer made from these options, and
    nothing else than its own logging, and the installers that the
    constructors of Vivaldi, Opera and Firefox make from them have
    [forceReinstall] true. The same constructors, given options with
    [forceReinstall] undefined, set it to false. *)
Theorem forceReinstall_defaults (argv : Command.Argv) (o : InstallerOptions) (dir : path) :
  Command.forceReinstall argv = None →
  forceReinstall o = None →
  forceReinstall (Command.installerOptions argv) = Some true
  ∧ forceReinstall (Chromium.default_options rt (Command.installerOptions argv)) = Some true
  ∧ forceReinstall (Firefox.default_options rt (Command.installerOptions argv) dir) = Some true
  ∧ forceReinstall (Chromium.default_options rt o) = Some false
  ∧ forceReinstall (Firefox.default_options rt o dir) = Some false
  ∧ (∀ s s' this, Vivaldi.new rt o s = (Ok this, s') →
       forceReinstall (options this) = Some false)
  ∧ (∀ s s' this, Opera.new rt o s = (Ok this, s') →
       forceReinstall (options this) = Some false)
  ∧ (∀ s s' this, Firefox.new rt o s = (Ok this, s') →
       forceReinstall (Firefox.options this) = Some false)
  ∧ (selected argv = "chrome" →
     runs_installer
       (Command.installExtensionCommand rt Chrome_install Edge_install Brave_install argv)
       (Chrome_install (Command.installerOptions argv) Command.chromiumExtensionId))
  ∧ (selected argv = "edge" →
     runs_installer
       (Command.installExtensionCommand rt Chrome_install Edge_install Brave_install argv)
       (Edge_install (Command.installerOptions argv) Command.chromiumExtensionId))
  ∧ (selected argv = "brave" →
     runs_installer
       (Command.installExtensionCommand rt Chrome_install Edge_install Brave_install argv)
       (Brave_install (Command.installerOptions argv) Command.chromiumExtensionId))
  ∧ (selected argv = "opera" →
     runs_installer
       (Command.installExtensionCommand rt Chrome_install Edge_install Brave_install argv)
       (operaInstaller ← Opera.new rt (Command.installerOptions argv);
        log Command.logger "debug" "Instance Opera créée, début de l'installation";;
        Opera.installExtension rt operaInstaller Command.chromiumExtensionId))
  ∧ (selected argv = "firefox" →
     runs_installer
       (Command.installExtensionCommand rt Chrome_install Edge_install Brave_install argv)
       (log Command.logger "debug" "Création de l'instance Firefox";;
        Firefox ← Firefox.new rt (Command.installerOptions argv);
        Firefox.installExtensions rt Firefox ["smartlink-extension"];;
        mret tt))
  ∧ (selected argv = "vivaldi" →
     runs_installer
       (Command.installExtensionCommand rt Chrome_install Edge_install Brave_install argv)
       (vivaldiInstaller ← Vivaldi.new rt (Command.installerOptions argv);
        log Command.logger "debug" "Instance Vivaldi créée, début de l'installation";;
        Vivaldi.installExtension rt vivaldiInstaller Command.chromiumExtensionId))
  ∧ (∀ s s' this, Vivaldi.new rt (Command.installerOptions argv) s = (Ok this, s') →
       forceReinstall (options this) = Some true)
  ∧ (∀ s s' this, Opera.new rt (Command.installerOptions argv) s = (Ok this, s') →
       forceReinstall (options this) = Some true)
  ∧ (∀ s s' this, Firefox.new rt (Command.installerOptions argv) s = (Ok this, s') →
       forceReinstall (Firefox.options this) = Some true).
Proof.
  intros Hargv Ho.
  assert (Hc : forceReinstall (Chromium.default_options rt o) = Some false).
  { cbn. by rewrite Ho. }
  assert (Ha : forceReinstall (Chromium.default_options rt (Command.installerOptions argv))
               = Some true).
  { cbn. by rewrite Hargv. }
  split; [cbn; by rewrite Hargv|]. split; [exact Ha|].
  split; [cbn; by rewrite Hargv|]. split; [exact Hc|].
  split; [cbn; by rewrite Ho|].
  split; [intros s s' this H; by rewrite (Chromium_new_options _ _ _ _ _ _ H)|].
  split; [intros s s' this H; by rewrite (Chromium_new_options _ _ _ _ _ _ H)|].
  split; [intros s s' this H; apply Firefox_new_options in H as [d ->]; cbn; by rewrite Ho|].
  split; [intros H; selects H|]. split; [intros H; selects H|].
  split; [intros H; selects H|]. split; [intros H; selects H|].
  split; [intros H; selects H|]. split; [intros H; selects H|].
  split; [intros s s' this H; by rewrite (Chromium_new_options _ _ _ _ _ _ H)|].
  split; [intros s s' this H; by rewrite (Chromium_new_options _ _ _ _ _ _ H)|].
  intros s s' this H. apply Firefox_new_options in H as [d ->]. cbn. by rewrite Hargv.
Qed.

End CommandOptions.

Lemma forceReinstall_defaults_witness :
  Command.forceReinstall Scenario.vivaldi_argument = None
  ∧ forceReinstall Scenario.no_options = None
  ∧ forceReinstall (Command.installerOptions Scenario.vivaldi_argument) = Some true
  ∧ runs_installer
      (Command.installExtensionCommand Scenario.webstore Scenario.absent Scenario.absent
         Scenario.absent Scenario.vivaldi_argument)
      (vivaldiInstaller ← Vivaldi.new Scenario.webstore
                            (Command.installerOptions Scenario.vivaldi_argument);
       log Command.logger "debug" "Instance Vivaldi créée, début de l'installation";;
       Vivaldi.installExtension Scenario.webstore vivaldiInstaller Command.chromiumExtensionId)
  ∧ (∃ this s', Vivaldi.new Scenario.webstore (Command.installerOptions Scenario.vivaldi_argument)
                  (Scenario.start [])
                = (Ok this, s')
                ∧ forceReinstall (options this) = Some true)
  ∧ ∃ this s', Vivaldi.new Scenario.webstore Scenario.no_options (Scenario.start [])
               = (Ok this, s')
               ∧ forceReinstall (options this) = Some false.
Proof.
  pose proof (forceReinstall_defaults Scenario.webstore Scenario.absent Scenario.absent
                Scenario.absent Scenario.vivaldi_argument Scenario.no_options [] eq_refl eq_refl)
    as (H1 & _ & _ & _ & _ & H6 & _ & _ & _ & _ & _ & _ & _ & H14 & H15 & _).
  split; [reflexivity|]. split; [reflexivity|]. split; [exact H1|].
  split; [apply H14; reflexivity|].
  split.
  - eexists _, _. split; [vm_compute; reflexivity|].
    eapply (H15 (Scenario.start [])). vm_compute. reflexivity.
  - eexists _, _. split; [vm_compute; reflexivity|].
    eapply (H6 (Scenario.start [])). vm_compute. reflexivity.
Defined.

(** The two entry points on a disk where the command has installed the
    extension: the command, run again with [forceReinstall] undefined,
    removes the version directory and installs again; the installer made
    from options with [forceReinstall] undefined leaves the profile. *)
Lemma entry_points_differ :
  Log "Vivaldi" "info" "Suppression du dossier de version existant"
  ∈ trace (Command.installExtensionCommand Scenario.webstore Scenario.absent Scenario.absent
             Scenario.absent Scenario.vivaldi_argument Scenario.installed_by_command).2
  ∧ Log "Vivaldi" "info"
      "L'extension est déjà installée. Utilisez l'option forceReinstall pour la réinstaller."
    ∈ trace (Scenario.run_vivaldi Scenario.webstore Scenario.no_options
               Command.chromiumExtensionId Scenario.installed_by_command).2.
Proof. split; apply (bool_decide_unpack _); vm_compute; exact I. Qed.

(** ** The loop over the profiles *)

(** An exception raised by the body for one profile ends the loop there:
    the profiles before it have been processed, the profiles after it are
    not. *)
Lemma for_of_Throw {A} (before after : list A) (bad : A) (body : A → M completion)
    (s s1 s2 : state) (e : exn) :
  for_of before body s = (Ok Next, s1) →
  body bad s1 = (Throw e, s2) →
  for_of (before ++ bad :: after) body s = (Throw e, s2).
Proof.
  revert s. induction before as [|x before IH]; intros s Hbefore Hbad.
  - cbn in Hbefore. injection Hbefore as <-. cbn [app for_of].
    by rewrite (bind_fail _ _ _ _ _ Hbad).
  - cbn [app for_of] in *. rewrite bind_run in *.
    destruct (body x s) as [[[]|e'] sx]; try discriminate.
    by apply IH.
Qed.

Lemma existsSync_file (fs : Fs.t) (p : path) (content : bytes) :
  Fs.files fs !! p = Some content → Fs.existsSync fs p = true.
Proof.
  intros H. unfold Fs.existsSync, Fs.is_file. rewrite H.
  rewrite (bool_decide_eq_true_2 _ (mk_is_Some _ _ eq_refl)). apply orb_true_r.
Qed.

(** Vivaldi reads and parses the Preferences file first: when the file is
    there and malformed, the body of the loop throws and has done nothing. *)
Lemma Vivaldi_malformed_preferences (rt : Runtime) (this : Installer) (extensionId : string)
    (crxFilePath : path) (manifest : value) (profile : path) (s : state) (content : bytes) :
  Fs.files (fs s) !! path_join rt profile "Preferences" = Some content →
  JSON_parse rt content = None →
  Vivaldi.install_profile rt this extensionId crxFilePath manifest profile s
  = (Throw SyntaxError, s).
Proof.
  intros Hfile Hparse. unfold Vivaldi.install_profile.
  mstep. rewrite (existsSync_file _ _ _ Hfile). cbn [negb].
  rewrite bind_run. unfold read_json. mstep.
  unfold Fs.readFileSync. rewrite Hfile, Hparse. reflexivity.
Qed.

(** What the body throws for one profile leaves [installExtension]: the
    loop ends, the cleaning is not reached, the [catch] around the whole
    logs and throws again. *)
Lemma Vivaldi_install_all_Throw (rt : Runtime) (this : Installer) (extensionId : string)
    (crxFilePath : path) (manifest : value) (before after : list path) (bad : path)
    (s s1 s2 : state) (e : exn) :
  for_of before (Vivaldi.install_profile rt this extensionId crxFilePath manifest) s
  = (Ok Next, s1) →
  Vivaldi.install_profile rt this extensionId crxFilePath manifest bad s1 = (Throw e, s2) →
  Vivaldi.install_all rt this extensionId crxFilePath manifest (before ++ bad :: after) s
  = (Throw e, s2).
Proof.
  intros H1 H2. unfold Vivaldi.install_all.
  by rewrite (bind_fail _ _ _ _ _ (for_of_Throw _ _ _ _ _ _ _ _ H1 H2)).
Qed.

Lemma Opera_install_all_Throw (rt : Runtime) (this : Installer) (extensionId : string)
    (crxFilePath : path) (manifest : value) (before after : list path) (bad : path)
    (s s1 s2 : state) (e : exn) :
  for_of before (Opera.install_profile rt this extensionId crxFilePath manifest) s
  = (Ok Next, s1) →
  Opera.install_profile rt this extensionId crxFilePath manifest bad s1 = (Throw e, s2) →
  Opera.install_all rt this extensionId crxFilePath manifest (before ++ bad :: after) s
  = (Throw e, s2).
Proof.
  intros H1 H2. unfold Opera.install_all.
  by rewrite (bind_fail _ _ _ _ _ (for_of_Throw _ _ _ _ _ _ _ _ H1 H2)).
Qed.

Lemma rethrow_run {A} (m : M A) (handler : exn → M unit) (s s1 s2 : state) (e : exn) :
  m s = (Throw e, s1) → fatal e = false → handler e s1 = (Ok tt, s2) →
  try_catch m (λ error, handler error;; throw error) s = (Throw e, s2).
Proof.
  intros Hm He Hh. rewrite try_catch_run, Hm, He. by rewrite (bind_step _ _ _ _ _ Hh).
Qed.

Section LoopFacts.

Context (rt : Runtime).

Lemma try_catch_ext {A} (m m' : M A) (handler : exn → M A) (s : state) :
  m s = m' s → try_catch m handler s = try_catch m' handler s.
Proof. intros H. by rewrite !try_catch_run, H. Qed.

Lemma bind_assoc_run {A B C} (m : M A) (f : A → M B) (g : B → M C) (s : state) :
  ((m ≫= f) ≫= g) s = (m ≫= λ a, f a ≫= g) s.
Proof.
  rewrite !bind_run. destruct (m s) as [[a|e] s1]; [|done]. by rewrite bind_run.
Qed.

Lemma bind_ext_run {A B} (m : M A) (f g : A → M B) (s : state) :
  (∀ a s1, f a s1 = g a s1) → (m ≫= f) s = (m ≫= g) s.
Proof. intros H. rewrite !bind_run. by destruct (m s) as [[a|e] s1]. Qed.

Lemma Vivaldi_installExtension_loop (this : Installer) (extensionId : string) (s : state) :
  platform rt ≠ win32 →
  Vivaldi.installExtension rt this extensionId s
  = try_catch
      (found ← Vivaldi_before_loop rt this extensionId;
       Vivaldi.install_all rt this extensionId found.1.2 found.2 found.1.1)
      (λ error, log Vivaldi.logger "error" "Erreur dans Vivaldi.installExtension";;
                throw error) s.
Proof.
  intros Hp. unfold Vivaldi.installExtension, Vivaldi_before_loop.
  rewrite (bool_decide_eq_false_2 _ Hp).
  apply try_catch_ext.
  rewrite bind_assoc_run. apply bind_ext_run. intros _ s1.
  rewrite bind_assoc_run. apply bind_ext_run. intros targets s2.
  rewrite bind_assoc_run. apply bind_ext_run. intros _ s3.
  rewrite bind_assoc_run. apply bind_ext_run. intros crxFilePath s4.
  rewrite bind_assoc_run. apply bind_ext_run. intros manifest s5.
  by rewrite bind_run, mret_run.
Qed.

Lemma Opera_installExtension_loop (this : Installer) (extensionId : string) (s : state) :
  Opera.installExtension rt this extensionId s
  = try_catch
      (found ← Opera_before_loop rt this extensionId;
       Opera.install_all rt this extensionId found.1.2 found.2 found.1.1)
      (λ error, log Opera.logger "error" "Erreur dans Opera.installExtension";;
                throw error) s.
Proof.
  unfold Opera.installExtension, Opera_before_loop.
  apply try_catch_ext.
  rewrite bind_assoc_run. apply bind_ext_run. intros _ s1.
  rewrite bind_assoc_run. apply bind_ext_run. intros targets s2.
  rewrite bind_assoc_run. apply bind_ext_run. intros _ s3.
  rewrite bind_assoc_run. apply bind_ext_run. intros crxFilePath s4.
  rewrite bind_assoc_run. apply bind_ext_run. intros manifest s5.
  by rewrite bind_run, mret_run.
Qed.

Lemma for_of_one {A} (x : A) (body : A → M completion) (s s1 : state) :
  body x s = (Ok Next, s1) → for_of [x] body s = (Ok Next, s1).
Proof. intros H. cbn [for_of]. by rewrite (bind_step _ _ _ _ _ H). Qed.

(** C3, as the code has it. In [installExtension] of Vivaldi and of Opera
    nothing in the loop over the profiles catches what the body of the loop
    throws for one profile, whatever the exception: the loop ends there, in
    the state that the profiles before it and the failing body have led to,
    so that the profiles after it are not processed and the cleaning is not
    reached; the [catch] around [installExtension] logs the error once and
    throws it again. With a Preferences file that is there and holds
    malformed JSON, the body of Vivaldi throws the SyntaxError of
    [JSON.parse] and has done nothing for that profile. *)
Theorem profile_failure_aborts_batch (i : profile_installer) (this : Installer)
    (extensionId : string) (crxFilePath : path) (manifest : value)
    (before after : list path) (bad : path) (e : exn) (s s0 s1 s2 : state) :
  reaches_loop i rt this extensionId s (before ++ bad :: after) crxFilePath manifest s0 →
  for_of before (install_profile_of i rt this extensionId crxFilePath manifest) s0
  = (Ok Next, s1) →
  install_profile_of i rt this extensionId crxFilePath manifest bad s1 = (Throw e, s2) →
  install_all_of i rt this extensionId crxFilePath manifest (before ++ bad :: after) s0
  = (Throw e, s2)
  ∧ installExtension_of i rt this extensionId s
    = (Throw e,
       mkState (fs s2)
         (trace s2 ++ [Log (logger_of i) "error"
                         ("Erreur dans " +:+ logger_of i +:+ ".installExtension")])
         (clock s2))
  ∧ (i = vivaldi_installer →
     ∀ content, Fs.files (fs s1) !! path_join rt bad "Preferences" = Some content →
                JSON_parse rt content = None →
                e = SyntaxError ∧ s2 = s1).
Proof.
  intros Hreach Hbefore Hbad.
  assert (Hloop : install_all_of i rt this extensionId crxFilePath manifest
                    (before ++ bad :: after) s0 = (Throw e, s2)).
  { destruct i; cbn [install_all_of install_profile_of] in *.
    - by eapply Vivaldi_install_all_Throw.
    - by eapply Opera_install_all_Throw. }
  assert (Hcatch : fatal e = false).
  { destruct i; cbn [install_profile_of] in Hbad.
    - exact (Vivaldi_install_profile_survives _ _ _ _ _ _ _ _ _ Hbad).
    - exact (Opera_install_profile_survives _ _ _ _ _ _ _ _ _ Hbad). }
  split; [exact Hloop|]. split.
  - destruct i; cbn [reaches_loop install_all_of installExtension_of logger_of] in *.
    + destruct Hreach as [Hp Hreach].
      rewrite (Vivaldi_installExtension_loop _ _ _ Hp).
      eapply rethrow_run; [|exact Hcatch|by rewrite log_step].
      by rewrite (bind_step _ _ _ _ _ Hreach).
    + rewrite Opera_installExtension_loop.
      eapply rethrow_run; [|exact Hcatch|by rewrite log_step].
      by rewrite (bind_step _ _ _ _ _ Hreach).
  - intros -> content Hfile Hparse. cbn [install_profile_of] in Hbad.
    rewrite (Vivaldi_malformed_preferences _ _ _ _ _ _ _ _ Hfile Hparse) in Hbad.
    by injection Hbad as <- <-.
Qed.

End LoopFacts.

Lemma profile_failure_aborts_batch_witness :
  (Vivaldi.install_all Scenario.webstore (Scenario.installer Scenario.webstore) "abc"
     Scenario.crx_file Scenario.version_1
     [Scenario.vivaldi_dir ++ ["Default"]; Scenario.vivaldi_dir ++ ["Profile 2"];
      Scenario.vivaldi_dir ++ ["Profile 1"]] Scenario.at_the_loop
   = (Throw SyntaxError, Scenario.after_Default)
   ∧ Vivaldi.installExtension Scenario.webstore (Scenario.installer Scenario.webstore) "abc"
       Scenario.three_profiles
     = (Throw SyntaxError,
        mkState (fs Scenario.after_Default)
          (trace Scenario.after_Default
           ++ [Log "Vivaldi" "error" "Erreur dans Vivaldi.installExtension"])
          (clock Scenario.after_Default)))
  ∧ (Opera.install_all Scenario.webstore (Scenario.installer Scenario.webstore) "abc"
       Scenario.crx_file Scenario.version_1
       [Scenario.opera_dir ++ ["Default"]; Scenario.opera_dir ++ ["Profile 2"];
        Scenario.opera_dir ++ ["Profile 1"]] Scenario.opera_at_the_loop
     = (Throw TypeError, Scenario.opera_at_the_failure)
     ∧ Opera.installExtension Scenario.webstore (Scenario.installer Scenario.webstore) "abc"
         Scenario.opera_three_profiles
       = (Throw TypeError,
          mkState (fs Scenario.opera_at_the_failure)
            (trace Scenario.opera_at_the_failure
             ++ [Log "Opera" "error" "Erreur dans Opera.installExtension"])
            (clock Scenario.opera_at_the_failure))).
Proof.
  split.
  - destruct (profile_failure_aborts_batch Scenario.webstore vivaldi_installer
                (Scenario.installer Scenario.webstore) "abc" Scenario.crx_file
                Scenario.version_1 [Scenario.vivaldi_dir ++ ["Default"]]
                [Scenario.vivaldi_dir ++ ["Profile 1"]] (Scenario.vivaldi_dir ++ ["Profile 2"])
                SyntaxError Scenario.three_profiles Scenario.at_the_loop
                Scenario.after_Default Scenario.after_Default)
      as (H1 & H2 & _).
    + split; [discriminate|].
      exact (run_pair (Vivaldi_before_loop Scenario.webstore
                         (Scenario.installer Scenario.webstore) "abc")
               Scenario.three_profiles
               (Ok ([Scenario.vivaldi_dir ++ ["Default"]; Scenario.vivaldi_dir ++ ["Profile 2"];
                     Scenario.vivaldi_dir ++ ["Profile 1"]], Scenario.crx_file,
                    Scenario.version_1))
               ltac:(vm_compute; reflexivity)).
    + exact (for_of_one _ _ _ _
               (run_pair (Vivaldi.install_profile Scenario.webstore
                            (Scenario.installer Scenario.webstore) "abc" Scenario.crx_file
                            Scenario.version_1 (Scenario.vivaldi_dir ++ ["Default"]))
                  Scenario.at_the_loop (Ok Next) ltac:(vm_compute; reflexivity))).
    + apply (Vivaldi_malformed_preferences Scenario.webstore
               (Scenario.installer Scenario.webstore) "abc" Scenario.crx_file
               Scenario.version_1 (Scenario.vivaldi_dir ++ ["Profile 2"])
               Scenario.after_Default Scenario.malformed);
        vm_compute; reflexivity.
    + split; [exact H1|exact H2].
  - destruct (profile_failure_aborts_batch Scenario.webstore opera_installer
                (Scenario.installer Scenario.webstore) "abc" Scenario.crx_file
                Scenario.version_1 [Scenario.opera_dir ++ ["Default"]]
                [Scenario.opera_dir ++ ["Profile 1"]] (Scenario.opera_dir ++ ["Profile 2"])
                TypeError Scenario.opera_three_profiles Scenario.opera_at_the_loop
                Scenario.opera_after_Default Scenario.opera_at_the_failure)
      as (H1 & H2 & _).
    + exact (run_pair (Opera_before_loop Scenario.webstore
                         (Scenario.installer Scenario.webstore) "abc")
               Scenario.opera_three_profiles
               (Ok ([Scenario.opera_dir ++ ["Default"]; Scenario.opera_dir ++ ["Profile 2"];
                     Scenario.opera_dir ++ ["Profile 1"]], Scenario.crx_file,
                    Scenario.version_1))
               ltac:(vm_compute; reflexivity)).
    + exact (for_of_one _ _ _ _
               (run_pair (Opera.install_profile Scenario.webstore
                            (Scenario.installer Scenario.webstore) "abc" Scenario.crx_file
                            Scenario.version_1 (Scenario.opera_dir ++ ["Default"]))
                  Scenario.opera_at_the_loop (Ok Next) ltac:(vm_compute; reflexivity))).
    + exact (run_pair (Opera.install_profile Scenario.webstore
                         (Scenario.installer Scenario.webstore) "abc" Scenario.crx_file
                         Scenario.version_1 (Scenario.opera_dir ++ ["Profile 2"]))
               Scenario.opera_after_Default (Throw TypeError)
               ltac:(vm_compute; reflexivity)).
    + split; [exact H1|exact H2].
Defined.

(** In that run of Vivaldi the profile Default, which comes before the
    malformed one, has been installed into; Profile 1, which comes after
    it, is as it was; the download directory has not been cleaned. *)
Lemma three_profiles_outcome :
  Fs.files (fs Scenario.after_Default)
    !! (Scenario.vivaldi_version_dir ++ ["background.js"])%list
  = Some Scenario.background_js
  ∧ Fs.existsSync (fs Scenario.after_Default)
      (Scenario.vivaldi_dir ++ ["Profile 1"; "Extensions"])%list
    = false
  ∧ Fs.files (fs Scenario.after_Default)
      !! (Scenario.vivaldi_dir ++ ["Profile 1"; "Preferences"])%list
    = Some Scenario.braces
  ∧ Fs.existsSync (fs Scenario.after_Default) Scenario.download_dir = true.
Proof. repeat split; vm_compute; reflexivity. Qed.

(** C3 as stated fails: Vivaldi has the profiles Default, whose Preferences
    file is malformed, and Profile 1, whose file holds {}. The installation
    ends with the SyntaxError of the first; Profile 1 is left as it was, and
    the download directory is still there. *)
Lemma malformed_profile_aborts_installation :
  (Scenario.vivaldi_profiles Scenario.webstore Scenario.no_options Scenario.two_profiles).1
  = Ok [(Scenario.vivaldi_dir ++ ["Default"])%list;
        (Scenario.vivaldi_dir ++ ["Profile 1"])%list]
  ∧ (Scenario.run_vivaldi Scenario.webstore Scenario.no_options "abc"
       Scenario.two_profiles).1
    = Throw SyntaxError
  ∧ Fs.existsSync (fs (Scenario.run_vivaldi Scenario.webstore Scenario.no_options "abc"
       Scenario.two_profiles).2) (Scenario.vivaldi_dir ++ ["Profile 1"; "Extensions"])%list
    = false
  ∧ Fs.files (fs (Scenario.run_vivaldi Scenario.webstore Scenario.no_options "abc"
       Scenario.two_profiles).2) !! (Scenario.vivaldi_dir ++ ["Profile 1"; "Preferences"])%list
    = Some Scenario.braces
  ∧ Fs.existsSync (fs (Scenario.run_vivaldi Scenario.webstore Scenario.no_options "abc"
       Scenario.two_profiles).2) Scenario.download_dir
    = true.
Proof. repeat split; vm_compute; reflexivity. Qed.

(** ** Paths *)

Lemma append_String (c : ascii) (s t : string) : String c s +:+ t = String c (s +:+ t).
Proof. reflexivity. Qed.

Lemma append_empty_r (s : string) : s +:+ "" = s.
Proof. induction s as [|c s IH]; [done|]. by rewrite append_String, IH. Qed.

Lemma append_assoc (s t u : string) : (s +:+ t) +:+ u = s +:+ (t +:+ u).
Proof. induction s as [|c s IH]; [done|]. by rewrite !append_String, IH. Qed.

Lemma split_by_no_separator (is_sep : ascii → bool) (s current : string) :
  forallb (λ c, negb (is_sep c)) (list_ascii_of_string s) = true →
  Str.split_by is_sep s current = [current +:+ s].
Proof.
  revert current. induction s as [|c s IH]; intros current H.
  - by rewrite append_empty_r.
  - cbn [list_ascii_of_string forallb] in H. apply andb_true_iff in H as [Hc Hs].
    cbn [Str.split_by]. destruct (is_sep c); [discriminate|].
    rewrite (IH _ Hs). by rewrite append_assoc.
Qed.

Lemma path_join_plain (rt : Runtime) (p : path) (name : string) :
  plain_name name = true → path_join rt p name = (p ++ [name])%list.
Proof.
  unfold plain_name. rewrite !andb_true_iff. intros [[[H1 H2] H3] H4].
  unfold path_join. rewrite split_by_no_separator.
  - change ("" +:+ name) with name. cbn [foldl]. unfold push_segment.
    destruct (String.eqb name ""); [discriminate|].
    destruct (String.eqb name "."); [discriminate|].
    destruct (String.eqb name ".."); [discriminate|]. done.
  - eapply forallb_forall. intros c Hc. eapply forallb_forall in H4; [|exact Hc].
    apply andb_true_iff in H4 as [Ha Hb]. unfold is_separator.
    destruct (Ascii.eqb c "/"); [discriminate|]. cbn [orb].
    destruct (platform rt); [|done..]. by destruct (Ascii.eqb c "\").
Qed.

Lemma path_join_Preferences (rt : Runtime) (p : path) :
  path_join rt p "Preferences" = (p ++ ["Preferences"])%list.
Proof. by apply path_join_plain. Qed.

Lemma path_join_Extensions (rt : Runtime) (p : path) :
  path_join rt p "Extensions" = (p ++ ["Extensions"])%list.
Proof. by apply path_join_plain. Qed.

Lemma path_join_extension_zip (rt : Runtime) (p : path) :
  path_join rt p "extension.zip" = (p ++ ["extension.zip"])%list.
Proof. by apply path_join_plain. Qed.

Lemma path_join_manifest_json (rt : Runtime) (p : path) :
  path_join rt p "manifest.json" = (p ++ ["manifest.json"])%list.
Proof. by apply path_join_plain. Qed.

(** The characters of a segment are characters of the string. *)
Lemma split_by_chars (is_sep : ascii → bool) (s current segment : string) (c : ascii) :
  segment ∈ Str.split_by is_sep s current →
  c ∈ list_ascii_of_string segment →
  c ∈ list_ascii_of_string current ∨ c ∈ list_ascii_of_string s.
Proof.
  revert current. induction s as [|a s IH]; intros current Hseg Hc.
  - cbn in Hseg. apply list_elem_of_singleton in Hseg as ->. by left.
  - cbn [Str.split_by] in Hseg. cbn [list_ascii_of_string].
    destruct (is_sep a).
    + apply elem_of_cons in Hseg as [->|Hseg]; [by left|].
      destruct (IH _ Hseg Hc) as [H|H]; [by apply elem_of_nil in H|].
      right. by apply elem_of_cons; right.
    + destruct (IH _ Hseg Hc) as [H|H].
      * assert (Hchars : ∀ x y, list_ascii_of_string (x +:+ y)
                         = (list_ascii_of_string x ++ list_ascii_of_string y)%list).
        { intros x y. induction x as [|b x IHx]; [done|].
          rewrite append_String. cbn. by rewrite IHx. }
        rewrite Hchars in H. apply elem_of_app in H as [H|H]; [by left|].
        cbn in H. apply list_elem_of_singleton in H as ->. right. by left.
      * right. by apply elem_of_cons; right.
Qed.

Lemma foldl_push_segment_prefix (p : path) (segs : list string) :
  (∀ seg, seg ∈ segs → seg ≠ "..") → p `prefix_of` foldl push_segment p segs.
Proof.
  revert p. induction segs as [|seg segs IH]; intros p H; [done|].
  cbn [foldl]. etrans; [|apply IH; intros x Hx; apply H; by right].
  unfold push_segment.
  destruct (String.eqb seg "" || String.eqb seg "."); [done|].
  destruct (String.eqb seg "..") eqn:E.
  - apply String.eqb_eq in E. exfalso. eapply H; [by left|done].
  - by apply prefix_app_r.
Qed.

Lemma path_join_prefix (rt : Runtime) (p : path) (s : string) :
  no_dot s = true → p `prefix_of` path_join rt p s.
Proof.
  intros Hs. apply foldl_push_segment_prefix. intros seg Hseg ->.
  destruct (split_by_chars _ _ _ _ "."%char Hseg) as [H|H].
  - by left.
  - by apply elem_of_nil in H.
  - unfold no_dot in Hs. rewrite forallb_forall in Hs.
    apply list_elem_of_In in H. apply Hs in H. done.
Qed.

Lemma versionFormatted_no_dot (v : string) : no_dot (Version.versionFormatted v) = true.
Proof.
  unfold no_dot, Version.versionFormatted.
  induction v as [|c v IH]; [done|].
  cbn [Version.replace_dots]. rewrite append_String. cbn [list_ascii_of_string forallb].
  rewrite IH, andb_true_r. destruct (Ascii.eqb c ".") eqn:E; [done|]. by rewrite E.
Qed.

(** ** Invariants of the file system along a run *)

Section Respects.

Context (R : Fs.t → Fs.t → Prop) `{!Reflexive R} `{!Transitive R}.

Lemma respects_ret {A} (a : A) : respects R (mret a).
Proof. intros s r s' [= <- <-]. reflexivity. Qed.

Lemma respects_throw {A} (e : exn) : respects R (throw e : M A).
Proof. intros s r s' [= <- <-]. reflexivity. Qed.

Lemma respects_lift {A} (x : result A) : respects R (lift x).
Proof. intros s r s' [= <- <-]. reflexivity. Qed.

Lemma respects_emit (e : event) : respects R (emit e).
Proof. intros s r s' [= <- <-]. reflexivity. Qed.

Lemma respects_log (logger level message : string) : respects R (log logger level message).
Proof. apply respects_emit. Qed.

Lemma respects_now (rt : Runtime) : respects R (now rt).
Proof. intros s r s' [= <- <-]. reflexivity. Qed.

Lemma respects_read_fs {A} (f : Fs.t → A) : respects R (read_fs f).
Proof. intros s r s' [= <- <-]. reflexivity. Qed.

Lemma respects_try_fs {A} (f : Fs.t → result A) : respects R (try_fs f).
Proof. intros s r s' [= <- <-]. reflexivity. Qed.

Lemma respects_bind {A B} (m : M A) (f : A → M B) :
  respects R m → (∀ a, respects R (f a)) → respects R (m ≫= f).
Proof.
  intros Hm Hf s r s'. rewrite bind_run.
  destruct (m s) as [[a|e] s1] eqn:E.
  - intros H. etrans; [exact (Hm _ _ _ E)|exact (Hf _ _ _ _ H)].
  - intros [= <- <-]. exact (Hm _ _ _ E).
Qed.

Lemma respects_try_catch {A} (m : M A) (handler : exn → M A) :
  respects R m → (∀ e, respects R (handler e)) → respects R (try_catch m handler).
Proof.
  intros Hm Hh s r s'. rewrite try_catch_run.
  destruct (m s) as [[a|e] s1] eqn:E.
  - intros [= <- <-]. exact (Hm _ _ _ E).
  - destruct (fatal e).
    + intros [= <- <-]. exact (Hm _ _ _ E).
    + intros H. etrans; [exact (Hm _ _ _ E)|exact (Hh _ _ _ _ H)].
Qed.

Lemma respects_update_fs (f : Fs.t → result Fs.t) :
  (∀ a b, f a = Ok b → R a b) → respects R (update_fs f).
Proof.
  intros Hf s r s'. rewrite update_fs_run.
  destruct (f (fs s)) as [b|e] eqn:E.
  - intros [= <- <-]. by apply Hf.
  - intros [= <- <-]. reflexivity.
Qed.

Lemma respects_when (b : bool) (m : M unit) : respects R m → respects R (when b m).
Proof. intros Hm. destruct b; [exact Hm|apply respects_ret]. Qed.

Lemma respects_for_of {A} (l : list A) (body : A → M completion) :
  (∀ x, respects R (body x)) → respects R (for_of l body).
Proof.
  intros Hbody. induction l as [|x l IH]; [apply respects_ret|].
  cbn [for_of]. apply respects_bind; [apply Hbody|].
  intros []; [exact IH|apply respects_ret].
Qed.

End Respects.

(** ** The operations of the file system *)

#[global] Instance untouched_refl (p : path) : Reflexive (untouched p).
Proof. by intros a. Qed.

#[global] Instance untouched_trans (p : path) : Transitive (untouched p).
Proof. intros a b c [H1 H2] [H3 H4]. split; congruence. Qed.

#[global] Instance grows_refl : Reflexive grows.
Proof. by intros a q. Qed.

#[global] Instance grows_trans : Transitive grows.
Proof. intros a b c H1 H2 q. destruct (H1 q), (H2 q). split; auto. Qed.

Lemma grows_existsSync (a b : Fs.t) (q : path) :
  grows a b → Fs.existsSync a q = true → Fs.existsSync b q = true.
Proof.
  intros H. destruct (H q) as [Hd Hf]. unfold Fs.existsSync.
  rewrite !orb_true_iff. intros [?|?]; auto.
Qed.

Lemma elem_of_ancestors (p q : path) : q ∈ Fs.ancestors p → q `prefix_of` p.
Proof.
  unfold Fs.ancestors. intros (k & -> & _)%list_elem_of_fmap.
  apply prefix_take.
Qed.

Lemma mkdirSync_Ok (a b : Fs.t) (p : path) :
  Fs.mkdirSync a p = Ok b →
  Fs.files b = Fs.files a ∧ Fs.dirs b = Fs.dirs a ∪ list_to_set (Fs.ancestors p).
Proof.
  unfold Fs.mkdirSync. destruct (bool_decide (p = [])); [discriminate|].
  destruct (existsb _ _); [discriminate|]. by intros [= <-].
Qed.

Lemma self_ancestor (p : path) : p ≠ [] → p ∈ Fs.ancestors p.
Proof.
  intros Hp. unfold Fs.ancestors. apply list_elem_of_fmap.
  exists (length p). split; [by rewrite firstn_all|].
  apply elem_of_seq. destruct p; [done|]. cbn. lia.
Qed.

Lemma mkdirSync_is_dir (a b : Fs.t) (p : path) :
  Fs.mkdirSync a p = Ok b → Fs.is_dir b p = true.
Proof.
  intros H. pose proof (mkdirSync_Ok _ _ _ H) as [_ Hd].
  unfold Fs.mkdirSync in H. destruct (bool_decide (p = [])) eqn:E; [discriminate|].
  apply bool_decide_eq_false in E.
  unfold Fs.is_dir. apply bool_decide_eq_true. rewrite Hd.
  apply elem_of_union_r, elem_of_list_to_set. by apply self_ancestor.
Qed.

Lemma mkdirSync_untouched (a b : Fs.t) (p q : path) :
  ¬ p `prefix_of` q → Fs.mkdirSync a q = Ok b → untouched p a b.
Proof.
  intros Hp [Hf Hd]%mkdirSync_Ok. split; [by rewrite Hf|].
  unfold Fs.is_dir. apply bool_decide_ext. rewrite Hd, elem_of_union, elem_of_list_to_set.
  split; [|auto]. intros [?|H%elem_of_ancestors]; done.
Qed.

Lemma mkdirSync_grows (a b : Fs.t) (q : path) : Fs.mkdirSync a q = Ok b → grows a b.
Proof.
  intros [Hf Hd]%mkdirSync_Ok p. unfold Fs.is_dir, Fs.is_file. rewrite Hf, Hd. split; [|done].
  rewrite !bool_decide_eq_true. intros ?. by apply elem_of_union_l.
Qed.

Lemma writeFileSync_Ok (a b : Fs.t) (p : path) (content : bytes) :
  Fs.writeFileSync a p content = Ok b →
  Fs.files b = <[p:=content]> (Fs.files a) ∧ Fs.dirs b = Fs.dirs a.
Proof.
  unfold Fs.writeFileSync. destruct (Fs.is_dir a p); [discriminate|].
  destruct (Fs.parent_is_dir a p); [|discriminate]. by intros [= <-].
Qed.

Lemma writeFileSync_untouched (a b : Fs.t) (p q : path) (content : bytes) :
  q ≠ p → Fs.writeFileSync a q content = Ok b → untouched p a b.
Proof.
  intros Hq [Hf Hd]%writeFileSync_Ok. split.
  - by rewrite Hf, lookup_insert_ne.
  - unfold Fs.is_dir. by rewrite Hd.
Qed.

Lemma writeFileSync_grows (a b : Fs.t) (q : path) (content : bytes) :
  Fs.writeFileSync a q content = Ok b → grows a b.
Proof.
  intros [Hf Hd]%writeFileSync_Ok p. unfold Fs.is_dir, Fs.is_file. rewrite Hf, Hd.
  split; [done|]. rewrite !bool_decide_eq_true. intros [x Hx].
  destruct (decide (q = p)) as [->|Hne].
  - rewrite lookup_insert_eq. eauto.
  - rewrite lookup_insert_ne by done. eauto.
Qed.

Lemma rmSync_untouched (a : Fs.t) (p q : path) :
  ¬ q `prefix_of` p → untouched p a (Fs.rmSync a q).
Proof.
  intros Hq. unfold Fs.rmSync. destruct (bool_decide (q = [])); [done|].
  split; cbn.
  - destruct (Fs.files a !! p) as [x|] eqn:E.
    + by apply map_lookup_filter_Some_2.
    + apply map_lookup_filter_None. left. done.
  - unfold Fs.is_dir. cbn. apply bool_decide_ext. rewrite elem_of_filter. tauto.
Qed.

Lemma write_entry_Ok (dest : path) (a b : Fs.t) (entry : path * bytes) :
  Fs.write_entry dest a entry = Ok b →
  ∃ c, Fs.mkdirSync a (Fs.dirname (dest ++ entry.1)) = Ok c
       ∧ Fs.writeFileSync c (dest ++ entry.1) entry.2 = Ok b.
Proof.
  unfold Fs.write_entry. destruct (Fs.mkdirSync a _) as [c|e]; [|discriminate]. eauto.
Qed.

Lemma prefix_dirname (p q : path) : p `prefix_of` Fs.dirname q → p `prefix_of` q.
Proof.
  unfold Fs.dirname. intros H. etrans; [exact H|].
  destruct (decide (q = [])) as [->|Hq]; [done|].
  rewrite (app_removelast_last "" Hq) at 2. by apply prefix_app_r.
Qed.

Lemma prefix_of_extension (p dest rel : path) :
  p `prefix_of` (dest ++ rel) → p `prefix_of` dest ∨ dest `prefix_of` p.
Proof.
  intros H. destruct (prefix_weak_total p dest (dest ++ rel)) as [?|?]; auto.
  by apply prefix_app_r.
Qed.

Lemma write_entries_untouched (dest p : path) (entries : list (path * bytes)) (a b : Fs.t) :
  ¬ dest `prefix_of` p → ¬ p `prefix_of` dest →
  Fs.write_entries dest a entries = Ok b → untouched p a b.
Proof.
  intros H1 H2. revert a. induction entries as [|entry entries IH]; intros a.
  - by intros [= <-].
  - cbn [Fs.write_entries].
    destruct (Fs.write_entry dest a entry) as [c|e] eqn:E; [|discriminate].
    intros H. cbn in H. etrans; [|by apply IH].
    apply write_entry_Ok in E as (d & Hd & Hw).
    etrans.
    + eapply mkdirSync_untouched; [|exact Hd].
      intros Hp%prefix_dirname. by destruct (prefix_of_extension _ _ _ Hp).
    + eapply writeFileSync_untouched; [|exact Hw].
      intros <-. apply H1. by apply prefix_app_r.
Qed.

Lemma write_entries_grows (dest : path) (entries : list (path * bytes)) (a b : Fs.t) :
  Fs.write_entries dest a entries = Ok b → grows a b.
Proof.
  revert a. induction entries as [|entry entries IH]; intros a.
  - by intros [= <-].
  - cbn [Fs.write_entries].
    destruct (Fs.write_entry dest a entry) as [c|e] eqn:E; [|discriminate].
    intros H. cbn in H. etrans; [|by apply IH].
    apply write_entry_Ok in E as (d & Hd & Hw).
    etrans; [by eapply mkdirSync_grows|by eapply writeFileSync_grows].
Qed.

(** ** What the steps of an installation leave in place *)

Ltac order_solve :=
  try match goal with
      | |- Reflexive _ => apply _
      | |- Transitive _ => apply _
      end.

Ltac respects_step :=
  first
    [ apply respects_bind; order_solve; [|intros ?]
    | apply respects_try_catch; order_solve; [|intros ?]
    | apply respects_when; order_solve
    | apply respects_ret; order_solve
    | apply respects_throw; order_solve
    | apply respects_lift; order_solve
    | apply respects_log; order_solve
    | apply respects_emit; order_solve
    | apply respects_now; order_solve
    | apply respects_read_fs; order_solve
    | apply respects_try_fs; order_solve
    | apply respects_for_of; order_solve; intros ?
    | progress cbv zeta
    | match goal with
      | |- respects _ (if ?b then _ else _) => destruct b
      | |- respects _ (match ?x with _ => _ end) => destruct x
      end ].

Section Grows.

Context (rt : Runtime).

Lemma mkdirSync_respects_grows (p : path) : respects grows (mkdirSync p).
Proof. apply respects_update_fs; [apply _|]. intros a b. apply mkdirSync_grows. Qed.

Lemma writeFileSync_respects_grows (p : path) (content : bytes) :
  respects grows (writeFileSync p content).
Proof. apply respects_update_fs; [apply _|]. intros a b. apply writeFileSync_grows. Qed.

Lemma write_entries_respects_grows (dest : path) (entries : list (path * bytes)) :
  respects grows (update_fs (λ fs, Fs.write_entries dest fs entries)).
Proof. apply respects_update_fs; [apply _|]. intros a b. apply write_entries_grows. Qed.

Ltac grows_leaf :=
  first [ apply writeFileSync_respects_grows | apply mkdirSync_respects_grows
        | apply write_entries_respects_grows ].

Lemma expand_archive_respects_grows (zip dest : path) :
  respects grows (expand_archive rt zip dest).
Proof.
  unfold expand_archive. repeat respects_step. grows_leaf.
Qed.

Lemma close_respects (R : Fs.t → Fs.t → Prop) `{!Reflexive R} `{!Transitive R}
    (browser : Browser) :
  respects R (BrowserController.close browser).
Proof. unfold BrowserController.close. repeat respects_step. Qed.

Lemma openWithConfigUrl_respects (R : Fs.t → Fs.t → Prop) `{!Reflexive R} `{!Transitive R}
    (logger : string) (verbose : bool) (browser : Browser)
    (profileName smartLinkUrl secret : string) :
  respects R (Chromium.openWithConfigUrl logger verbose browser profileName smartLinkUrl secret).
Proof.
  unfold Chromium.openWithConfigUrl, BrowserController.openWithUrl.
  repeat respects_step. all: by apply close_respects.
Qed.

Lemma extract_or_write_manifest_respects_grows (logger : string) (this : Installer)
    (crxFilePath extensionVersionDir : path) (manifest : value) :
  respects grows (Chromium.extract_or_write_manifest rt logger this crxFilePath
                    extensionVersionDir manifest).
Proof.
  unfold Chromium.extract_or_write_manifest, Chromium.extract_archive.
  repeat respects_step. all: grows_leaf.
Qed.

Lemma build_settings_record_respects (R : Fs.t → Fs.t → Prop) `{!Reflexive R} `{!Transitive R}
    (extensionId versionFormatted : string) (manifest : value) :
  respects R (Chromium.build_settings_record rt extensionId versionFormatted manifest).
Proof. unfold Chromium.build_settings_record. repeat respects_step. Qed.

Lemma ensure_and_register_respects (R : Fs.t → Fs.t → Prop) `{!Reflexive R} `{!Transitive R}
    (this : Installer) (extensionId : string) (preferences : value) :
  respects R (Chromium.ensure_and_register rt this extensionId preferences).
Proof. unfold Chromium.ensure_and_register. repeat respects_step. Qed.

Lemma write_and_relaunch_respects_grows (logger : string) (verbose : bool) (browser : Browser)
    (this : Installer) (profile preferenceFile : path) (preferences : value) :
  respects grows (Chromium.write_and_relaunch rt logger verbose browser this profile
                    preferenceFile preferences).
Proof.
  unfold Chromium.write_and_relaunch. repeat respects_step. grows_leaf.
Qed.



Lemma Vivaldi_unpack_and_patch_grows (this : Installer) (extensionId : string)
    (crxFilePath : path) (manifest : value) (profile preferenceFile : path)
    (preferences : value) (versionFormatted : string) (extensionVersionDir : path) :
  respects grows (Vivaldi.unpack_and_patch rt this extensionId crxFilePath manifest profile
                    preferenceFile preferences versionFormatted extensionVersionDir).
Proof.
  unfold Vivaldi.unpack_and_patch. repeat respects_step. all: grows_leaf.
Qed.

Lemma Opera_unpack_and_patch_grows (this : Installer) (extensionId : string)
    (crxFilePath : path) (manifest : value) (profile preferenceFile : path)
    (versionFormatted : string) (extensionVersionDir : path) :
  respects grows (Opera.unpack_and_patch rt this extensionId crxFilePath manifest profile
                    preferenceFile versionFormatted extensionVersionDir).
Proof.
  unfold Opera.unpack_and_patch. repeat respects_step. all: grows_leaf.
Qed.

(** CHECK_EXISTING without [forceReinstall]: when the body ends normally,
    the version directory exists, whether the profile was skipped or not. *)
Lemma check_existing_installed (logger : string) (this : Installer) (dir : path)
    (rest : M completion) (s s1 : state) (c : completion) :
  truthy_flag (forceReinstall (options this)) = false →
  respects grows rest →
  Chromium.check_existing logger this dir (mkdirSync dir;; rest) s = (Ok c, s1) →
  Fs.existsSync (fs s1) dir = true ∧ grows (fs s) (fs s1).
Proof.
  intros Hforce Hrest. unfold Chromium.check_existing.
  rewrite bind_run, existsSync_run. cbn beta iota. rewrite Hforce, andb_false_r.
  cbn [negb]. rewrite andb_true_r.
  destruct (Fs.existsSync (fs s) dir) eqn:E.
  - rewrite bind_run, log_step. cbn beta iota. intros [= <- <-]. by split.
  - intros H. apply bind_Ok in H as ([] & sm & Hm & H).
    unfold mkdirSync in Hm. rewrite update_fs_run in Hm.
    destruct (Fs.mkdirSync (fs s) dir) as [fsm|e] eqn:Em; [|discriminate].
    injection Hm as <-. cbn in H.
    pose proof (Hrest _ _ _ H) as Hg. cbn in Hg.
    split.
    + unfold Fs.existsSync. destruct (Hg dir) as [Hd _].
      rewrite Hd; [done|]. by eapply mkdirSync_is_dir.
    + etrans; [by eapply mkdirSync_grows|done].
Qed.

End Grows.

(** ** A second installation *)

Section SecondRun.

Context (rt : Runtime).

Lemma existsSync_untouched (p : path) (a b : Fs.t) :
  untouched p a b → Fs.existsSync b p = Fs.existsSync a p.
Proof.
  intros [Hf Hd]. unfold Fs.existsSync, Fs.is_file. by rewrite Hf, Hd.
Qed.

Lemma read_json_Ok (p : path) (s s' : state) (v : value) :
  read_json rt p s = (Ok v, s') →
  s' = s ∧ ∃ content, Fs.files (fs s) !! p = Some content ∧ JSON_parse rt content = Some v.
Proof.
  unfold read_json. rewrite bind_run, readFileSync_run. unfold Fs.readFileSync.
  destruct (Fs.files (fs s) !! p) as [content|]; [|discriminate].
  cbn beta iota. destruct (JSON_parse rt content) as [v'|] eqn:E; [|discriminate].
  intros [= <- <-]. eauto.
Qed.

Lemma read_json_run (p : path) (s : state) (content : bytes) (v : value) :
  Fs.files (fs s) !! p = Some content → JSON_parse rt content = Some v →
  read_json rt p s = (Ok v, s).
Proof.
  intros Hf Hp. unfold read_json. rewrite bind_run, readFileSync_run.
  unfold Fs.readFileSync. by rewrite Hf, Hp.
Qed.

(** [if (!fs.existsSync(dir)) fs.mkdirSync(dir, { recursive: true })] *)
Lemma ensure_directory_Ok (dir : path) (s s' : state) :
  when (negb (Fs.existsSync (fs s) dir)) (mkdirSync dir) s = (Ok tt, s') →
  Fs.existsSync (fs s') dir = true ∧ Fs.files (fs s') = Fs.files (fs s)
  ∧ grows (fs s) (fs s').
Proof.
  destruct (Fs.existsSync (fs s) dir) eqn:E; cbn [negb when].
  - intros [= <-]. done.
  - unfold mkdirSync. rewrite update_fs_run.
    destruct (Fs.mkdirSync (fs s) dir) as [b|e] eqn:Em; [|discriminate].
    intros [= <-]. cbn [fs]. split_and!.
    + unfold Fs.existsSync. by erewrite mkdirSync_is_dir.
    + apply mkdirSync_Ok in Em. by destruct Em as [-> _].
    + by eapply mkdirSync_grows.
Qed.

(** CHECK_EXISTING without [forceReinstall]: the profile is left when the
    version directory exists, the remainder of the body runs when it does
    not. *)
Lemma check_existing_cases (logger : string) (this : Installer) (dir : path)
    (rest : M completion) (s s1 : state) (r : result completion) :
  truthy_flag (forceReinstall (options this)) = false →
  Chromium.check_existing logger this dir rest s = (r, s1) →
  (Fs.existsSync (fs s) dir = true ∧ r = Ok Next ∧ fs s1 = fs s
   ∧ Log logger "info"
       "L'extension est déjà installée. Utilisez l'option forceReinstall pour la réinstaller."
     ∈ trace s1)
  ∨ (Fs.existsSync (fs s) dir = false ∧ rest s = (r, s1)).
Proof.
  intros Hforce. unfold Chromium.check_existing.
  rewrite bind_run, existsSync_run. cbn beta iota. rewrite Hforce, andb_false_r.
  cbn [negb]. rewrite andb_true_r.
  destruct (Fs.existsSync (fs s) dir) eqn:E.
  - rewrite bind_run, log_step. cbn beta iota. intros [= <- <-]. left.
    split_and!; try done. cbn [trace]. apply elem_of_app. right. by left.
  - intros H. by right.
Qed.

Lemma Opera_skip (this : Installer) (extensionId : string) (crxFilePath : path)
    (manifest : value) (profile : path) (versionFormatted : string) (s : state) :
  truthy_flag (forceReinstall (options this)) = false →
  Chromium.version_directory manifest = Ok versionFormatted →
  Fs.existsSync (fs s) (path_join rt (path_join rt profile "Extensions") extensionId) = true →
  Fs.existsSync (fs s)
    (path_join rt (path_join rt (path_join rt profile "Extensions") extensionId)
       versionFormatted) = true →
  ∃ s', Opera.install_profile rt this extensionId crxFilePath manifest profile s
        = (Ok Next, s')
        ∧ fs s' = fs s.
Proof.
  intros Hforce Hversion Hdir Hvdir. unfold Opera.install_profile. cbv zeta.
  mstep. rewrite Hdir. cbn [negb when]. mstep. mstep. rewrite Hversion. mstep. mstep.
  match goal with |- ∃ s', ?m ?s0 = _ ∧ _ =>
    destruct (m s0) as [r s1] eqn:E;
    apply (check_existing_cases _ _ _ _ _ _ _ Hforce) in E
  end.
  cbn [fs] in E. destruct E as [(_ & -> & E & _)|[E _]]; [|congruence].
  eauto.
Qed.

Lemma respects_eq_fs {A} (m : M A) (s s' : state) (r : result A) :
  respects eq m → m s = (r, s') → fs s' = fs s.
Proof. intros H E. symmetry. exact (H _ _ _ E). Qed.

Lemma lift_Ok {A} (r : result A) (s s' : state) (a : A) :
  lift r s = (Ok a, s') → r = Ok a ∧ s' = s.
Proof. by intros [= -> <-]. Qed.

Lemma write_and_relaunch_Ok (logger : string) (verbose : bool) (browser : Browser)
    (this : Installer) (profile preferenceFile : path) (preferences : value)
    (s s1 : state) (c : completion) :
  Chromium.write_and_relaunch rt logger verbose browser this profile preferenceFile
    preferences s = (Ok c, s1) →
  c = Next
  ∧ Fs.writeFileSync (fs s) preferenceFile (JSON_stringify rt preferences) = Ok (fs s1).
Proof.
  unfold Chromium.write_and_relaunch. intros H.
  apply bind_Ok in H as ([] & sw & Hw & H).
  unfold writeFileSync in Hw. rewrite update_fs_run in Hw.
  destruct (Fs.writeFileSync (fs s) preferenceFile _) as [b|e]; [|discriminate].
  injection Hw as <-.
  rewrite bind_run, log_step in H. cbn beta iota in H.
  apply bind_Ok in H as ([] & sr & Hr & H). injection H as <- <-.
  split; [done|]. f_equal.
  apply respects_eq_fs in Hr; [by rewrite Hr|].
  repeat respects_step.
Qed.

Lemma extract_or_write_manifest_Return (logger : string) (this : Installer)
    (crxFilePath extensionVersionDir : path) (manifest : value) (s s1 : state) :
  Chromium.extract_or_write_manifest rt logger this crxFilePath extensionVersionDir
    manifest s = (Ok Return, s1) →
  fs s1 = fs s.
Proof.
  unfold Chromium.extract_or_write_manifest. rewrite try_catch_run.
  destruct (Chromium.extract_archive rt logger this crxFilePath extensionVersionDir s)
    as [[c|e] s'] eqn:E.
  - intros [= -> ->]. unfold Chromium.extract_archive in E.
    apply bind_Ok in E as (crxData & sr & Hr & E).
    unfold readFileSync, try_fs in Hr. injection Hr as _ <-.
    cbv zeta in E.
    destruct (negb (truthy_path (downloadDir (options this)))).
    + by injection E as <-.
    + run_inv E. discriminate.
  - destruct (fatal e); [discriminate|]. intros H. run_inv H. discriminate.
Qed.

Lemma build_settings_record_Ok (extensionId versionFormatted : string) (manifest : value)
    (s s1 : state) (record : value) :
  Chromium.build_settings_record rt extensionId versionFormatted manifest s = (Ok record, s1) →
  fs s1 = fs s.
Proof.
  intros H. eapply respects_eq_fs; [|exact H].
  apply build_settings_record_respects; apply _.
Qed.

Lemma ensure_and_register_Ok (this : Installer) (extensionId : string)
    (preferences preferences' : value) (s s1 : state) :
  Chromium.ensure_and_register rt this extensionId preferences s = (Ok preferences', s1) →
  fs s1 = fs s
  ∧ ∃ install_time p3, Chromium.ensure_external preferences = Ok p3
                       ∧ Chromium.register this extensionId install_time p3 = Ok preferences'.
Proof.
  unfold Chromium.ensure_and_register. intros H.
  apply bind_Ok in H as (p3 & s2 & H2 & H). apply lift_Ok in H2 as [H2 ->].
  rewrite bind_run, now_run in H. cbn beta iota in H.
  apply lift_Ok in H as [H ->]. split; [done|]. eauto.
Qed.

Lemma Vivaldi_unpack_and_patch_Ok (this : Installer) (extensionId : string)
    (crxFilePath : path) (manifest : value) (profile preferenceFile : path)
    (preferences : value) (versionFormatted : string) (extensionVersionDir : path)
    (s s1 : state) (c : completion) :
  Vivaldi.unpack_and_patch rt this extensionId crxFilePath manifest profile preferenceFile
    preferences versionFormatted extensionVersionDir s = (Ok c, s1) →
  (c = Return ∧ fs s1 = fs s)
  ∨ (c = Next
     ∧ ∃ preferences' before,
         patches Vivaldi.prepare_settings Vivaldi.assign_record this extensionId
           preferences preferences'
         ∧ grows (fs s) before
         ∧ Fs.writeFileSync before preferenceFile (JSON_stringify rt preferences')
           = Ok (fs s1)).
Proof.
  unfold Vivaldi.unpack_and_patch. intros H.
  apply bind_Ok in H as (extracted & se & He & H).
  destruct extracted.
  - right. rewrite bind_run, log_step in H. cbn beta iota in H.
    apply bind_Ok in H as (p1 & s2 & H1 & H). apply lift_Ok in H1 as [H1 ->].
    apply bind_Ok in H as (record & s3 & H3 & H).
    apply build_settings_record_Ok in H3. cbn [fs] in H3.
    apply bind_Ok in H as (p2 & s4 & H2 & H). apply lift_Ok in H2 as [H2 ->].
    apply bind_Ok in H as (p4 & s5 & H5 & H).
    apply ensure_and_register_Ok in H5 as (Hfs & t & p3 & Hp3 & Hp4).
    apply write_and_relaunch_Ok in H as [-> H].
    split; [done|]. exists p4, (fs s5). split_and!.
    + by exists record, t, p1, p2, p3.
    + rewrite Hfs, H3.
      by apply (extract_or_write_manifest_respects_grows rt _ _ _ _ _ _ _ _ He).
    + done.
  - left. injection H as <- <-. split; [done|].
    by eapply extract_or_write_manifest_Return.
Qed.

Lemma version_directory_Ok (manifest : value) (versionFormatted : string) :
  Chromium.version_directory manifest = Ok versionFormatted →
  ∃ v, versionFormatted = Version.versionFormatted v.
Proof.
  unfold Chromium.version_directory.
  destruct (get manifest "version") as [[]|]; try discriminate.
  intros [= <-]. eauto.
Qed.

Lemma version_directory_prefix (manifest : value) (versionFormatted : string) (dir : path) :
  Chromium.version_directory manifest = Ok versionFormatted →
  dir `prefix_of` path_join rt dir versionFormatted.
Proof.
  intros (v & ->)%version_directory_Ok. apply path_join_prefix, versionFormatted_no_dot.
Qed.

Lemma Vivaldi_without_preferences (this : Installer) (extensionId : string)
    (crxFilePath : path) (manifest : value) (profile : path) (s : state) :
  Fs.existsSync (fs s) (path_join rt profile "Preferences") = false →
  Vivaldi.install_profile rt this extensionId crxFilePath manifest profile s = (Ok Next, s).
Proof.
  intros H. unfold Vivaldi.install_profile. cbv zeta. mstep. by rewrite H.
Qed.

Lemma Vivaldi_skip (this : Installer) (extensionId : string) (crxFilePath : path)
    (manifest : value) (profile : path) (versionFormatted : string) (s : state)
    (content : bytes) (preferences : value) :
  truthy_flag (forceReinstall (options this)) = false →
  Chromium.version_directory manifest = Ok versionFormatted →
  Fs.files (fs s) !! path_join rt profile "Preferences" = Some content →
  JSON_parse rt content = Some preferences →
  Fs.existsSync (fs s) (path_join rt (path_join rt profile "Extensions") extensionId) = true →
  Fs.existsSync (fs s)
    (path_join rt (path_join rt (path_join rt profile "Extensions") extensionId)
       versionFormatted) = true →
  ∃ s', Vivaldi.install_profile rt this extensionId crxFilePath manifest profile s
        = (Ok Next, s')
        ∧ fs s' = fs s.
Proof.
  intros Hforce Hversion Hfile Hparse Hdir Hvdir. unfold Vivaldi.install_profile. cbv zeta.
  mstep. rewrite (existsSync_file _ _ _ Hfile). cbn [negb].
  rewrite (bind_step _ _ _ _ _ (read_json_run _ _ _ _ Hfile Hparse)).
  mstep. rewrite Hdir. cbn [negb when]. mstep. mstep. rewrite Hversion. mstep. mstep.
  match goal with |- ∃ s', ?m ?s0 = _ ∧ _ =>
    destruct (m s0) as [r s1] eqn:E;
    apply (check_existing_cases _ _ _ _ _ _ _ Hforce) in E
  end.
  cbn [fs] in E. destruct E as [(_ & -> & E & _)|[E _]]; [|congruence].
  eauto.
Qed.

(** What a run of the body that ends normally leaves behind, without
    [forceReinstall]: the directory of the extension and the version
    directory. *)
Lemma Opera_after_install (this : Installer) (extensionId : string) (crxFilePath : path)
    (manifest : value) (profile : path) (s s1 : state) (c : completion) :
  truthy_flag (forceReinstall (options this)) = false →
  Opera.install_profile rt this extensionId crxFilePath manifest profile s = (Ok c, s1) →
  ∃ versionFormatted,
    Chromium.version_directory manifest = Ok versionFormatted
    ∧ Fs.existsSync (fs s1)
        (path_join rt (path_join rt profile "Extensions") extensionId) = true
    ∧ Fs.existsSync (fs s1)
        (path_join rt (path_join rt (path_join rt profile "Extensions") extensionId)
           versionFormatted) = true.
Proof.
  intros Hforce. unfold Opera.install_profile. cbv zeta. intros H.
  rewrite bind_run, existsSync_run in H. cbn beta iota in H.
  apply bind_Ok in H as ([] & sa & Ha & H).
  apply ensure_directory_Ok in Ha as (Hdir & _ & _).
  apply bind_Ok in H as (versionFormatted & sv & Hv & H). apply lift_Ok in Hv as [Hv ->].
  rewrite bind_run, log_step in H. cbn beta iota in H.
  rewrite bind_run, log_step in H. cbn beta iota in H.
  apply check_existing_installed in H as [Hvdir Hg]; [|done|].
  - exists versionFormatted. split_and!; [done| |done].
    by eapply grows_existsSync.
  - apply Opera_unpack_and_patch_grows.
Qed.

Lemma Vivaldi_after_install (this : Installer) (extensionId : string) (crxFilePath : path)
    (manifest : value) (profile : path) (s s1 : state) (c : completion) :
  (∀ v, is_Some (JSON_parse rt (JSON_stringify rt v))) →
  truthy_flag (forceReinstall (options this)) = false →
  Vivaldi.install_profile rt this extensionId crxFilePath manifest profile s = (Ok c, s1) →
  Fs.existsSync (fs s1) (path_join rt profile "Preferences") = false
  ∨ ∃ content preferences versionFormatted,
      Fs.files (fs s1) !! path_join rt profile "Preferences" = Some content
      ∧ JSON_parse rt content = Some preferences
      ∧ Chromium.version_directory manifest = Ok versionFormatted
      ∧ Fs.existsSync (fs s1)
          (path_join rt (path_join rt profile "Extensions") extensionId) = true
      ∧ Fs.existsSync (fs s1)
          (path_join rt (path_join rt (path_join rt profile "Extensions") extensionId)
             versionFormatted) = true.
Proof.
  intros Hjson Hforce. unfold Vivaldi.install_profile. cbv zeta. intros H.
  rewrite bind_run, existsSync_run in H. cbn beta iota in H.
  destruct (Fs.existsSync (fs s) (path_join rt profile "Preferences")) eqn:Epf; cbn [negb] in H.
  2: { injection H as <- <-. by left. }
  right.
  apply bind_Ok in H as (preferences & sp & Hp & H).
  apply read_json_Ok in Hp as (-> & content & Hfile & Hparse).
  rewrite bind_run, existsSync_run in H. cbn beta iota in H.
  apply bind_Ok in H as ([] & sa & Ha & H).
  apply ensure_directory_Ok in Ha as (Hdir & Hfiles & _).
  apply bind_Ok in H as (versionFormatted & sv & Hv & H). apply lift_Ok in Hv as [Hv ->].
  rewrite bind_run, log_step in H. cbn beta iota in H.
  rewrite bind_run, log_step in H. cbn beta iota in H.
  pose proof H as Hcheck.
  apply check_existing_installed in Hcheck as [Hvdir Hg];
    [|done|apply Vivaldi_unpack_and_patch_grows].
  cbn [fs] in Hg.
  assert (∃ content' preferences',
            Fs.files (fs s1) !! path_join rt profile "Preferences" = Some content'
            ∧ JSON_parse rt content' = Some preferences') as (content' & preferences' & ? & ?).
  { apply check_existing_cases in H; [|done]. cbn [fs] in H.
    destruct H as [(_ & _ & -> & _)|[_ H]].
    { exists content, preferences. by rewrite Hfiles. }
    apply bind_Ok in H as ([] & sm & Hm & H).
    unfold mkdirSync in Hm. rewrite update_fs_run in Hm. cbn [fs] in Hm.
    destruct (Fs.mkdirSync (fs sa) _) as [fsm|e] eqn:Em; [|discriminate].
    injection Hm as <-. apply mkdirSync_Ok in Em as [Em _].
    apply Vivaldi_unpack_and_patch_Ok in H
      as [[_ ->]|(_ & preferences' & before & _ & _ & Hw)]; cbn [fs] in *.
    - exists content, preferences. by rewrite Em, Hfiles.
    - apply writeFileSync_Ok in Hw as [-> _].
      destruct (Hjson preferences') as [v Hv'].
      exists (JSON_stringify rt preferences'), v. by rewrite lookup_insert_eq. }
  exists content', preferences', versionFormatted. split_and!; try done.
  by eapply grows_existsSync.
Qed.

End SecondRun.

(** C5. The body of the loop of Vivaldi or of Opera has run for a profile
    and ended normally, without [forceReinstall]. Run again for the same
    extension and an archive of the same version, on a disk where the
    Preferences file of the profile and what lies below the directory of the
    extension are as the first run left them, it ends normally and leaves
    the whole disk, hence the Preferences file, as it found it. [JSON.parse]
    is taken to accept what [JSON.stringify] prints. *)
Theorem second_run_skips_profile (rt : Runtime)
    (body : Installer → string → path → value → path → M completion)
    (this : Installer) (extensionId : string) (crxFilePath crxFilePath' : path)
    (manifest manifest' : value) (profile : path) (s s1 s1' : state) (c : completion) :
  body = Vivaldi.install_profile rt ∨ body = Opera.install_profile rt →
  (∀ v, is_Some (JSON_parse rt (JSON_stringify rt v))) →
  truthy_flag (forceReinstall (options this)) = false →
  Chromium.version_directory manifest' = Chromium.version_directory manifest →
  body this extensionId crxFilePath manifest profile s = (Ok c, s1) →
  (∀ q, q = path_join rt profile "Preferences"
        ∨ path_join rt (path_join rt profile "Extensions") extensionId `prefix_of` q →
        untouched q (fs s1) (fs s1')) →
  ∃ s2, body this extensionId crxFilePath' manifest' profile s1' = (Ok Next, s2)
        ∧ fs s2 = fs s1'
        ∧ Fs.files (fs s2) !! path_join rt profile "Preferences"
          = Fs.files (fs s1) !! path_join rt profile "Preferences".
Proof.
  intros Hbody Hjson Hforce Hsame Hfirst Hkept.
  pose proof (Hkept _ (or_introl eq_refl)) as Hpf.
  assert (Hext : ∀ q, path_join rt (path_join rt profile "Extensions") extensionId
                      `prefix_of` q →
                      Fs.existsSync (fs s1) q = true → Fs.existsSync (fs s1') q = true).
  { intros q Hq. rewrite (existsSync_untouched _ _ _ (Hkept q (or_intror Hq))). done. }
  assert (∃ s2, body this extensionId crxFilePath' manifest' profile s1' = (Ok Next, s2)
                ∧ fs s2 = fs s1') as (s2 & H2 & Hfs).
  { destruct Hbody as [-> | ->].
    - apply Vivaldi_after_install in Hfirst
        as [Hnone|(content & preferences & versionFormatted & Hfile & Hparse & Hv & Hd & Hvd)];
        [| |done..].
      + exists s1'. split; [|done]. apply Vivaldi_without_preferences.
        by rewrite (existsSync_untouched _ _ _ Hpf).
      + eapply Vivaldi_skip; [done|by rewrite Hsame| |exact Hparse| |].
        * destruct Hpf as [-> _]. exact Hfile.
        * by apply Hext.
        * apply Hext; [|done]. by eapply version_directory_prefix.
    - apply Opera_after_install in Hfirst as (versionFormatted & Hv & Hd & Hvd); [|done].
      eapply Opera_skip; [done|by rewrite Hsame| |].
      + by apply Hext.
      + apply Hext; [|done]. by eapply version_directory_prefix. }
  exists s2. split_and!; [done..|]. rewrite Hfs. by destruct Hpf.
Qed.

Lemma second_run_skips_profile_witness :
  Fs.files (fs Scenario.installed_once) !! Scenario.vivaldi_preferences
  = Some Scenario.patched_json
  ∧ ∃ s2, Vivaldi.install_profile Scenario.webstore (Scenario.installer Scenario.webstore)
            "abc" Scenario.crx_file Scenario.version_1
            (Scenario.vivaldi_dir ++ ["Default"])%list Scenario.installed_once
          = (Ok Next, s2)
          ∧ fs s2 = fs Scenario.installed_once
          ∧ Fs.files (fs s2) !! path_join Scenario.webstore
                                   (Scenario.vivaldi_dir ++ ["Default"])%list "Preferences"
            = Fs.files (fs Scenario.installed_once)
                !! path_join Scenario.webstore (Scenario.vivaldi_dir ++ ["Default"])%list
                     "Preferences".
Proof.
  split; [vm_compute; reflexivity|].
  unfold Scenario.installed_once.
  apply (second_run_skips_profile Scenario.webstore (Vivaldi.install_profile Scenario.webstore)
           (Scenario.installer Scenario.webstore) "abc" Scenario.crx_file Scenario.crx_file
           Scenario.version_1 Scenario.version_1 (Scenario.vivaldi_dir ++ ["Default"])%list
           Scenario.downloaded _ _ Next).
  - left. reflexivity.
  - intros v. vm_compute. eexists. reflexivity.
  - reflexivity.
  - reflexivity.
  - apply (run_pair (Vivaldi.install_profile Scenario.webstore
                       (Scenario.installer Scenario.webstore) "abc" Scenario.crx_file
                       Scenario.version_1 (Scenario.vivaldi_dir ++ ["Default"])%list)
             Scenario.downloaded (Ok Next)).
    vm_compute. reflexivity.
  - intros q _. split; reflexivity.
Defined.

(** ** A profile without Preferences file *)

Section WithoutPreferences.

Context (rt : Runtime).

(** The last segment of a string that ends with a text without separator
    ends with that text. *)
Lemma split_by_suffix (is_sep : ascii → bool) (s t current : string) :
  forallb (λ c, negb (is_sep c)) (list_ascii_of_string t) = true →
  ∃ init final, Str.split_by is_sep (s +:+ t) current = init ++ [final +:+ t]
                ∧ ∀ seg, seg ∈ init → seg ∈ Str.split_by is_sep s current.
Proof.
  intros Ht. revert current. induction s as [|c s IH]; intros current.
  - exists [], current. change ("" +:+ t) with t. split; [|by intros ? ?%elem_of_nil].
    by rewrite split_by_no_separator.
  - rewrite append_String. cbn [Str.split_by]. destruct (is_sep c).
    + destruct (IH "") as (init & final & -> & Hinit). exists (current :: init), final.
      split; [done|]. intros seg [->|H]%elem_of_cons; [by left|right; auto].
    + destruct (IH (current +:+ String c "")) as (init & final & -> & Hinit). eauto.
Qed.

Lemma length_append (s t : string) :
  String.length (s +:+ t) = String.length s + String.length t.
Proof. induction s as [|c s IH]; [done|]. rewrite append_String. cbn. by rewrite IH. Qed.

Lemma suffix_0_segment (final : string) :
  (String.eqb (final +:+ "_0") "" || String.eqb (final +:+ "_0") ".") = false
  ∧ String.eqb (final +:+ "_0") ".." = false.
Proof.
  assert (Hlen : ∀ x, final +:+ "_0" = x → String.length x = String.length final + 2).
  { intros x <-. by rewrite length_append. }
  rewrite orb_false_iff, !String.eqb_neq. split_and!; intros H.
  - apply Hlen in H. cbn in H. lia.
  - apply Hlen in H. cbn in H. lia.
  - pose proof (Hlen _ H) as Hl. destruct final; [discriminate|]. cbn in Hl. lia.
Qed.

(** The version directory lies strictly below the directory it is joined
    to. *)
Lemma version_directory_below (dir : path) (v : string) :
  ∃ q seg, path_join rt dir (Version.versionFormatted v) = q ++ [seg] ∧ dir `prefix_of` q.
Proof.
  unfold path_join, Version.versionFormatted.
  destruct (split_by_suffix (is_separator rt) (Version.replace_dots v) "_0" "")
    as (init & final & -> & Hinit).
  { unfold is_separator. cbn. by destruct (platform rt). }
  rewrite foldl_app. cbn [foldl]. unfold push_segment at 1.
  destruct (suffix_0_segment final) as [-> ->].
  eexists _, _. split; [done|].
  apply foldl_push_segment_prefix. intros seg Hseg ->.
  apply Hinit in Hseg.
  destruct (split_by_chars _ _ _ _ "."%char Hseg) as [H|H].
  - by left.
  - by apply elem_of_nil in H.
  - apply list_elem_of_In in H.
    pose proof (versionFormatted_no_dot v) as Hv. unfold no_dot, Version.versionFormatted in Hv.
    assert (Hchars : ∀ x y, list_ascii_of_string (x +:+ y)
                       = (list_ascii_of_string x ++ list_ascii_of_string y)%list).
    { intros x y. induction x as [|b x IHx]; [done|].
      rewrite append_String. cbn. by rewrite IHx. }
    rewrite Hchars, forallb_app in Hv. apply andb_true_iff in Hv as [Hv _].
    rewrite forallb_forall in Hv. by apply Hv in H.
Qed.

Lemma version_directory_not_above (dir : path) (v : string) :
  ¬ path_join rt dir (Version.versionFormatted v) `prefix_of` dir.
Proof.
  destruct (version_directory_below dir v) as (q & seg & -> & Hq). intros H.
  apply prefix_length in H. apply prefix_length in Hq. rewrite length_app in H. cbn in H. lia.
Qed.

Lemma ancestors_prefix (p q : path) : p `prefix_of` q → Fs.ancestors p ⊆ Fs.ancestors q.
Proof.
  intros [r ->] x. unfold Fs.ancestors. rewrite !list_elem_of_fmap.
  intros (k & -> & Hk%elem_of_seq). exists k. split.
  - rewrite take_app_le; [done|lia].
  - apply elem_of_seq. rewrite length_app. lia.
Qed.

Lemma existsb_false {A} (f : A → bool) (l : list A) :
  existsb f l = false ↔ ∀ x, x ∈ l → f x = false.
Proof.
  induction l as [|a l IH]; cbn.
  - split; [by intros _ ? ?%elem_of_nil|done].
  - rewrite orb_false_iff, IH. split.
    + intros [Ha Hl] x [->|Hx]%elem_of_cons; auto.
    + intros H. split; [apply H; by left|]. intros x Hx. apply H. by right.
Qed.

(** Making a directory above [q] first does not change what making [q]
    gives. *)
Lemma mkdirSync_twice (a b : Fs.t) (p q : path) :
  p ≠ [] → p `prefix_of` q → Fs.mkdirSync a q = Ok b →
  ∃ c, Fs.mkdirSync a p = Ok c ∧ Fs.mkdirSync c q = Ok b.
Proof.
  intros Hp Hpq. unfold Fs.mkdirSync.
  destruct (bool_decide (q = [])) eqn:Eq; [discriminate|].
  destruct (existsb (Fs.is_file a) (Fs.ancestors q)) eqn:Ef; [discriminate|].
  intros [= <-]. rewrite (bool_decide_eq_false_2 _ Hp).
  pose proof (ancestors_prefix _ _ Hpq) as Hsub.
  assert (existsb (Fs.is_file a) (Fs.ancestors p) = false) as ->.
  { rewrite existsb_false in Ef |- *. intros x Hx. apply Ef, Hsub, Hx. }
  eexists. split; [done|]. cbn [Fs.files Fs.dirs].
  change (existsb (Fs.is_file {| Fs.files := Fs.files a; Fs.dirs := _ |}) (Fs.ancestors q))
    with (existsb (Fs.is_file a) (Fs.ancestors q)).
  rewrite Ef. do 2 f_equal.
  apply leibniz_equiv. intros x. rewrite !elem_of_union, !elem_of_list_to_set.
  split; [intros [[?|?%Hsub]|?]; auto|intros [?|?]; auto].
Qed.

Lemma write_entries_files (dest : path) (entries : list (path * bytes)) (a b : Fs.t) :
  Fs.write_entries dest a entries = Ok b →
  ∀ entry, entry ∈ entries → Fs.is_file b (dest ++ entry.1) = true.
Proof.
  revert a. induction entries as [|x entries IH]; intros a H entry Hentry.
  - by apply elem_of_nil in Hentry.
  - cbn [Fs.write_entries] in H.
    destruct (Fs.write_entry dest a x) as [c|e] eqn:E; [|discriminate]. cbn in H.
    apply elem_of_cons in Hentry as [->|Hentry]; [|by eapply IH].
    apply write_entry_Ok in E as (d & _ & [Hw _]%writeFileSync_Ok).
    apply (write_entries_grows _ _ _ _ H). unfold Fs.is_file. rewrite Hw, lookup_insert_eq.
    by apply bool_decide_eq_true.
Qed.

Lemma Preferences_apart (profile : path) (extensionId : string) (q : path) :
  plain_name extensionId = true →
  path_join rt (path_join rt profile "Extensions") extensionId `prefix_of` q →
  ¬ q `prefix_of` path_join rt profile "Preferences"
  ∧ ¬ path_join rt profile "Preferences" `prefix_of` q.
Proof.
  intros Hid. rewrite path_join_Preferences, path_join_Extensions, (path_join_plain _ _ _ Hid).
  rewrite <- app_assoc. cbn [app]. intros [r ->]. rewrite <- !app_assoc. cbn [app]. split.
  - intros H%prefix_app_inv. by apply prefix_cons_inv_1 in H.
  - intros H%prefix_app_inv. by apply prefix_cons_inv_1 in H.
Qed.

Lemma mkdirSync_run (p : path) (s : state) (b : Fs.t) :
  Fs.mkdirSync (fs s) p = Ok b → mkdirSync p s = (Ok tt, mkState b (trace s) (clock s)).
Proof. intros H. unfold mkdirSync. by rewrite update_fs_run, H. Qed.

Lemma writeFileSync_run (p : path) (content : bytes) (s : state) (b : Fs.t) :
  Fs.writeFileSync (fs s) p content = Ok b →
  writeFileSync p content s = (Ok tt, mkState b (trace s) (clock s)).
Proof. intros H. unfold writeFileSync. by rewrite update_fs_run, H. Qed.

Lemma expand_archive_run (zip dest : path) (content : bytes) (entries : list (path * bytes))
    (s : state) (b : Fs.t) :
  Fs.files (fs s) !! zip = Some content →
  unzip rt content = Some entries →
  Fs.write_entries dest (fs s) entries = Ok b →
  expand_archive rt zip dest s = (Ok tt, mkState b (trace s) (clock s)).
Proof.
  intros Hzip Hunzip Hwrite. unfold expand_archive.
  rewrite try_catch_run, bind_run, readFileSync_run. unfold Fs.readFileSync.
  rewrite Hzip. cbn beta iota. rewrite Hunzip. by rewrite update_fs_run, Hwrite.
Qed.

(** The first statements of the body, to the test of the version
    directory: the directory of the extension is Scenario.made when it is not there,
    which leaves the version directory as it was. *)
Lemma ensure_directory_run (dir below : path) (s : state) (b : Fs.t) :
  dir ≠ [] → dir `prefix_of` below → ¬ below `prefix_of` dir →
  Fs.mkdirSync (fs s) below = Ok b →
  ∃ s0, when (negb (Fs.existsSync (fs s) dir)) (mkdirSync dir) s = (Ok tt, s0)
        ∧ Fs.mkdirSync (fs s0) below = Ok b
        ∧ Fs.existsSync (fs s0) below = Fs.existsSync (fs s) below
        ∧ Fs.files (fs s0) = Fs.files (fs s).
Proof.
  intros Hdir Hprefix Hnot Hb. destruct (Fs.existsSync (fs s) dir); cbn [negb when].
  - exists s. done.
  - destruct (mkdirSync_twice _ _ _ _ Hdir Hprefix Hb) as (c & Hc & Hcb).
    eexists. split; [by apply mkdirSync_run|]. cbn [fs]. split_and!; [done| |].
    + apply existsSync_untouched. by eapply mkdirSync_untouched.
    + by apply mkdirSync_Ok in Hc as [-> _].
Qed.

End WithoutPreferences.

(** C9. A profile has no Preferences file and the extension is not installed
    in it; the archive has been downloaded, the version directory can be
    Scenario.made, and the archive tool unpacks the archive into it. Then the body of
    the loop of Vivaldi ends at once and leaves the state as it is, whereas
    the body of the loop of Opera makes the version directory, writes every
    entry of the archive below it and ends normally: the profile holds the
    files of the extension and still no Preferences file. *)
Theorem opera_unpacks_without_preferences (rt : Runtime) (this : Installer)
    (extensionId : string) (crxFilePath : path) (manifest : value) (profile : path)
    (versionFormatted : string) (crxData : bytes) (entries : list (path * bytes))
    (s : state) (fs1 fs2 fs3 : Fs.t) :
  plain_name extensionId = true →
  Chromium.version_directory manifest = Ok versionFormatted →
  Fs.existsSync (fs s) (path_join rt profile "Preferences") = false →
  Fs.existsSync (fs s)
    (path_join rt (path_join rt (path_join rt profile "Extensions") extensionId)
       versionFormatted) = false →
  Fs.mkdirSync (fs s)
    (path_join rt (path_join rt (path_join rt profile "Extensions") extensionId)
       versionFormatted) = Ok fs1 →
  truthy_path (downloadDir (options this)) = true →
  Fs.files (fs s) !! crxFilePath = Some crxData →
  Fs.writeFileSync fs1
    (path_join rt (default [] (downloadDir (options this))) "extension.zip")
    (Archive.slice crxData (Archive.zipStartOffset crxData)) = Ok fs2 →
  unzip rt (Archive.slice crxData (Archive.zipStartOffset crxData)) = Some entries →
  Fs.write_entries
    (path_join rt (path_join rt (path_join rt profile "Extensions") extensionId)
       versionFormatted) fs2 entries = Ok fs3 →
  Vivaldi.install_profile rt this extensionId crxFilePath manifest profile s = (Ok Next, s)
  ∧ ∃ s1, Opera.install_profile rt this extensionId crxFilePath manifest profile s
          = (Ok Next, s1)
          ∧ fs s1 = fs3
          ∧ Fs.is_dir (fs s1)
              (path_join rt (path_join rt (path_join rt profile "Extensions") extensionId)
                 versionFormatted) = true
          ∧ (∀ entry, entry ∈ entries →
               Fs.is_file (fs s1)
                 (path_join rt (path_join rt (path_join rt profile "Extensions") extensionId)
                    versionFormatted ++ entry.1) = true)
          ∧ Fs.existsSync (fs s1) (path_join rt profile "Preferences") = false.
Proof.
  intros Hid Hversion Hnone Hnew Hmkdir Hdl Hcrx Hzip Hunzip Hentries.
  split; [by apply Vivaldi_without_preferences|].
  pose proof (version_directory_Ok _ _ Hversion) as (v & Hv).
  pose proof (version_directory_prefix rt _ _
                (path_join rt (path_join rt profile "Extensions") extensionId) Hversion)
    as Hbelow.
  destruct (Preferences_apart rt profile extensionId _ Hid Hbelow) as [Hapart1 Hapart2].
  assert (Hext : path_join rt (path_join rt profile "Extensions") extensionId ≠ []).
  { rewrite (path_join_plain _ _ _ Hid). by intros [_ ?]%app_eq_nil. }
  destruct (ensure_directory_run _ _ _ _ Hext Hbelow
              ltac:(rewrite Hv; apply version_directory_not_above) Hmkdir)
    as (s0 & Hs0 & Hmkdir0 & Hnew0 & Hfiles0).
  rewrite Hnew in Hnew0.
  assert (Hgrows : grows (fs s) fs3).
  { etrans; [by eapply mkdirSync_grows|].
    etrans; [by eapply writeFileSync_grows|by eapply write_entries_grows]. }
  assert (Hkept : untouched (path_join rt profile "Preferences") (fs s) fs3).
  { etrans; [eapply mkdirSync_untouched; [|exact Hmkdir]; done|].
    etrans; [eapply writeFileSync_untouched; [|exact Hzip]|].
    - rewrite path_join_extension_zip, path_join_Preferences.
      intros H%(f_equal last). rewrite !last_snoc in H. discriminate.
    - by eapply write_entries_untouched. }
  assert (Hlook : Fs.files fs2
                    !! path_join rt (default [] (downloadDir (options this))) "extension.zip"
                  = Some (Archive.slice crxData (Archive.zipStartOffset crxData))).
  { pose proof (writeFileSync_Ok _ _ _ _ Hzip) as [-> _]. apply lookup_insert_eq. }
  assert (∃ s1, Opera.install_profile rt this extensionId crxFilePath manifest profile s
                = (Ok Next, s1) ∧ fs s1 = fs3) as (s1 & Hrun & Hfs).
  { eexists. split.
    - unfold Opera.install_profile. cbv zeta. mstep. rewrite (bind_step _ _ _ _ _ Hs0).
      mstep. rewrite Hversion. mstep. mstep.
      unfold Chromium.check_existing. mstep. cbn [fs]. rewrite Hnew0. cbn [andb].
      erewrite (bind_step _ _ _ _ _ (mkdirSync_run _ (mkState _ _ _) _ Hmkdir0)).
      unfold Opera.unpack_and_patch, Chromium.extract_or_write_manifest.
      rewrite bind_run, try_catch_run. unfold Chromium.extract_archive.
      mstep. cbn [fs]. unfold Fs.readFileSync.
      apply mkdirSync_Ok in Hmkdir as [Hfiles1 _]. rewrite Hfiles1, Hcrx. cbv zeta.
      rewrite Hdl. cbn [negb].
      erewrite (bind_step _ _ _ _ _ (writeFileSync_run _ _ (mkState _ _ _) _ Hzip)).
      erewrite (bind_step _ _ _ _ _
                  (expand_archive_run rt _ _ _ _ (mkState _ _ _) _ Hlook Hunzip Hentries)).
      mstep. rewrite mret_run. mstep. cbn [fs].
      rewrite (existsSync_untouched _ _ _ Hkept), Hnone. cbn [negb].
      rewrite mret_run. reflexivity.
    - reflexivity. }
  exists s1. rewrite Hfs. split_and!; [done..| | |].
  - destruct (Hgrows (path_join rt (path_join rt (path_join rt profile "Extensions")
                                      extensionId) versionFormatted)) as [Hd _].
    apply write_entries_grows in Hentries. apply writeFileSync_grows in Hzip.
    destruct (Hentries (path_join rt (path_join rt (path_join rt profile "Extensions")
                                        extensionId) versionFormatted)) as [H3 _].
    destruct (Hzip (path_join rt (path_join rt (path_join rt profile "Extensions")
                                    extensionId) versionFormatted)) as [H2 _].
    apply H3, H2. by eapply mkdirSync_is_dir.
  - by eapply write_entries_files.
  - by rewrite (existsSync_untouched _ _ _ Hkept).
Qed.

Lemma made_Ok (r : result Fs.t) :
  match r with Ok _ => true | Throw _ => false end = true → r = Ok (Scenario.made r).
Proof. by destruct r. Qed.

Lemma opera_unpacks_without_preferences_witness :
  Vivaldi.install_profile Scenario.webstore (Scenario.installer Scenario.webstore) "abc"
    Scenario.crx_file Scenario.version_1 (Scenario.opera_dir ++ ["Default"]) Scenario.bare_profile
  = (Ok Next, Scenario.bare_profile)
  ∧ ∃ s1, Opera.install_profile Scenario.webstore (Scenario.installer Scenario.webstore)
            "abc" Scenario.crx_file Scenario.version_1 (Scenario.opera_dir ++ ["Default"])
            Scenario.bare_profile
          = (Ok Next, s1)
          ∧ fs s1 = Scenario.unpacked
          ∧ Fs.is_dir (fs s1)
              (path_join Scenario.webstore
                 (path_join Scenario.webstore
                    (path_join Scenario.webstore (Scenario.opera_dir ++ ["Default"])
                       "Extensions") "abc") "1_0_0_0") = true
          ∧ (∀ entry, entry ∈ Scenario.archive_entries →
               Fs.is_file (fs s1)
                 (path_join Scenario.webstore
                    (path_join Scenario.webstore
                       (path_join Scenario.webstore (Scenario.opera_dir ++ ["Default"])
                          "Extensions") "abc") "1_0_0_0" ++ entry.1) = true)
          ∧ Fs.existsSync (fs s1)
              (path_join Scenario.webstore (Scenario.opera_dir ++ ["Default"]) "Preferences")
            = false.
Proof.
  apply (opera_unpacks_without_preferences Scenario.webstore
           (Scenario.installer Scenario.webstore) "abc" Scenario.crx_file Scenario.version_1
           (Scenario.opera_dir ++ ["Default"]) "1_0_0_0" Scenario.crx Scenario.archive_entries
           Scenario.bare_profile Scenario.with_version_dir Scenario.with_zip Scenario.unpacked).
  - reflexivity.
  - reflexivity.
  - vm_compute; reflexivity.
  - vm_compute; reflexivity.
  - apply (made_Ok (Fs.mkdirSync (fs Scenario.bare_profile) Scenario.opera_version_dir)).
    vm_compute. reflexivity.
  - reflexivity.
  - vm_compute; reflexivity.
  - apply (made_Ok (Fs.writeFileSync Scenario.with_version_dir Scenario.extension_zip
                      Scenario.payload)).
    vm_compute. reflexivity.
  - reflexivity.
  - apply (made_Ok (Fs.write_entries Scenario.opera_version_dir Scenario.with_zip
                      Scenario.archive_entries)).
    vm_compute. reflexivity.
Defined.

(** ** The frame of the patch of the Preferences *)

Lemma set_truthy (v v' : value) (k : string) (x : value) :
  set v k x = Ok v' → truthy v = true ∧ truthy v' = true.
Proof.
  destruct v; try discriminate; cbn.
  - destruct (String.eqb k "length"); [discriminate|].
    destruct (array_index k); by intros [= <-].
  - by intros [= <-].
Qed.

Lemma store_other (props : gmap string value) (k k' : string) (x : value) :
  k' ≠ k → store props k x !! k' = props !! k'.
Proof.
  intros H. unfold store. destruct (_ && _); [done|]. by rewrite lookup_insert_ne.
Qed.

Lemma store_same (props : gmap string value) (k : string) (x : value) :
  k ≠ "__proto__" → store props k x !! k = Some x.
Proof.
  intros H. unfold store. apply String.eqb_neq in H. rewrite H. cbn [andb].
  by rewrite lookup_insert_eq.
Qed.

Lemma get_set_other (v v' : value) (k k' : string) (x : value) :
  set v k x = Ok v' → array_index k = None → k' ≠ k → get v' k' = get v k'.
Proof.
  destruct v; try discriminate; cbn.
  - destruct (String.eqb k "length"); [discriminate|].
    intros H Hk. rewrite Hk in H. injection H as <-. intros Hne. cbn.
    destruct (String.eqb k' "length"); [done|].
    destruct (array_index k'); [done|]. by rewrite store_other.
  - intros [= <-] _ Hne. cbn. by rewrite store_other.
Qed.

Lemma get_set_same (v v' : value) (k : string) (x : value) :
  set v k x = Ok v' → array_index k = None → k ≠ "__proto__" → get v' k = Ok x.
Proof.
  destruct v; try discriminate; cbn.
  - destruct (String.eqb k "length") eqn:E; [discriminate|].
    intros H Hk. rewrite Hk in H. injection H as <-. intros Hne. cbn.
    rewrite E, Hk. by rewrite store_same.
  - intros [= <-] _ Hne. cbn. by rewrite store_same.
Qed.

Lemma get_truthy (v : value) (k : string) : truthy v = true → ∃ x, get v k = Ok x.
Proof.
  destruct v; cbn; try discriminate; intros _; repeat case_match; eauto.
Qed.

Lemma get_defined (v : value) (k k' : string) (x : value) :
  get v k = Ok x → ∃ y, get v k' = Ok y.
Proof.
  destruct v; cbn; try discriminate; intros _; repeat case_match; eauto.
Qed.

Lemma update_Ok (v v' : value) (k : string) (f : value → result value) :
  Chromium.update v k f = Ok v' →
  ∃ c c', get v k = Ok c ∧ f c = Ok c' ∧ set v k c' = Ok v'.
Proof.
  unfold Chromium.update. destruct (get v k) as [c|]; [|discriminate]. cbn.
  destruct (f c) as [c'|] eqn:E; [|discriminate]. cbn. eauto.
Qed.

Lemma ensure_Ok (v v' : value) (k : string) (init : value) :
  Chromium.ensure v k init = Ok v' →
  ∃ c, get v k = Ok c
       ∧ ((truthy c = true ∧ v' = v) ∨ (truthy c = false ∧ set v k init = Ok v')).
Proof.
  unfold Chromium.ensure. destruct (get v k) as [c|]; [|discriminate]. cbn.
  destruct (truthy c) eqn:E; [intros [= <-]|]; eauto.
Qed.

Section Frame.

Context (extensionId : string).

#[global] Instance kept_entries_refl : Reflexive (kept_entries extensionId).
Proof. by intros m Hm. Qed.

#[global] Instance kept_entries_trans : Transitive (kept_entries extensionId).
Proof.
  intros a b c Hab Hbc Ha. destruct (Hab Ha) as [Hb Hk]. destruct (Hbc Hb) as [Hc Hk'].
  split; [done|]. intros k Hne. by rewrite Hk', Hk.
Qed.

#[global] Instance kept_list_refl : Reflexive kept_list.
Proof. intros l Hl. by left. Qed.

#[global] Instance kept_list_trans : Transitive kept_list.
Proof.
  intros a b c Hab Hbc Ha.
  destruct (Hab Ha) as [->|(elems & elems' & props & -> & -> & Hp)]; [by apply Hbc|].
  destruct (Hbc eq_refl) as [->|(elems1 & elems2 & props1 & [= <- <-] & -> & Hp')].
  - right. eauto 6.
  - right. exists elems, elems2, props. split_and!; [done..|]. by etrans.
Qed.

#[global] Instance kept_extensions_refl : Reflexive (kept_extensions extensionId).
Proof.
  intros e He. split_and!; [done..| |].
  - intros k m m' _ H1 H2. rewrite H1 in H2. by injection H2 as <-.
  - intros k l l' _ H1 H2. rewrite H1 in H2. by injection H2 as <-.
Qed.

#[global] Instance kept_extensions_trans : Transitive (kept_extensions extensionId).
Proof.
  intros a b c Hab Hbc Ha.
  destruct (Hab Ha) as (Hb & Hk & Hs & Hl). destruct (Hbc Hb) as (Hc & Hk' & Hs' & Hl').
  split_and!; [done| | |].
  - intros k H1 H2. by rewrite Hk', Hk.
  - intros k m m' Hin H1 H2. destruct (get_truthy b k Hb) as [x Hx].
    etrans; [by eapply Hs|by eapply Hs'].
  - intros k l l' Hin H1 H2. destruct (get_truthy b k Hb) as [x Hx].
    etrans; [by eapply Hl|by eapply Hl'].
Qed.

#[global] Instance frame_refl : Reflexive (frame extensionId).
Proof.
  intros p. split; [done|]. intros e e' H1 H2. rewrite H1 in H2. by injection H2 as <-.
Qed.

#[global] Instance frame_trans : Transitive (frame extensionId).
Proof.
  intros a b c [Hk He] [Hk' He']. split.
  - intros k Hne. by rewrite Hk', Hk.
  - intros e e' H1 H2. destruct (get_defined _ _ "" _ H1) as [y Hy].
    rewrite <- Hk in Hy by done. destruct (get_defined _ _ "extensions" _ Hy) as [x Hx].
    etrans; [by eapply He|by eapply He'].
Qed.

(** [if (!preferences.extensions) preferences.extensions = {}] *)
Lemma ensure_extensions_frame (preferences preferences' init : value) :
  Chromium.ensure preferences "extensions" init = Ok preferences' →
  frame extensionId preferences preferences'.
Proof.
  intros (c & Hc & [[_ ->]|[Hfalse Hset]])%ensure_Ok; [done|]. split.
  - intros k Hne. by eapply get_set_other.
  - intros e e' H1 _ He. congruence.
Qed.

(** [preferences.extensions.… = …] *)
Lemma update_extensions_frame (preferences preferences' : value)
    (g : value → result value) :
  Chromium.update preferences "extensions" g = Ok preferences' →
  (∀ e e', get preferences "extensions" = Ok e → g e = Ok e' →
           kept_extensions extensionId e e') →
  frame extensionId preferences preferences'.
Proof.
  intros (c & c' & Hc & Hg & Hset)%update_Ok Hkept. split.
  - intros k Hne. by eapply get_set_other.
  - intros e e' H1 H2. rewrite (get_set_same _ _ _ _ Hset) in H2 by done.
    injection H2 as <-. rewrite Hc in H1. injection H1 as <-. by apply Hkept.
Qed.

(** An assignment to one of the managed keys of [preferences.extensions] *)
Lemma set_managed_kept (e e' : value) (key : string) (x : value) :
  key ∈ sections ∨ key ∈ lists →
  set e key x = Ok e' →
  (∀ c, get e key = Ok c → (key ∈ sections → kept_entries extensionId c x)
                           ∧ (key ∈ lists → kept_list c x)) →
  kept_extensions extensionId e e'.
Proof.
  intros Hkey Hset Hx He.
  assert (array_index key = None ∧ key ≠ "__proto__") as [Hindex Hproto].
  { destruct Hkey as [H|H]; repeat (apply elem_of_cons in H as [->|H]; [done|]);
      by apply elem_of_nil in H. }
  split_and!.
  - by apply set_truthy in Hset as [_ ?].
  - intros k H1 H2. eapply get_set_other; [done..|]. intros ->. by destruct Hkey.
  - intros k m m' Hin H1 H2. destruct (decide (k = key)) as [->|Hne].
    + rewrite (get_set_same _ _ _ _ Hset) in H2 by done. injection H2 as <-.
      by apply Hx.
    + rewrite (get_set_other _ _ _ _ _ Hset) in H2 by done.
      rewrite H1 in H2. by injection H2 as <-.
  - intros k l l' Hin H1 H2. destruct (decide (k = key)) as [->|Hne].
    + rewrite (get_set_same _ _ _ _ Hset) in H2 by done. injection H2 as <-.
      by apply Hx.
    + rewrite (get_set_other _ _ _ _ _ Hset) in H2 by done.
      rewrite H1 in H2. by injection H2 as <-.
Qed.

(** [if (!e.key) e.key = init] *)
Lemma ensure_managed_kept (e e' : value) (key : string) (init : value) :
  key ∈ sections ∨ key ∈ lists →
  Chromium.ensure e key init = Ok e' →
  kept_extensions extensionId e e'.
Proof.
  intros Hkey (c & Hc & [[_ ->]|[Hfalse Hset]])%ensure_Ok; [done|].
  eapply set_managed_kept; [done..|].
  intros c' Hc'. rewrite Hc in Hc'. injection Hc' as <-.
  split; intros _ Htrue; congruence.
Qed.

(** [e.key[extensionId] = record] *)
Lemma assign_entry_kept (e e' : value) (key : string) (record : value) :
  array_index extensionId = None →
  key ∈ sections →
  Chromium.update e key (λ m, set m extensionId record) = Ok e' →
  kept_extensions extensionId e e'.
Proof.
  intros Hid Hkey (c & c' & Hc & Hc' & Hset)%update_Ok.
  eapply set_managed_kept; [by left|done|].
  intros c0 Hc0. rewrite Hc in Hc0. injection Hc0 as <-. split.
  - intros _ _. split; [by apply set_truthy in Hc' as [_ ?]|].
    intros k Hne. by eapply get_set_other.
  - intros H. exfalso. clear -Hkey H.
    repeat (apply elem_of_cons in Hkey as [->|Hkey];
            [repeat (apply elem_of_cons in H as [H|H]; [discriminate|]);
             by apply elem_of_nil in H|]).
    by apply elem_of_nil in Hkey.
Qed.

(** [if (!e.key.includes(extensionId)) e.key.push(extensionId)] *)
Lemma add_once_kept (e e' : value) (key : string) :
  key ∈ lists →
  Chromium.update e key (Chromium.add_once extensionId) = Ok e' →
  kept_extensions extensionId e e'.
Proof.
  intros Hkey (c & c' & Hc & Hc' & Hset)%update_Ok.
  eapply set_managed_kept; [by right|done|].
  intros c0 Hc0. rewrite Hc in Hc0. injection Hc0 as <-. split.
  - intros H. exfalso. clear -Hkey H.
    repeat (apply elem_of_cons in Hkey as [->|Hkey];
            [repeat (apply elem_of_cons in H as [H|H]; [discriminate|]);
             by apply elem_of_nil in H|]).
    by apply elem_of_nil in Hkey.
  - intros _ _. unfold Chromium.add_once in Hc'.
    destruct (JS.includes c extensionId) as [[]|]; cbn in Hc'; try discriminate.
    + injection Hc' as <-. by left.
    + destruct c; try discriminate. cbn in Hc'.
      destruct (bool_decide _); [|discriminate]. injection Hc' as <-.
      right. eexists _, _, _. split_and!; [done..|]. by apply prefix_app_r.
Qed.

End Frame.

Section PatchFrame.

Context (extensionId : string) (Hid : array_index extensionId = None).

Ltac result_inv H :=
  repeat match type of H with
    | (?r ≫= _) = Ok _ =>
        let p := fresh "p" in let E := fresh "Hstep" in
        destruct r as [p|] eqn:E; [cbn [mbind result_bind] in H|discriminate H]
    end.

Lemma ensure_external_frame (preferences preferences' : value) :
  Chromium.ensure_external preferences = Ok preferences' →
  frame extensionId preferences preferences'.
Proof.
  intros H. eapply update_extensions_frame; [exact H|]. intros e e' _ He.
  eapply ensure_managed_kept; [|exact He]. left. set_solver.
Qed.

Lemma register_frame (this : Installer) (install_time : Z) (preferences preferences' : value) :
  Chromium.register this extensionId install_time preferences = Ok preferences' →
  frame extensionId preferences preferences'.
Proof.
  unfold Chromium.register. intros H. result_inv H.
  assert (frame extensionId preferences p1) as Hframe.
  { etrans; [|etrans].
    - eapply update_extensions_frame; [exact Hstep|]. intros e e' _ He.
      eapply assign_entry_kept; [done| |exact He]. set_solver.
    - eapply update_extensions_frame; [exact Hstep0|]. intros e e' _ He.
      eapply ensure_managed_kept; [|exact He]. right. set_solver.
    - eapply update_extensions_frame; [exact Hstep1|]. intros e e' _ He.
      eapply add_once_kept; [|exact He]. set_solver. }
  destruct (truthy_flag (pinExtension (options this))).
  - result_inv H. etrans; [exact Hframe|]. etrans.
    + eapply update_extensions_frame; [exact Hstep2|]. intros e e' _ He.
      eapply ensure_managed_kept; [|exact He]. right. set_solver.
    + eapply update_extensions_frame; [exact H|]. intros e e' _ He.
      eapply add_once_kept; [|exact He]. set_solver.
  - by injection H as <-.
Qed.

Lemma Vivaldi_prepare_frame (preferences preferences' : value) :
  Vivaldi.prepare_settings preferences = Ok preferences' →
  frame extensionId preferences preferences'.
Proof.
  unfold Vivaldi.prepare_settings. intros H. result_inv H. etrans.
  - by eapply ensure_extensions_frame.
  - eapply update_extensions_frame; [exact H|]. intros e e' _ He.
    eapply ensure_managed_kept; [|exact He]. left. set_solver.
Qed.

Lemma Vivaldi_assign_frame (record preferences preferences' : value) :
  Vivaldi.assign_record extensionId record preferences = Ok preferences' →
  frame extensionId preferences preferences'.
Proof.
  unfold Vivaldi.assign_record. intros H.
  eapply update_extensions_frame; [exact H|]. intros e e' _ He.
  eapply assign_entry_kept; [done| |exact He]. set_solver.
Qed.

(** Opera: when [opsettings] is not truthy the first statement replaces
    [settings] by an empty object, and the assignment that follows it
    throws; when the assignment succeeds, the first statement has assigned
    nothing. *)
Lemma Opera_prepare_assign_frame (record preferences p1 preferences' : value) :
  Opera.prepare_settings preferences = Ok p1 →
  Opera.assign_record extensionId record p1 = Ok preferences' →
  frame extensionId preferences preferences'.
Proof.
  unfold Opera.prepare_settings, Opera.assign_record. intros H Hassign. result_inv H.
  etrans; [by eapply ensure_extensions_frame|]. etrans.
  - eapply update_extensions_frame; [exact H|]. intros e e' He Hg.
    cbn beta in Hg.
    destruct (get e "opsettings") as [opsettings|] eqn:Eo; cbn in Hg; [|discriminate].
    destruct (truthy opsettings) eqn:Et; [by injection Hg as <-|]. exfalso.
    apply update_Ok in H as (c & c' & Hc & Hc' & Hset).
    rewrite He in Hc. injection Hc as <-. rewrite Eo in Hc'. cbn in Hc'. rewrite Et in Hc'.
    rewrite Hg in Hc'. injection Hc' as <-.
    apply update_Ok in Hassign as (a & a' & Ha & Ha' & _).
    rewrite (get_set_same _ _ _ _ Hset) in Ha by done. injection Ha as <-.
    apply update_Ok in Ha' as (o & o' & Ho & Ho' & _).
    rewrite (get_set_other _ _ _ _ _ Hg) in Ho by done.
    rewrite Eo in Ho. injection Ho as <-.
    apply set_truthy in Ho' as [Ho' _]. congruence.
  - eapply update_extensions_frame; [exact Hassign|]. intros e e' _ He.
    eapply assign_entry_kept; [done| |exact He]. set_solver.
Qed.

Lemma Vivaldi_patches_frame (this : Installer) (preferences preferences' : value) :
  patches Vivaldi.prepare_settings Vivaldi.assign_record this extensionId
    preferences preferences' →
  frame extensionId preferences preferences'.
Proof.
  intros (record & install_time & p1 & p2 & p3 & H1 & H2 & H3 & H4).
  etrans; [by eapply Vivaldi_prepare_frame|]. etrans; [by eapply Vivaldi_assign_frame|].
  etrans; [by eapply ensure_external_frame|by eapply register_frame].
Qed.

Lemma Opera_patches_frame (this : Installer) (preferences preferences' : value) :
  patches Opera.prepare_settings Opera.assign_record this extensionId
    preferences preferences' →
  frame extensionId preferences preferences'.
Proof.
  intros (record & install_time & p1 & p2 & p3 & H1 & H2 & H3 & H4).
  etrans; [by eapply Opera_prepare_assign_frame|].
  etrans; [by eapply ensure_external_frame|by eapply register_frame].
Qed.

End PatchFrame.

(** ** The Preferences file along the body of the loop *)

Section PreferencesFile.

Context (rt : Runtime).

Lemma check_existing_Ok (logger : string) (this : Installer) (dir : path)
    (rest : M completion) (s s1 : state) (c : completion) :
  Chromium.check_existing logger this dir rest s = (Ok c, s1) →
  (c = Next ∧ fs s1 = fs s)
  ∨ ∃ s', (fs s' = fs s ∨ fs s' = Fs.rmSync (fs s) dir) ∧ rest s' = (Ok c, s1).
Proof.
  unfold Chromium.check_existing. rewrite bind_run, existsSync_run. cbn beta iota.
  destruct (Fs.existsSync (fs s) dir); destruct (truthy_flag (forceReinstall (options this)));
    cbn [andb negb].
  - rewrite bind_run, log_step. cbn beta iota. rewrite bind_run. unfold rmSync.
    rewrite update_fs_run. cbn beta iota. intros H. right. eexists. split; [|exact H].
    by right.
  - rewrite bind_run, log_step. cbn beta iota. intros [= <- <-]. by left.
  - intros H. right. eauto.
  - intros H. right. eauto.
Qed.

Lemma extract_or_write_manifest_untouched (logger : string) (this : Installer)
    (crxFilePath extensionVersionDir : path) (manifest : value) (profile : path) :
  ¬ extensionVersionDir `prefix_of` path_join rt profile "Preferences" →
  ¬ path_join rt profile "Preferences" `prefix_of` extensionVersionDir →
  respects (untouched (path_join rt profile "Preferences"))
    (Chromium.extract_or_write_manifest rt logger this crxFilePath extensionVersionDir
       manifest).
Proof.
  intros H1 H2.
  unfold Chromium.extract_or_write_manifest, Chromium.extract_archive, expand_archive.
  repeat respects_step.
  - apply respects_update_fs; [apply _|]. intros ? ?. apply writeFileSync_untouched.
    rewrite path_join_extension_zip, path_join_Preferences.
    intros H%(f_equal last). rewrite !last_snoc in H. discriminate.
  - apply respects_update_fs; [apply _|]. intros ? ?. by apply write_entries_untouched.
  - apply respects_update_fs; [apply _|]. intros ? ?. apply writeFileSync_untouched.
    rewrite path_join_manifest_json, path_join_Preferences.
    intros H%(f_equal last). rewrite !last_snoc in H. discriminate.
Qed.

Lemma Opera_unpack_and_patch_Ok (this : Installer) (extensionId : string)
    (crxFilePath : path) (manifest : value) (profile preferenceFile : path)
    (versionFormatted : string) (extensionVersionDir : path)
    (s s1 : state) (c : completion) :
  Opera.unpack_and_patch rt this extensionId crxFilePath manifest profile preferenceFile
    versionFormatted extensionVersionDir s = (Ok c, s1) →
  ∃ extracted se,
    Chromium.extract_or_write_manifest rt Opera.logger this crxFilePath extensionVersionDir
      manifest s = (Ok extracted, se)
    ∧ (fs s1 = fs se
       ∨ ∃ content preferences preferences',
           c = Next
           ∧ Fs.files (fs se) !! preferenceFile = Some content
           ∧ JSON_parse rt content = Some preferences
           ∧ patches Opera.prepare_settings Opera.assign_record this extensionId
               preferences preferences'
           ∧ Fs.writeFileSync (fs se) preferenceFile (JSON_stringify rt preferences')
             = Ok (fs s1)).
Proof.
  unfold Opera.unpack_and_patch. intros H.
  apply bind_Ok in H as (extracted & se & He & H). exists extracted, se. split; [done|].
  destruct extracted; [|left; by injection H as _ <-].
  rewrite bind_run, existsSync_run in H. cbn beta iota in H.
  destruct (Fs.existsSync (fs se) preferenceFile); cbn [negb] in H;
    [|left; by injection H as _ <-].
  right. rewrite bind_run, log_step in H. cbn beta iota in H.
  apply bind_Ok in H as (preferences & sp & Hp & H).
  apply read_json_Ok in Hp as (-> & content & Hfile & Hparse). cbn [fs] in Hfile.
  apply bind_Ok in H as (p1 & s2 & H1 & H). apply lift_Ok in H1 as [H1 ->].
  apply bind_Ok in H as (record & s3 & H3 & H).
  apply build_settings_record_Ok in H3. cbn [fs] in H3.
  apply bind_Ok in H as (p2 & s4 & H2 & H). apply lift_Ok in H2 as [H2 ->].
  apply bind_Ok in H as (p4 & s5 & H5 & H).
  apply ensure_and_register_Ok in H5 as (Hfs & t & p3 & Hp3 & Hp4).
  apply write_and_relaunch_Ok in H as [-> H]. rewrite Hfs, H3 in H.
  exists content, preferences, p4. split_and!; [done..| |done].
  by exists record, t, p1, p2, p3.
Qed.

(** The statements of the body from the test of the directory of the
    extension to the making of the version directory leave the Preferences
    file as it is; [rest] stands for what follows them. *)
Lemma before_unpacking (logger : string) (this : Installer) (extensionId : string)
    (manifest : value) (profile : path) (rest : string → path → M completion)
    (s s1 : state) (c : completion) :
  plain_name extensionId = true →
  (has_extensionsDir ← existsSync (path_join rt (path_join rt profile "Extensions")
                                     extensionId);
   when (negb has_extensionsDir)
     (mkdirSync (path_join rt (path_join rt profile "Extensions") extensionId));;
   versionFormatted ← lift (Chromium.version_directory manifest);
   log logger "debug" "Dossier de version formaté";;
   log logger "debug" "Chemin complet du dossier de version";;
   Chromium.check_existing logger this
     (path_join rt (path_join rt (path_join rt profile "Extensions") extensionId)
        versionFormatted)
     (mkdirSync (path_join rt (path_join rt (path_join rt profile "Extensions") extensionId)
                   versionFormatted);;
      rest versionFormatted
        (path_join rt (path_join rt (path_join rt profile "Extensions") extensionId)
           versionFormatted))) s = (Ok c, s1) →
  untouched (path_join rt profile "Preferences") (fs s) (fs s1)
  ∨ ∃ versionFormatted sm,
      Chromium.version_directory manifest = Ok versionFormatted
      ∧ untouched (path_join rt profile "Preferences") (fs s) (fs sm)
      ∧ rest versionFormatted
          (path_join rt (path_join rt (path_join rt profile "Extensions") extensionId)
             versionFormatted) sm = (Ok c, s1).
Proof.
  intros Hid H.
  rewrite bind_run, existsSync_run in H. cbn beta iota in H.
  apply bind_Ok in H as ([] & sa & Ha & H).
  assert (Ua : untouched (path_join rt profile "Preferences") (fs s) (fs sa)).
  { revert Ha. apply respects_when; [apply _|].
    apply respects_update_fs; [apply _|]. intros a b. apply mkdirSync_untouched.
    by apply (Preferences_apart rt profile extensionId _ Hid). }
  apply bind_Ok in H as (versionFormatted & sv & Hv & H). apply lift_Ok in Hv as [Hv ->].
  rewrite bind_run, log_step in H. cbn beta iota in H.
  rewrite bind_run, log_step in H. cbn beta iota in H.
  pose proof (version_directory_prefix rt _ _
                (path_join rt (path_join rt profile "Extensions") extensionId) Hv)
    as Hbelow.
  destruct (Preferences_apart rt profile extensionId _ Hid Hbelow) as [Hapart1 Hapart2].
  apply check_existing_Ok in H as [[_ H]|(s' & Hs' & H)]; cbn [fs] in *.
  { left. by rewrite H. }
  apply bind_Ok in H as ([] & sm & Hm & H).
  right. exists versionFormatted, sm. split_and!; [done| |done].
  etrans; [exact Ua|]. etrans.
  - destruct Hs' as [Hs'|Hs']; rewrite <- Hs' in *; [reflexivity|].
    rewrite Hs'. by apply rmSync_untouched.
  - revert Hm. apply respects_update_fs; [apply _|]. intros a b.
    by apply mkdirSync_untouched.
Qed.

End PreferencesFile.

(** ** The Preferences file when the body of the loop throws *)

Section Failures.

Context (R : Fs.t → Fs.t → Prop) `{!Reflexive R} `{!Transitive R}.

Lemma respects_fails {A} (m : M A) : respects R m → fails_within R m.
Proof. intros H s e s' E. exact (H _ _ _ E). Qed.

Lemma fails_within_bind {A B} (m : M A) (f : A → M B) :
  respects R m → (∀ a, fails_within R (f a)) → fails_within R (m ≫= f).
Proof.
  intros Hm Hf s e s' [H|(a & s1 & H1 & H)]%bind_Throw.
  - exact (Hm _ _ _ H).
  - etrans; [exact (Hm _ _ _ H1)|exact (Hf _ _ _ _ H)].
Qed.

End Failures.

Section PreferencesOnFailure.

Context (rt : Runtime).

(** Once the Preferences file is written nothing throws any more: the
    failure of the browser to open is logged and dropped. *)
Lemma write_and_relaunch_fails (logger : string) (verbose : bool) (browser : Browser)
    (this : Installer) (profile preferenceFile : path) (preferences : value)
    (s s1 : state) (e : exn) :
  Chromium.write_and_relaunch rt logger verbose browser this profile preferenceFile
    preferences s = (Throw e, s1) →
  fs s1 = fs s.
Proof.
  unfold Chromium.write_and_relaunch. intros H.
  apply bind_Throw in H as [H|([] & sw & Hw & H)].
  - unfold writeFileSync in H. rewrite update_fs_run in H.
    destruct (Fs.writeFileSync (fs s) preferenceFile _); [discriminate|].
    by injection H as _ <-.
  - exfalso. rewrite bind_run, log_step in H. cbn beta iota in H.
    apply bind_Throw in H as [H|([] & sr & Hr & H)]; [|discriminate].
    destruct (config_supplied (options this)); [|discriminate].
    rewrite bind_run, log_step in H. cbn beta iota in H.
    unfold Chromium.openWithConfigUrl in H.
    match type of H with try_catch ?m ?h ?s0 = _ =>
      destruct (try_catch_total m h) with (s := s0) as (a & s' & E)
    end.
    + repeat survives_step.
    + intros e0 s0. rewrite log_step. eauto.
    + congruence.
Qed.

Lemma Vivaldi_unpack_and_patch_fails (this : Installer) (extensionId : string)
    (crxFilePath : path) (manifest : value) (profile : path)
    (preferences : value) (versionFormatted : string) (extensionVersionDir : path) :
  ¬ extensionVersionDir `prefix_of` path_join rt profile "Preferences" →
  ¬ path_join rt profile "Preferences" `prefix_of` extensionVersionDir →
  fails_within (untouched (path_join rt profile "Preferences"))
    (Vivaldi.unpack_and_patch rt this extensionId crxFilePath manifest profile
       (path_join rt profile "Preferences") preferences versionFormatted
       extensionVersionDir).
Proof.
  intros H1 H2. unfold Vivaldi.unpack_and_patch.
  apply fails_within_bind; [apply _|by apply extract_or_write_manifest_untouched|].
  intros []; [|by apply respects_fails, respects_ret; apply _].
  do 5 (apply fails_within_bind; [apply _|repeat respects_step|intros ?]).
  intros s e s' H%write_and_relaunch_fails. by rewrite H.
Qed.

Lemma Opera_unpack_and_patch_fails (this : Installer) (extensionId : string)
    (crxFilePath : path) (manifest : value) (profile : path)
    (versionFormatted : string) (extensionVersionDir : path) :
  ¬ extensionVersionDir `prefix_of` path_join rt profile "Preferences" →
  ¬ path_join rt profile "Preferences" `prefix_of` extensionVersionDir →
  fails_within (untouched (path_join rt profile "Preferences"))
    (Opera.unpack_and_patch rt this extensionId crxFilePath manifest profile
       (path_join rt profile "Preferences") versionFormatted extensionVersionDir).
Proof.
  intros H1 H2. unfold Opera.unpack_and_patch.
  apply fails_within_bind; [apply _|by apply extract_or_write_manifest_untouched|].
  intros []; [|by apply respects_fails, respects_ret; apply _].
  apply fails_within_bind; [apply _|repeat respects_step|intros has_preferences].
  destruct has_preferences; cbn [negb]; [|by apply respects_fails, respects_ret; apply _].
  unfold read_json.
  do 6 (apply fails_within_bind; [apply _|repeat respects_step|intros ?]).
  intros s e s' H%write_and_relaunch_fails. by rewrite H.
Qed.

(** When the body throws before the Preferences file is written, the
    file is as it was; [rest] stands for what follows the making of the
    version directory. *)
Lemma before_unpacking_fails (logger : string) (this : Installer) (extensionId : string)
    (manifest : value) (profile : path) (rest : string → path → M completion) :
  plain_name extensionId = true →
  (∀ versionFormatted extensionVersionDir,
     ¬ extensionVersionDir `prefix_of` path_join rt profile "Preferences" →
     ¬ path_join rt profile "Preferences" `prefix_of` extensionVersionDir →
     fails_within (untouched (path_join rt profile "Preferences"))
       (rest versionFormatted extensionVersionDir)) →
  fails_within (untouched (path_join rt profile "Preferences"))
    (has_extensionsDir ← existsSync (path_join rt (path_join rt profile "Extensions")
                                       extensionId);
     when (negb has_extensionsDir)
       (mkdirSync (path_join rt (path_join rt profile "Extensions") extensionId));;
     versionFormatted ← lift (Chromium.version_directory manifest);
     log logger "debug" "Dossier de version formaté";;
     log logger "debug" "Chemin complet du dossier de version";;
     Chromium.check_existing logger this
       (path_join rt (path_join rt (path_join rt profile "Extensions") extensionId)
          versionFormatted)
       (mkdirSync (path_join rt (path_join rt (path_join rt profile "Extensions")
                                   extensionId) versionFormatted);;
        rest versionFormatted
          (path_join rt (path_join rt (path_join rt profile "Extensions") extensionId)
             versionFormatted))).
Proof.
  intros Hid Hrest.
  apply fails_within_bind; [apply _|repeat respects_step|intros has_extensionsDir].
  apply fails_within_bind; [apply _| |intros []].
  { apply respects_when; [apply _|]. apply respects_update_fs; [apply _|]. intros a b.
    apply mkdirSync_untouched. by apply (Preferences_apart rt profile extensionId _ Hid). }
  intros s e s'. rewrite bind_run, lift_run.
  destruct (Chromium.version_directory manifest) as [versionFormatted|err] eqn:Hv.
  2: { intros [= _ <-]. reflexivity. }
  cbn beta iota.
  pose proof (version_directory_prefix rt _ _
                (path_join rt (path_join rt profile "Extensions") extensionId) Hv)
    as Hbelow.
  destruct (Preferences_apart rt profile extensionId _ Hid Hbelow) as [Hapart1 Hapart2].
  revert s e s'.
  do 2 (apply fails_within_bind; [apply _|repeat respects_step|intros ?]).
  unfold Chromium.check_existing.
  apply fails_within_bind; [apply _|repeat respects_step|intros installed].
  assert (Hmake : fails_within (untouched (path_join rt profile "Preferences"))
            (mkdirSync (path_join rt (path_join rt (path_join rt profile "Extensions")
                                        extensionId) versionFormatted);;
             rest versionFormatted
               (path_join rt (path_join rt (path_join rt profile "Extensions") extensionId)
                  versionFormatted))).
  { apply fails_within_bind; [apply _| |intros ?; by apply Hrest].
    apply respects_update_fs; [apply _|]. intros ? ?. by apply mkdirSync_untouched. }
  destruct installed, (truthy_flag (forceReinstall (options this))); cbn [andb negb];
    try exact Hmake.
  - apply fails_within_bind; [apply _|repeat respects_step|intros ?].
    apply fails_within_bind; [apply _| |intros ?; exact Hmake].
    apply respects_update_fs; [apply _|]. intros ? ? [= <-]. by apply rmSync_untouched.
  - apply respects_fails. repeat respects_step.
Qed.

End PreferencesOnFailure.

(** C6. The Preferences file of a profile holds well-formed JSON, and the
    body of the loop of Vivaldi or of Opera runs for that profile. Whatever
    the outcome, the file is then as it was, or the body has ended normally
    and the file holds the text of an object that differs from the object
    read within the frame: every key but [extensions] holds what it held,
    and inside [extensions] so does every key the installer does not manage,
    every entry of [settings], [opsettings] and [external_extensions] that
    is not keyed by the identifier of the extension, and every element of
    the lists [known_enabled] and [pinned_extensions]. The identifier is one
    segment of a path and not the numeral of an array index. *)
Theorem preferences_patch_frame (rt : Runtime)
    (body : Installer → string → path → value → path → M completion)
    (this : Installer) (extensionId : string) (crxFilePath : path) (manifest : value)
    (profile : path) (s s1 : state) (r : result completion) (content : bytes)
    (preferences : value) :
  body = Vivaldi.install_profile rt ∨ body = Opera.install_profile rt →
  plain_name extensionId = true →
  array_index extensionId = None →
  Fs.files (fs s) !! path_join rt profile "Preferences" = Some content →
  JSON_parse rt content = Some preferences →
  body this extensionId crxFilePath manifest profile s = (r, s1) →
  Fs.files (fs s1) !! path_join rt profile "Preferences" = Some content
  ∨ ∃ preferences',
      r = Ok Next
      ∧ Fs.files (fs s1) !! path_join rt profile "Preferences"
        = Some (JSON_stringify rt preferences')
      ∧ frame extensionId preferences preferences'.
Proof.
  intros Hbody Hid Hindex Hfile Hparse H. destruct r as [c|e]; destruct Hbody as [-> | ->].
  - unfold Vivaldi.install_profile in H. cbv zeta in H.
    rewrite bind_run, existsSync_run in H. cbn beta iota in H.
    rewrite (existsSync_file _ _ _ Hfile) in H. cbn [negb] in H.
    rewrite (bind_step _ _ _ _ _ (read_json_run rt _ _ _ _ Hfile Hparse)) in H.
    apply (before_unpacking rt Vivaldi.logger this extensionId manifest profile
             (λ versionFormatted extensionVersionDir,
                Vivaldi.unpack_and_patch rt this extensionId crxFilePath manifest profile
                  (path_join rt profile "Preferences") preferences versionFormatted
                  extensionVersionDir) _ _ _ Hid) in H
      as [[U _]|(versionFormatted & sm & Hv & [U _] & H)].
    { left. by rewrite U. }
    apply Vivaldi_unpack_and_patch_Ok in H
      as [[_ ->]|(-> & preferences' & before & Hpatch & _ & [Hw _]%writeFileSync_Ok)].
    + left. by rewrite U.
    + right. exists preferences'. split_and!; [done|by rewrite Hw, lookup_insert_eq|].
      by eapply Vivaldi_patches_frame.
  - unfold Opera.install_profile in H. cbv zeta in H.
    apply (before_unpacking rt Opera.logger this extensionId manifest profile
             (λ versionFormatted extensionVersionDir,
                Opera.unpack_and_patch rt this extensionId crxFilePath manifest profile
                  (path_join rt profile "Preferences") versionFormatted
                  extensionVersionDir) _ _ _ Hid) in H
      as [[U _]|(versionFormatted & sm & Hv & [U _] & H)].
    { left. by rewrite U. }
    apply Opera_unpack_and_patch_Ok in H as (extracted & se & He & H).
    pose proof (version_directory_prefix rt _ _
                  (path_join rt (path_join rt profile "Extensions") extensionId) Hv)
      as Hbelow.
    destruct (Preferences_apart rt profile extensionId _ Hid Hbelow) as [Hapart1 Hapart2].
    apply (extract_or_write_manifest_untouched rt _ _ _ _ _ profile Hapart1 Hapart2)
      in He as [Ue _]. cbn [fs] in Ue.
    destruct H as [->|(content' & read & preferences' & -> & Hread & Hparse' & Hpatch
                       & [Hw _]%writeFileSync_Ok)].
    + left. by rewrite Ue, U.
    + right. rewrite Ue, U, Hfile in Hread. injection Hread as <-.
      rewrite Hparse in Hparse'. injection Hparse' as <-.
      exists preferences'. split_and!; [done|by rewrite Hw, lookup_insert_eq|].
      by eapply Opera_patches_frame.
  - left. unfold Vivaldi.install_profile in H. cbv zeta in H.
    rewrite bind_run, existsSync_run in H. cbn beta iota in H.
    rewrite (existsSync_file _ _ _ Hfile) in H. cbn [negb] in H.
    rewrite (bind_step _ _ _ _ _ (read_json_run rt _ _ _ _ Hfile Hparse)) in H.
    apply (before_unpacking_fails rt Vivaldi.logger this extensionId manifest profile
             (λ versionFormatted extensionVersionDir,
                Vivaldi.unpack_and_patch rt this extensionId crxFilePath manifest profile
                  (path_join rt profile "Preferences") preferences versionFormatted
                  extensionVersionDir) Hid) in H as [U _]; [by rewrite U|].
    intros versionFormatted extensionVersionDir. apply Vivaldi_unpack_and_patch_fails.
  - left. unfold Opera.install_profile in H. cbv zeta in H.
    apply (before_unpacking_fails rt Opera.logger this extensionId manifest profile
             (λ versionFormatted extensionVersionDir,
                Opera.unpack_and_patch rt this extensionId crxFilePath manifest profile
                  (path_join rt profile "Preferences") versionFormatted
                  extensionVersionDir) Hid) in H as [U _]; [by rewrite U|].
    intros versionFormatted extensionVersionDir. apply Opera_unpack_and_patch_fails.
Qed.

Lemma preferences_patch_frame_witness :
  Fs.files (fs Scenario.patched_once) !! Scenario.vivaldi_preferences
  = Some Scenario.patched_json
  ∧ (Fs.files (fs Scenario.patched_once)
       !! path_join Scenario.webstore (Scenario.vivaldi_dir ++ ["Default"])%list "Preferences"
     = Some Scenario.homepage_json
     ∨ ∃ preferences',
         Ok Next = Ok Next
         ∧ Fs.files (fs Scenario.patched_once)
             !! path_join Scenario.webstore (Scenario.vivaldi_dir ++ ["Default"])%list
                  "Preferences"
           = Some (JSON_stringify Scenario.webstore preferences')
         ∧ frame "abc" (obj [("homepage", VStr "about:blank")]) preferences').
Proof.
  split; [vm_compute; reflexivity|].
  unfold Scenario.patched_once.
  apply (preferences_patch_frame Scenario.webstore (Vivaldi.install_profile Scenario.webstore)
           (Scenario.installer Scenario.webstore) "abc" Scenario.crx_file Scenario.version_1
           (Scenario.vivaldi_dir ++ ["Default"])%list Scenario.configured _ (Ok Next)
           Scenario.homepage_json (obj [("homepage", VStr "about:blank")])).
  - left. reflexivity.
  - reflexivity.
  - reflexivity.
  - vm_compute. reflexivity.
  - vm_compute. reflexivity.
  - apply (run_pair (Vivaldi.install_profile Scenario.webstore
                       (Scenario.installer Scenario.webstore) "abc" Scenario.crx_file
                       Scenario.version_1 (Scenario.vivaldi_dir ++ ["Default"])%list)
             Scenario.configured (Ok Next)).
    vm_compute. reflexivity.
Defined.

(** * Further properties of the installers *)

(** ** More on the scan for the ZIP signature *)

Lemma scan_result (d : bytes) (n i k : nat) :
  Archive.scan d i n = k →
  k = 0 ∨ (i ≤ k < i + n ∧ Archive.occurs_at d k
           ∧ ∀ j, i ≤ j < k → ¬ Archive.occurs_at d j).
Proof.
  revert i. induction n as [|n IH]; intros i; [by left|].
  cbn [Archive.scan]. destruct (Archive.signature_at d i) eqn:E.
  - intros <-. right. split; [lia|]. split; [by apply signature_at_true|]. intros j Hj. lia.
  - intros [->|(Hr & Ho & Hf)]%IH; [by left|]. right. split; [lia|]. split; [done|].
    intros j Hj. destruct (decide (j = i)) as [->|Hne].
    + rewrite <- signature_at_true. by rewrite E.
    + apply Hf. lia.
Qed.

(** X1. Whatever the buffer, the offset the scan reports is 0 or the place
    of the first occurrence of the signature PK\x03\x04, which then lies
    before the last four bytes: the scan never reports a place that does
    not hold the signature. *)
Theorem zipStartOffset_sound (d : bytes) :
  Archive.zipStartOffset d = 0
  ∨ (Archive.first_occurrence d (Archive.zipStartOffset d)
     ∧ Archive.zipStartOffset d + 4 < length d).
Proof.
  destruct (scan_result d (Z.to_nat (Z.of_nat (length d) - 4)) 0
              (Archive.zipStartOffset d) eq_refl) as [H|(Hr & Ho & Hf)]; [by left|].
  right. split; [|lia].
  split; [done|]. intros j Hj. apply Hf. lia.
Qed.

(** X2. When the signature first occurs at offset [k], the scan reports [k]
    if at least one byte follows the four of the signature, and 0 if the
    signature ends the buffer: the bound [i < length - 4] of the loop stops
    one offset early. *)
Theorem zipStartOffset_exact (d : bytes) (k : nat) :
  Archive.first_occurrence d k →
  Archive.zipStartOffset d = if Nat.ltb (k + 4) (length d) then k else 0.
Proof.
  intros [Hk Hfirst]. destruct (Nat.ltb (k + 4) (length d)) eqn:E.
  - apply Nat.ltb_lt in E. by apply zipStartOffset_first.
  - apply Nat.ltb_ge in E. apply scan_none. intros j Hj. apply Hfirst.
    destruct Hk as (_ & _ & _ & H3). apply lookup_lt_Some in H3. lia.
Qed.

Lemma zipStartOffset_exact_witness :
  Archive.first_occurrence Scenario.crx 4
  ∧ Archive.zipStartOffset Scenario.crx = 4
  ∧ Archive.first_occurrence Scenario.signature_last 1
  ∧ Archive.zipStartOffset Scenario.signature_last = 0.
Proof.
  assert (H1 : Archive.first_occurrence Scenario.crx 4).
  { split; [by repeat split|]. intros j Hj (H & _).
    do 4 (destruct j as [|j]; [discriminate|]). lia. }
  assert (H2 : Archive.first_occurrence Scenario.signature_last 1).
  { split; [by repeat split|]. intros j Hj (H & _). destruct j as [|j]; [discriminate|lia]. }
  split; [exact H1|]. split; [exact (zipStartOffset_exact Scenario.crx 4 H1)|].
  split; [exact H2|]. exact (zipStartOffset_exact Scenario.signature_last 1 H2).
Defined.

(** ** extractManifestFromCrx *)

Section ManifestFacts.

Context (rt : Runtime).

Lemma rmSync_removes (a : Fs.t) (p : path) :
  p ≠ [] → Fs.existsSync (Fs.rmSync a p) p = false.
Proof.
  intros Hp. unfold Fs.rmSync. rewrite (bool_decide_eq_false_2 _ Hp).
  unfold Fs.existsSync, Fs.is_dir, Fs.is_file. cbn [Fs.files Fs.dirs].
  apply orb_false_iff. split; apply bool_decide_eq_false_2.
  - rewrite elem_of_filter. intros [H _]. by apply H.
  - intros [x Hx]. apply map_lookup_filter_Some in Hx as [_ H]. by apply H.
Qed.

Lemma prefix_snoc_cases (q p : path) (x : string) :
  q `prefix_of` p ++ [x] → q `prefix_of` p ∨ q = p ++ [x].
Proof.
  intros [r Hr]. destruct r as [|y r _] using rev_ind.
  - right. by rewrite app_nil_r in Hr.
  - left. rewrite app_assoc in Hr. apply app_inj_tail in Hr as [-> _]. by apply prefix_app_r.
Qed.

Lemma temp_paths_apart (q : path) (name : string) :
  plain_name name = true →
  ¬ path_join rt (tmpdir rt) "vaultysid-extension-temp" `prefix_of` q →
  ¬ q `prefix_of` path_join rt (tmpdir rt) "vaultysid-extension-temp" →
  ¬ path_join rt (path_join rt (tmpdir rt) "vaultysid-extension-temp") name `prefix_of` q
  ∧ ¬ q `prefix_of` path_join rt (path_join rt (tmpdir rt) "vaultysid-extension-temp") name.
Proof.
  intros Hname H1 H2. rewrite (path_join_plain _ _ _ Hname). split.
  - intros H. apply H1. etrans; [|exact H]. by apply prefix_app_r.
  - intros H. destruct (prefix_snoc_cases _ _ _ H) as [H'| ->]; [by apply H2|].
    apply H1. by apply prefix_app_r.
Qed.

Lemma extract_manifest_survives (crxFilePath : path) :
  survives (Extensions.extract_manifest rt crxFilePath).
Proof. unfold Extensions.extract_manifest, read_json. repeat survives_step. Qed.

(** X3. [extractManifestFromCrx] never throws: it answers the manifest that
    its [try] block has read, or, when anything in the block fails, the
    fallback manifest of version 1.0.0. *)
Theorem extractManifestFromCrx_never_throws (crxFilePath : path) (s : state) :
  ∃ manifest s',
    Extensions.extractManifestFromCrx rt crxFilePath s = (Ok manifest, s')
    ∧ ((Extensions.extract_manifest rt crxFilePath s).1 = Ok manifest
       ∨ (manifest = Extensions.fallback_manifest "VaultySid Chrome Extension"
          ∧ ConsoleError "Erreur lors de l'extraction du manifest" ∈ trace s')).
Proof.
  unfold Extensions.extractManifestFromCrx. rewrite try_catch_run.
  destruct (Extensions.extract_manifest rt crxFilePath s) as [[manifest|e] s1] eqn:E.
  - exists manifest, s1. split; [done|]. by left.
  - rewrite (extract_manifest_survives _ _ _ _ E). rewrite bind_run, emit_run. cbn beta iota. rewrite mret_run.
    eexists _, _. split; [done|]. right. split; [done|].
    cbn [trace]. apply elem_of_app. right. by left.
Qed.

(** X4. When the archive is missing, or when the scan answers 0 for it (no
    signature, a signature at offset 0 as in a plain ZIP file, or one in its
    last four bytes), [extractManifestFromCrx] answers the fallback manifest,
    prints the error and leaves the file system as it is. *)
Theorem extractManifestFromCrx_fallback (crxFilePath : path) (s : state) :
  Fs.files (fs s) !! crxFilePath = None
  ∨ (∃ crxData, Fs.files (fs s) !! crxFilePath = Some crxData
                ∧ Archive.zipStartOffset crxData = 0) →
  Extensions.extractManifestFromCrx rt crxFilePath s
  = (Ok (Extensions.fallback_manifest "VaultySid Chrome Extension"),
     mkState (fs s) (trace s ++ [ConsoleError "Erreur lors de l'extraction du manifest"])
       (clock s)).
Proof.
  intros H. unfold Extensions.extractManifestFromCrx, Extensions.extract_manifest.
  rewrite try_catch_run, bind_run, readFileSync_run. unfold Fs.readFileSync.
  destruct H as [->|(crxData & -> & Hzero)]; [done|].
  cbn beta iota zeta. rewrite Hzero. done.
Qed.

(** X5. Whatever its outcome, [extractManifestFromCrx] changes nothing
    outside its temporary directory: a file or directory that is neither
    below that directory nor above it is after the call as it was before. *)
Theorem extractManifestFromCrx_frame (crxFilePath q : path) :
  ¬ path_join rt (tmpdir rt) "vaultysid-extension-temp" `prefix_of` q →
  ¬ q `prefix_of` path_join rt (tmpdir rt) "vaultysid-extension-temp" →
  respects (untouched q) (Extensions.extractManifestFromCrx rt crxFilePath).
Proof.
  intros H1 H2.
  destruct (temp_paths_apart q "extension.zip" eq_refl H1 H2) as [Hz1 Hz2].
  destruct (temp_paths_apart q "extracted" eq_refl H1 H2) as [He1 He2].
  unfold Extensions.extractManifestFromCrx, Extensions.extract_manifest, expand_archive.
  cbv zeta.
  set (tempDir := path_join rt (tmpdir rt) "vaultysid-extension-temp") in *.
  set (tempZipPath := path_join rt tempDir "extension.zip") in *.
  set (extractDir := path_join rt tempDir "extracted") in *.
  clearbody tempDir tempZipPath extractDir.
  repeat first
    [ match goal with
      | |- respects _ (rmSync _) =>
          apply respects_update_fs; [apply _|]; intros ? ? [= <-]; by apply rmSync_untouched
      | |- respects _ (mkdirSync _) =>
          apply respects_update_fs; [apply _|]; intros ? ?; by apply mkdirSync_untouched
      | |- respects _ (writeFileSync _ _) =>
          apply respects_update_fs; [apply _|]; intros ? ?;
          apply writeFileSync_untouched; intros Heq; apply Hz1; by rewrite Heq
      | |- respects _ (update_fs _) =>
          apply respects_update_fs; [apply _|]; intros ? ?; by apply write_entries_untouched
      end
    | respects_step ].
Qed.

(** X6. When the [try] block of [extractManifestFromCrx] ends normally,
    nothing is left of the temporary directory. *)
Theorem extract_manifest_cleans (crxFilePath : path) (s s' : state) (manifest : value) :
  Extensions.extract_manifest rt crxFilePath s = (Ok manifest, s') →
  Fs.existsSync (fs s') (path_join rt (tmpdir rt) "vaultysid-extension-temp") = false.
Proof.
  unfold Extensions.extract_manifest. intros H. cbv zeta in H. run_inv H.
  rewrite mret_run in H. injection H as _ <-.
  unfold rmSync in Hstep11. rewrite update_fs_run in Hstep11.
  injection Hstep11 as _ <-. cbn [fs].
  apply rmSync_removes. rewrite path_join_plain by done.
  by intros [_ ?]%app_eq_nil.
Qed.

End ManifestFacts.

Lemma extractManifestFromCrx_fallback_witness :
  Archive.zipStartOffset Scenario.signature_last = 0
  ∧ Extensions.extractManifestFromCrx Scenario.webstore Scenario.crx_file
      (Scenario.start [(Scenario.crx_file, Scenario.signature_last)])
    = (Ok (Extensions.fallback_manifest "VaultySid Chrome Extension"),
       mkState (fs (Scenario.start [(Scenario.crx_file, Scenario.signature_last)]))
         (trace (Scenario.start [(Scenario.crx_file, Scenario.signature_last)])
          ++ [ConsoleError "Erreur lors de l'extraction du manifest"])
         (clock (Scenario.start [(Scenario.crx_file, Scenario.signature_last)]))).
Proof.
  split; [reflexivity|].
  apply (extractManifestFromCrx_fallback Scenario.webstore Scenario.crx_file
           (Scenario.start [(Scenario.crx_file, Scenario.signature_last)])).
  right. exists Scenario.signature_last. split; [vm_compute; reflexivity|reflexivity].
Defined.

Lemma extractManifestFromCrx_frame_witness :
  respects (untouched Scenario.vivaldi_preferences)
    (Extensions.extractManifestFromCrx Scenario.webstore Scenario.crx_file).
Proof.
  apply (extractManifestFromCrx_frame Scenario.webstore Scenario.crx_file
           Scenario.vivaldi_preferences).
  - vm_compute. intros [r Hr]. discriminate Hr.
  - vm_compute. intros [r Hr]. discriminate Hr.
Defined.

Lemma extract_manifest_cleans_witness :
  (Extensions.extract_manifest Scenario.webstore Scenario.crx_file Scenario.downloaded).1
  = Ok Scenario.version_1
  ∧ Fs.existsSync
      (fs (Extensions.extract_manifest Scenario.webstore Scenario.crx_file
             Scenario.downloaded).2)
      (path_join Scenario.webstore (tmpdir Scenario.webstore) "vaultysid-extension-temp")
    = false.
Proof.
  split; [vm_compute; reflexivity|].
  apply (extract_manifest_cleans Scenario.webstore Scenario.crx_file Scenario.downloaded
           (Extensions.extract_manifest Scenario.webstore Scenario.crx_file
              Scenario.downloaded).2 Scenario.version_1).
  apply (run_pair (Extensions.extract_manifest Scenario.webstore Scenario.crx_file)
           Scenario.downloaded (Ok Scenario.version_1)).
  vm_compute. reflexivity.
Defined.

(** ** The download of the archive *)

Section DownloadFacts.

Context (rt : Runtime) (logger : string).

Lemma parent_is_dir_snoc (a : Fs.t) (dir : path) (name : string) :
  Fs.is_dir a dir = true → Fs.parent_is_dir a (dir ++ [name]) = true.
Proof.
  intros H. unfold Fs.parent_is_dir, Fs.dirname. rewrite removelast_last, H.
  destruct (dir ++ [name]) eqn:E; [by destruct dir|]. apply orb_true_r.
Qed.

(** The statements of [downloadExtension] up to [https.get]: the download
    directory is there, so the stream creates the archive, empty. *)
Lemma createWriteStream_run (dir : path) (name : string) (s : state) :
  plain_name name = true →
  Fs.is_dir (fs s) dir = true →
  Fs.is_dir (fs s) (path_join rt dir name) = false →
  Chromium.createWriteStream (path_join rt dir name) s
  = (Ok tt, mkState (Fs.mk (<[path_join rt dir name:=[]]> (Fs.files (fs s))) (Fs.dirs (fs s)))
              (trace s) (clock s)).
Proof.
  intros Hname Hdir Hcrx. unfold Chromium.createWriteStream.
  unfold Fs.writeFileSync. rewrite Hcrx.
  rewrite (path_join_plain _ _ _ Hname). by rewrite (parent_is_dir_snoc _ _ _ Hdir).
Qed.

Ltac download_start Hdl Hne Hname Hdir Hcrx :=
  unfold Chromium.downloadExtension; rewrite Hdl; cbn [truthy_path];
  change (default [] (Some ?d)) with d;
  rewrite (bool_decide_eq_false_2 _ Hne); cbn [negb];
  do 3 (mstep; cbn [fs trace clock]); mstep; unfold Fs.existsSync; cbn [fs trace clock];
  rewrite Hdir; cbn [orb negb when];
  rewrite bind_run, mret_run; cbn beta iota;
  rewrite bind_run, createWriteStream_run by (cbn [fs]; done);
  cbn beta iota; cbn [fs trace clock].

Ltac download_end :=
  repeat first
    [ rewrite bind_run | rewrite log_step | rewrite mret_run | rewrite throw_run
    | progress cbn beta iota delta [when]
    | progress cbn [fs trace clock]
    | progress (unfold Chromium.pipe, Chromium.unlink; rewrite update_fs_run) ].

(** X7. With the download directory in place, [downloadExtension] of
    Vivaldi and of Opera resolves with the path [<downloadDir>/<id>.crx]
    when the store answers 200, at once or after one redirect (301 or
    302); the file then holds the body of that answer, and nothing else
    on the disk has changed. *)
Theorem downloadExtension_stores_body (verbose : bool) (this : Installer)
    (extensionId : string) (dir : path) (body : bytes) (s : state) :
  downloadDir (options this) = Some dir → dir ≠ [] →
  plain_name (extensionId +:+ ".crx") = true →
  Fs.is_dir (fs s) dir = true →
  Fs.is_dir (fs s) (path_join rt dir (extensionId +:+ ".crx")) = false →
  (∃ location, https_get rt (Chromium.crxUrl extensionId) = Response 200 location body)
  ∨ (∃ status location ignored location',
       (status = 301 ∨ status = 302)%Z
       ∧ https_get rt (Chromium.crxUrl extensionId) = Response status location ignored
       ∧ https_get rt location = Response 200 location' body) →
  ∃ s', Chromium.downloadExtension rt logger verbose this extensionId s
        = (Ok (path_join rt dir (extensionId +:+ ".crx")), s')
        ∧ Fs.files (fs s') = <[path_join rt dir (extensionId +:+ ".crx"):=body]> (Fs.files (fs s))
        ∧ Fs.dirs (fs s') = Fs.dirs (fs s).
Proof.
  intros Hdl Hne Hname Hdir Hcrx Hget.
  download_start Hdl Hne Hname Hdir Hcrx.
  destruct Hget as [(location & ->)|(status & location & ignored & location' & Hst & -> & Hre)].
  - rewrite bool_decide_eq_false_2 by (intros [?|?]; discriminate).
    rewrite bool_decide_eq_true_2 by done.
    destruct verbose; download_end; eexists; (split; [reflexivity|]);
      cbn [fs Fs.files Fs.dirs]; by rewrite insert_insert_eq.
  - rewrite bool_decide_eq_true_2 by (destruct Hst; auto).
    destruct verbose; download_end; rewrite Hre;
      rewrite bool_decide_eq_false_2 by (intros H; by apply H);
      download_end; eexists; (split; [reflexivity|]);
      cbn [fs Fs.files Fs.dirs]; by rewrite insert_insert_eq.
Qed.

(** X8. When the store answers a status that is not 200, 301 or 302, or
    when the address it redirects to answers a status that is not 200 (a
    second redirect included), [downloadExtension] rejects with the
    error that names the status, and the archive it has created stays on
    the disk, empty. *)
Theorem downloadExtension_status_error (verbose : bool) (this : Installer)
    (extensionId : string) (dir : path) (statusCode : Z) (s : state) :
  downloadDir (options this) = Some dir → dir ≠ [] →
  plain_name (extensionId +:+ ".crx") = true →
  Fs.is_dir (fs s) dir = true →
  Fs.is_dir (fs s) (path_join rt dir (extensionId +:+ ".crx")) = false →
  (∃ location body,
     https_get rt (Chromium.crxUrl extensionId) = Response statusCode location body
     ∧ statusCode ≠ 200%Z ∧ statusCode ≠ 301%Z ∧ statusCode ≠ 302%Z)
  ∨ (∃ status location ignored location' body,
       (status = 301 ∨ status = 302)%Z
       ∧ https_get rt (Chromium.crxUrl extensionId) = Response status location ignored
       ∧ https_get rt location = Response statusCode location' body
       ∧ statusCode ≠ 200%Z) →
  ∃ s', Chromium.downloadExtension rt logger verbose this extensionId s
        = (Throw (Chromium.http_status_error statusCode), s')
        ∧ Fs.files (fs s') = <[path_join rt dir (extensionId +:+ ".crx"):=[]]> (Fs.files (fs s))
        ∧ Fs.dirs (fs s') = Fs.dirs (fs s).
Proof.
  intros Hdl Hne Hname Hdir Hcrx Hget.
  download_start Hdl Hne Hname Hdir Hcrx.
  destruct Hget as [(location & body & -> & H200 & H301 & H302)
                   |(status & location & ignored & location' & body & Hst & -> & Hre & H200)].
  - rewrite bool_decide_eq_false_2 by (intros [?|?]; done).
    rewrite bool_decide_eq_false_2 by done.
    destruct verbose; download_end; eexists; (split; [reflexivity|]); done.
  - rewrite bool_decide_eq_true_2 by (destruct Hst; auto).
    destruct verbose; download_end; rewrite Hre;
      rewrite bool_decide_eq_true_2 by done;
      download_end; eexists; (split; [reflexivity|]); done.
Qed.

(** X9. When the request itself fails, at the store or at the address it
    redirects to, [downloadExtension] rejects with that error and the
    archive is unlinked: no file is left at [<downloadDir>/<id>.crx], not
    even one that was there before the call. *)
Theorem downloadExtension_transport_error (verbose : bool) (this : Installer)
    (extensionId : string) (dir : path) (s : state) :
  downloadDir (options this) = Some dir → dir ≠ [] →
  plain_name (extensionId +:+ ".crx") = true →
  Fs.is_dir (fs s) dir = true →
  Fs.is_dir (fs s) (path_join rt dir (extensionId +:+ ".crx")) = false →
  https_get rt (Chromium.crxUrl extensionId) = RequestError
  ∨ (∃ status location ignored,
       (status = 301 ∨ status = 302)%Z
       ∧ https_get rt (Chromium.crxUrl extensionId) = Response status location ignored
       ∧ https_get rt location = RequestError) →
  ∃ s', Chromium.downloadExtension rt logger verbose this extensionId s
        = (Throw TransportError, s')
        ∧ Fs.files (fs s') = delete (path_join rt dir (extensionId +:+ ".crx")) (Fs.files (fs s))
        ∧ Fs.dirs (fs s') = Fs.dirs (fs s).
Proof.
  intros Hdl Hne Hname Hdir Hcrx Hget.
  download_start Hdl Hne Hname Hdir Hcrx.
  destruct Hget as [->|(status & location & ignored & Hst & -> & Hre)].
  - destruct verbose; download_end; eexists; (split; [reflexivity|]);
      cbn [fs Fs.files Fs.dirs]; by rewrite delete_insert_eq.
  - rewrite bool_decide_eq_true_2 by (destruct Hst; auto).
    destruct verbose; download_end; rewrite Hre;
      download_end; eexists; (split; [reflexivity|]);
      cbn [fs Fs.files Fs.dirs]; by rewrite delete_insert_eq.
Qed.

End DownloadFacts.

Lemma downloadExtension_stores_body_witness :
  ∃ s', Chromium.downloadExtension Scenario.webstore "Vivaldi" false
          (Scenario.installer Scenario.webstore) "abc" Scenario.downloaded
        = (Ok (path_join Scenario.webstore Scenario.download_dir ("abc" +:+ ".crx")), s')
        ∧ Fs.files (fs s')
          = <[path_join Scenario.webstore Scenario.download_dir ("abc" +:+ ".crx"):=Scenario.crx]>
              (Fs.files (fs Scenario.downloaded))
        ∧ Fs.dirs (fs s') = Fs.dirs (fs Scenario.downloaded).
Proof.
  apply (downloadExtension_stores_body Scenario.webstore "Vivaldi" false
           (Scenario.installer Scenario.webstore) "abc" Scenario.download_dir Scenario.crx
           Scenario.downloaded).
  - vm_compute; reflexivity.
  - discriminate.
  - reflexivity.
  - vm_compute; reflexivity.
  - vm_compute; reflexivity.
  - left. exists "". reflexivity.
Defined.

Lemma downloadExtension_status_error_witness :
  ∃ s', Chromium.downloadExtension Scenario.not_found "Opera" true
          (Scenario.installer Scenario.not_found) "abc" Scenario.downloaded
        = (Throw (Chromium.http_status_error 404), s')
        ∧ Fs.files (fs s')
          = <[path_join Scenario.not_found Scenario.download_dir ("abc" +:+ ".crx"):=[]]>
              (Fs.files (fs Scenario.downloaded))
        ∧ Fs.dirs (fs s') = Fs.dirs (fs Scenario.downloaded).
Proof.
  apply (downloadExtension_status_error Scenario.not_found "Opera" true
           (Scenario.installer Scenario.not_found) "abc" Scenario.download_dir 404
           Scenario.downloaded).
  - vm_compute; reflexivity.
  - discriminate.
  - reflexivity.
  - vm_compute; reflexivity.
  - vm_compute; reflexivity.
  - left. exists "", []. split; [reflexivity|]. split; [discriminate|]. split; discriminate.
Defined.

Lemma downloadExtension_transport_error_witness :
  ∃ s', Chromium.downloadExtension (Scenario.world RequestError) "Vivaldi" false
          (Scenario.installer (Scenario.world RequestError)) "abc" Scenario.downloaded
        = (Throw TransportError, s')
        ∧ Fs.files (fs s')
          = delete (path_join (Scenario.world RequestError) Scenario.download_dir
                      ("abc" +:+ ".crx"))
              (Fs.files (fs Scenario.downloaded))
        ∧ Fs.dirs (fs s') = Fs.dirs (fs Scenario.downloaded).
Proof.
  apply (downloadExtension_transport_error (Scenario.world RequestError) "Vivaldi" false
           (Scenario.installer (Scenario.world RequestError)) "abc" Scenario.download_dir
           Scenario.downloaded).
  - vm_compute; reflexivity.
  - discriminate.
  - reflexivity.
  - vm_compute; reflexivity.
  - vm_compute; reflexivity.
  - left. reflexivity.
Defined.

(** ** The installation through the registry *)

Section RegistryFacts.

Context (rt : Runtime).

Lemma registry_writes_app (t u : list event) :
  registry_writes (t ++ u) = registry_writes t ++ registry_writes u.
Proof. apply omap_app. Qed.

(** X10. On Windows, with administrative privileges,
    [installExtensionViaRegistry] writes one value: under the hive of the
    machine, and, only when that command fails, under the hive of the
    user. When both commands fail it throws and has written nothing. It
    changes no file. *)
Theorem installExtensionViaRegistry_hives (this : Installer) (extensionId : string)
    (s : state) :
  platform rt = win32 → net_session rt = true →
  ∃ s', fs s' = fs s
        ∧ if reg_add rt "HKLM" then
            Vivaldi.installExtensionViaRegistry rt this extensionId s = (Ok tt, s')
            ∧ registry_writes (trace s') = registry_writes (trace s) ++ [("HKLM", extensionId)]
          else if reg_add rt "HKCU" then
            Vivaldi.installExtensionViaRegistry rt this extensionId s = (Ok tt, s')
            ∧ registry_writes (trace s') = registry_writes (trace s) ++ [("HKCU", extensionId)]
          else
            Vivaldi.installExtensionViaRegistry rt this extensionId s
            = (Throw (Error ("Échec de l'installation de l'extension via le registre: "
                             +:+ describe ChildProcessError)), s')
            ∧ registry_writes (trace s') = registry_writes (trace s).
Proof.
  intros Hwin Hadmin.
  destruct (reg_add rt "HKLM") eqn:Hm; [|destruct (reg_add rt "HKCU") eqn:Hu].
  all: unfold Vivaldi.installExtensionViaRegistry, Vivaldi.checkAdminPrivileges,
         Vivaldi.reg_add_command.
  all: rewrite Hwin, Hadmin; rewrite bool_decide_eq_true_2 by done; cbn [negb].
  all: repeat (first [ rewrite try_catch_run | rewrite bind_run | rewrite log_step
                     | rewrite emit_run | rewrite throw_run | rewrite Hm | rewrite Hu ];
               cbn beta iota; cbn [fs trace clock]).
  all: eexists (mkState _ _ _); (split; [|split; [reflexivity|]]); [reflexivity|].
  all: cbn [trace]; rewrite <- !app_assoc, registry_writes_app; cbn; by rewrite ?app_nil_r.
Qed.

Lemma installExtensionViaRegistry_respects (this : Installer) (extensionId : string) :
  respects eq (Vivaldi.installExtensionViaRegistry rt this extensionId).
Proof.
  unfold Vivaldi.installExtensionViaRegistry, Vivaldi.reg_add_command.
  repeat respects_step.
Qed.

(** X11. On Windows, [installExtension] of Vivaldi creates, changes and
    removes no file, whatever its outcome: nothing is downloaded and no
    profile is patched, the extension is left to the registry. *)
Theorem Vivaldi_win32_writes_no_file (this : Installer) (extensionId : string) :
  platform rt = win32 →
  respects eq (Vivaldi.installExtension rt this extensionId).
Proof.
  intros Hwin. unfold Vivaldi.installExtension.
  rewrite bool_decide_eq_true_2 by done.
  apply respects_try_catch; [apply _| |intros ?; repeat respects_step].
  apply respects_bind; [apply _|by apply close_respects; apply _|intros _].
  apply respects_bind; [apply _|by apply respects_log; apply _|intros _].
  apply respects_bind; [apply _|apply installExtensionViaRegistry_respects|intros _].
  apply respects_bind; [apply _| |intros _; apply respects_log; apply _].
  destruct (config_supplied (options this)); [|apply respects_ret; apply _].
  apply respects_bind; [apply _|by apply respects_log; apply _|intros _].
  apply openWithConfigUrl_respects; apply _.
Qed.

End RegistryFacts.

Lemma installExtensionViaRegistry_hives_witness :
  reg_add Scenario.windows "HKLM" = false
  ∧ ∃ s', fs s' = fs (Scenario.start [])
          ∧ Vivaldi.installExtensionViaRegistry Scenario.windows
              (Scenario.installer Scenario.windows) "abc" (Scenario.start []) = (Ok tt, s')
          ∧ registry_writes (trace s') = [("HKCU", "abc")].
Proof.
  split; [reflexivity|].
  exact (installExtensionViaRegistry_hives Scenario.windows
           (Scenario.installer Scenario.windows) "abc" (Scenario.start []) eq_refl eq_refl).
Defined.

Lemma Vivaldi_win32_writes_no_file_witness :
  platform Scenario.windows = win32
  ∧ respects eq (Vivaldi.installExtension Scenario.windows
                   (Scenario.installer Scenario.windows) "abc").
Proof.
  split; [reflexivity|].
  exact (Vivaldi_win32_writes_no_file Scenario.windows (Scenario.installer Scenario.windows)
           "abc" eq_refl).
Defined.

(** ** Finding the browser and its profiles *)

Section ProfileFacts.

Context (rt : Runtime).

(** X12. Under Linux, on a machine where [~/.config/vivaldi] does not
    exist, [installExtension] of Vivaldi throws the error of
    [getVivaldiPath] before anything is downloaded: the file system is
    as it was. *)
Theorem Vivaldi_missing_installation (this : Installer) (extensionId : string) (s : state) :
  platform rt = linux →
  Fs.existsSync (fs s) (userHomeDir this ++ [".config"; "vivaldi"]) = false →
  ∃ s', Vivaldi.installExtension rt this extensionId s
        = (Throw (Error "Vivaldi n'est pas installé ou le chemin est incorrect"), s')
        ∧ fs s' = fs s.
Proof.
  intros Hlinux Hmissing.
  assert (Hclose : ∃ s1, BrowserController.close vivaldi s = (Ok tt, s1) ∧ fs s1 = fs s).
  { eexists. split; [reflexivity|done]. }
  destruct Hclose as (s1 & Hclose & Hfs1).
  unfold Vivaldi.installExtension. rewrite try_catch_run.
  rewrite (bind_step _ _ _ _ _ Hclose).
  rewrite Hlinux. rewrite bool_decide_eq_false_2 by discriminate.
  unfold Vivaldi.getProfiles, Vivaldi.getVivaldiProfiles, Vivaldi.getVivaldiPath.
  rewrite Hlinux.
  repeat (first [ rewrite bind_run | rewrite existsSync_run | rewrite throw_run
                | rewrite log_step | rewrite Hfs1 | rewrite Hmissing ];
          cbn beta iota; cbn [negb fs trace clock]).
  eexists (mkState _ _ _). split; [reflexivity|]. cbn [fs]. done.
Qed.

Lemma first_existing_run (candidates : list path) (s : state) :
  ∃ s', fs s' = fs s
        ∧ Opera.first_existing candidates s
          = (match list_find (λ p, Fs.existsSync (fs s) p = true) candidates with
             | Some found => Ok found.2
             | None => Throw (Error
                 "Opera n'est pas installé ou le chemin est incorrect. Chemins vérifiés: ")
             end, s').
Proof.
  revert s. induction candidates as [|p candidates IH]; intros s.
  - exists s. by split.
  - cbn [Opera.first_existing list_find]. rewrite bind_run, log_step. cbn beta iota.
    rewrite bind_run, existsSync_run. cbn beta iota. cbn [fs].
    destruct (decide (Fs.existsSync (fs s) p = true)) as [Hp|Hp].
    + rewrite Hp. cbn [negb]. rewrite bind_run, log_step. cbn beta iota.
      rewrite mret_run. eexists. split; [|reflexivity]. done.
    + apply not_true_is_false in Hp. rewrite Hp. cbn [negb].
      destruct (IH (mkState (fs s)
                      (trace s ++ [Log Opera.logger
                                     (if bool_decide ("debug" ∈ ["debug"; "info"; "warn"; "error"])
                                      then "debug" else "info")
                                     "Vérification du chemin Opera"])
                      (clock s))) as (s' & Hfs & ->).
      cbn [fs] in *. exists s'. split; [done|].
      by destruct (list_find _ candidates) as [[]|].
Qed.

(** X13. [getOperaPath] answers the first of the candidate directories of
    the platform that exists, whatever exists after it, and throws when
    none of them does; it changes no file. *)
Theorem getOperaPath_first_existing (this : Installer) (s : state) :
  ∃ s', fs s' = fs s
        ∧ match list_find (λ p, Fs.existsSync (fs s) p = true) (Opera.possiblePaths rt this) with
          | Some found => Opera.getOperaPath rt this s = (Ok found.2, s')
          | None => ∃ message, Opera.getOperaPath rt this s = (Throw (Error message), s')
          end.
Proof.
  destruct (first_existing_run (Opera.possiblePaths rt this) s) as (s' & Hfs & H).
  exists s'. split; [done|]. unfold Opera.getOperaPath. rewrite H.
  destruct (list_find _ _); eauto.
Qed.

Lemma getOperaPath_Ok (this : Installer) (s s' : state) (operaPath : path) :
  Opera.getOperaPath rt this s = (Ok operaPath, s') →
  fs s' = fs s ∧ operaPath ∈ Opera.possiblePaths rt this
  ∧ Fs.existsSync (fs s) operaPath = true.
Proof.
  unfold Opera.getOperaPath.
  destruct (first_existing_run (Opera.possiblePaths rt this) s) as (s1 & Hfs & ->).
  destruct (list_find _ _) as [[i p]|] eqn:E; [|discriminate].
  intros [= <- <-]. split; [done|].
  apply list_find_Some in E as (Hin%list_elem_of_lookup_2 & ? & _). by split.
Qed.

Lemma numbered_profiles_sound (a : Fs.t) (operaPath : path) (entries : list string)
    (found : list path) :
  NoDup found → (∀ p, p ∈ found → Fs.existsSync a p = true) →
  NoDup (Opera.numbered_profiles rt a operaPath entries found).1
  ∧ (∀ p, p ∈ (Opera.numbered_profiles rt a operaPath entries found).1 →
          Fs.existsSync a p = true)
  ∧ found `prefix_of` (Opera.numbered_profiles rt a operaPath entries found).1.
Proof.
  revert found. induction entries as [|dir entries IH]; intros found Hnd Hex; [done|].
  cbn [Opera.numbered_profiles].
  destruct (_ || _); [|by apply IH].
  unfold Fs.isDirectory.
  destruct (Fs.is_dir a (path_join rt operaPath dir)) eqn:Hdir.
  - cbn [andb]. destruct (bool_decide (path_join rt operaPath dir ∈ found)) eqn:Hin;
      cbn [negb]; [by apply IH|].
    apply bool_decide_eq_false in Hin.
    destruct (IH (found ++ [path_join rt operaPath dir])) as (H1 & H2 & H3).
    + apply NoDup_app. split; [done|]. split; [|apply NoDup_singleton].
      intros p Hp ->%list_elem_of_singleton. done.
    + intros p [Hp| ->%list_elem_of_singleton]%elem_of_app; [by apply Hex|].
      unfold Fs.existsSync. by rewrite Hdir.
    + split; [done|]. split; [done|]. etrans; [|exact H3]. by apply prefix_app_r.
  - destruct (Fs.is_file a (path_join rt operaPath dir)); [by apply IH|done].
Qed.

(** X14. The profiles that [getOperaProfiles] answers are at least one,
    pairwise distinct and all on the disk, the profile Default of the
    Opera directory first when it exists; the search changes no file. *)
Theorem getOperaProfiles_sound (this : Installer) (s s' : state) (found : list path) :
  Opera.getOperaProfiles rt this s = (Ok found, s') →
  fs s' = fs s ∧ found ≠ [] ∧ NoDup found
  ∧ (∀ p, p ∈ found → Fs.existsSync (fs s) p = true)
  ∧ ∃ operaPath, operaPath ∈ Opera.possiblePaths rt this
                 ∧ Fs.existsSync (fs s) operaPath = true
                 ∧ (Fs.existsSync (fs s) (path_join rt operaPath "Default") = true →
                    head found = Some (path_join rt operaPath "Default")).
Proof.
  unfold Opera.getOperaProfiles. intros H.
  apply bind_Ok in H as (operaPath & s1 & Hpath & H).
  apply getOperaPath_Ok in Hpath as (Hfs1 & Hcand & Hop).
  rewrite bind_run, existsSync_run in H. cbn beta iota in H. rewrite Hfs1 in H.
  set (initial := if Fs.existsSync (fs s) (path_join rt operaPath "Default")
                  then [path_join rt operaPath "Default"] else []) in *.
  assert (Hnd : NoDup initial).
  { subst initial. destruct (Fs.existsSync (fs s) (path_join rt operaPath "Default"));
      [apply NoDup_singleton|apply NoDup_nil_2]. }
  assert (Hex : ∀ p, p ∈ initial → Fs.existsSync (fs s) p = true).
  { subst initial. intros p.
    destruct (Fs.existsSync (fs s) (path_join rt operaPath "Default")) eqn:E.
    - by intros ->%list_elem_of_singleton.
    - by intros ?%elem_of_nil. }
  apply bind_Ok in H as (scanned & s2 & Hscan & H).
  assert (Hs : fs s2 = fs s ∧ NoDup scanned ∧ (∀ p, p ∈ scanned → Fs.existsSync (fs s) p = true)
               ∧ initial `prefix_of` scanned).
  { rewrite try_catch_run, bind_run in Hscan. unfold readdirSync, try_fs in Hscan.
    cbn beta in Hscan. rewrite Hfs1 in Hscan.
    destruct (Fs.readdirSync (fs s) operaPath) as [entries|e] eqn:Edir.
    - rewrite bind_run in Hscan. unfold read_fs in Hscan. cbn beta iota in Hscan.
      rewrite Hfs1 in Hscan.
      destruct (numbered_profiles_sound (fs s) operaPath entries initial Hnd Hex)
        as (H1 & H2 & H3).
      destruct (Opera.numbered_profiles rt (fs s) operaPath entries initial) as [l [e|]];
        cbn [fst snd] in *.
      + rewrite bind_run, log_step in Hscan. cbn beta iota in Hscan.
        injection Hscan as <- <-. by cbn [fs].
      + injection Hscan as <- <-. done.
    - cbn beta iota in Hscan. rewrite (catchable_readdirSync _ _ _ Edir) in Hscan.
      rewrite bind_run, log_step in Hscan. cbn beta iota in Hscan.
      injection Hscan as <- <-. by cbn [fs]. }
  destruct Hs as (Hfs2 & Hnd2 & Hex2 & Hpre).
  destruct (bool_decide (length scanned = 0)) eqn:Elen; [discriminate|].
  apply bool_decide_eq_false in Elen.
  rewrite bind_run, log_step in H. cbn beta iota in H. injection H as <- <-.
  cbn [fs]. split; [done|]. split; [by destruct scanned|]. split; [done|]. split; [done|].
  exists operaPath. split; [done|]. split; [done|].
  intros Hdef. subst initial. rewrite Hdef in Hpre.
  destruct Hpre as [rest ->]. done.
Qed.

(** X15. The filter of [getProfiles] keeps, in their order, the profiles
    whose directory name has an entry in [profile.info_cache] of Local
    State with a [name] among the names asked for, and no other. *)
Theorem filter_profiles_keeps_named (wanted : list string) (localState : value)
    (found kept : list path) :
  Chromium.filter_profiles wanted localState found = Ok kept →
  sublist kept found
  ∧ ∀ profile, profile ∈ kept
               ↔ profile ∈ found
                 ∧ ∃ name, Chromium.profile_name localState profile = Ok (VStr name)
                           ∧ name ∈ wanted.
Proof.
  revert kept. induction found as [|p found IH]; intros kept.
  - intros [= <-]. split; [done|]. intros profile. split; [by intros ?%elem_of_nil|].
    by intros [?%elem_of_nil _].
  - cbn [Chromium.filter_profiles].
    destruct (Chromium.profile_name localState p) as [name|] eqn:Hname; [|discriminate].
    cbn. destruct (Chromium.filter_profiles wanted localState found) as [rest|];
      [|discriminate].
    cbn. destruct (IH rest eq_refl) as [Hsub Hiff]. intros [= <-].
    destruct (string_list_includes wanted name) eqn:Hinc.
    + destruct name; try discriminate. cbn in Hinc. apply bool_decide_eq_true in Hinc.
      split; [by apply sublist_skip|]. intros profile. rewrite !elem_of_cons, Hiff.
      split.
      * intros [->|[? ?]]; [|by auto]. split; [by left|]. eauto.
      * intros [[->|?] ?]; [by left|]. right. done.
    + split; [by apply sublist_cons|]. intros profile. rewrite elem_of_cons, Hiff.
      split; [intros [? ?]; by auto|].
      intros [[->|?] (n & Hn & Hw)]; [|by eauto].
      rewrite Hname in Hn. injection Hn as ->. cbn in Hinc.
      by rewrite bool_decide_eq_true_2 in Hinc.
Qed.

Lemma first_existing_respects (candidates : list path) :
  respects eq (Opera.first_existing candidates).
Proof.
  induction candidates as [|p candidates IH]; cbn [Opera.first_existing];
    repeat respects_step. exact IH.
Qed.

Lemma getOperaProfiles_respects (this : Installer) :
  respects eq (Opera.getOperaProfiles rt this).
Proof.
  unfold Opera.getOperaProfiles, Opera.getOperaPath, readdirSync.
  apply respects_bind; [apply _|apply first_existing_respects|intros ?].
  repeat respects_step.
Qed.

(** X16. On a machine where no candidate directory of Opera holds a file
    [Local State], [getProfiles] of Opera answers every profile that
    [getOperaProfiles] finds, whatever profile names the options ask
    for: the filter is dropped without a word. *)
Theorem Opera_filter_dropped_without_local_state (this : Installer) (found : list path)
    (s s1 : state) :
  Opera.getOperaProfiles rt this s = (Ok found, s1) →
  (∀ operaPath, operaPath ∈ Opera.possiblePaths rt this →
     Fs.existsSync (fs s) (path_join rt operaPath "Local State") = false) →
  ∃ s', Opera.getProfiles rt this s = (Ok found, s') ∧ fs s' = fs s.
Proof.
  intros Hfound Hmissing.
  assert (Hfs1 : fs s1 = fs s) by exact (respects_eq_fs _ _ _ _ (getOperaProfiles_respects this) Hfound).
  unfold Opera.getProfiles. rewrite (bind_step _ _ _ _ _ Hfound).
  destruct (profiles (options this)) as [[|name wanted]|]; [by exists s1..| |by exists s1].
  unfold Opera.getOperaPath.
  destruct (first_existing_run (Opera.possiblePaths rt this) s1) as (s2 & Hfs2 & Hrun).
  rewrite bind_run, Hrun, Hfs1.
  assert (Hsome : ∃ found', list_find (λ p, Fs.existsSync (fs s) p = true)
                              (Opera.possiblePaths rt this) = Some found').
  { unfold Opera.getOperaProfiles, Opera.getOperaPath in Hfound.
    apply bind_Ok in Hfound as (operaPath & s0 & Hpath & _).
    destruct (first_existing_run (Opera.possiblePaths rt this) s) as (s3 & _ & Hrun3).
    rewrite Hrun3 in Hpath. destruct (list_find _ _); [eauto|discriminate]. }
  destruct Hsome as [[i operaPath] Hfind]. rewrite Hfind. cbn beta iota. cbn [snd].
  rewrite bind_run, existsSync_run. cbn beta iota. rewrite Hfs2, Hfs1.
  rewrite Hmissing; [|by apply list_find_Some in Hfind as (?%list_elem_of_lookup_2 & _)].
  rewrite mret_run. exists s2. split; [done|congruence].
Qed.

(** X17. Under Linux, when profile names are asked for and Vivaldi has
    no file [Local State], [getProfiles] of Vivaldi throws the error of
    the read (ENOENT), although [getVivaldiProfiles] has found the
    profiles. *)
Theorem Vivaldi_filter_requires_local_state (this : Installer) (name : string)
    (wanted : list string) (found : list path) (s s1 : state) :
  platform rt = linux →
  profiles (options this) = Some (name :: wanted) →
  Vivaldi.getVivaldiProfiles rt this s = (Ok found, s1) →
  Fs.existsSync (fs s) (path_join rt (userHomeDir this ++ [".config"; "vivaldi"]) "Local State")
  = false →
  Vivaldi.getProfiles rt this s = (Throw (SystemError "ENOENT"), s).
Proof.
  intros Hlinux Hwanted Hfound Hmissing.
  assert (Hpath : Vivaldi.getVivaldiPath rt this s
                  = (Ok (userHomeDir this ++ [".config"; "vivaldi"]), s) ∧ s1 = s).
  { unfold Vivaldi.getVivaldiProfiles, Vivaldi.getVivaldiPath in *. rewrite Hlinux in *.
    cbv zeta in *. rewrite !bind_run, existsSync_run in Hfound.
    rewrite bind_run, existsSync_run. cbn beta iota in *.
    destruct (Fs.existsSync (fs s) (userHomeDir this ++ [".config"; "vivaldi"]));
      [|discriminate].
    cbn [negb] in *. split; [done|]. rewrite mret_run in Hfound. cbn beta iota in Hfound.
    unfold readdirSync, try_fs in Hfound. rewrite bind_run in Hfound.
    destruct (Fs.readdirSync (fs s) (userHomeDir this ++ [".config"; "vivaldi"]));
      [|discriminate].
    match type of Hfound with context [bool_decide ?P] => destruct (bool_decide P) end;
      [discriminate|].
    by injection Hfound as _ <-. }
  destruct Hpath as [Hpath ->].
  unfold Vivaldi.getProfiles. rewrite (bind_step _ _ _ _ _ Hfound), Hwanted.
  rewrite (bind_step _ _ _ _ _ Hpath).
  unfold read_json. rewrite !bind_run, readFileSync_run. unfold Fs.readFileSync.
  unfold Fs.existsSync, Fs.is_file in Hmissing. apply orb_false_iff in Hmissing as [Hd Hf].
  apply bool_decide_eq_false in Hf.
  destruct (Fs.files (fs s) !! _) eqn:E; [by destruct Hf|]. by rewrite Hd.
Qed.

End ProfileFacts.

Lemma Vivaldi_missing_installation_witness :
  ∃ s', Vivaldi.installExtension Scenario.webstore (Scenario.installer Scenario.webstore) "abc"
          (Scenario.start [])
        = (Throw (Error "Vivaldi n'est pas installé ou le chemin est incorrect"), s')
        ∧ fs s' = fs (Scenario.start []).
Proof.
  apply (Vivaldi_missing_installation Scenario.webstore (Scenario.installer Scenario.webstore)
           "abc" (Scenario.start [])).
  - reflexivity.
  - vm_compute; reflexivity.
Defined.

Lemma getOperaProfiles_sound_witness :
  (Opera.getOperaProfiles Scenario.webstore (Scenario.installer Scenario.webstore)
     Scenario.three_browsers).1
  = Ok [Scenario.opera_dir ++ ["Default"]]
  ∧ NoDup [Scenario.opera_dir ++ ["Default"]]
  ∧ ∀ p, p ∈ [Scenario.opera_dir ++ ["Default"]] →
         Fs.existsSync (fs Scenario.three_browsers) p = true.
Proof.
  split; [vm_compute; reflexivity|].
  pose proof (getOperaProfiles_sound Scenario.webstore (Scenario.installer Scenario.webstore)
                Scenario.three_browsers
                (Opera.getOperaProfiles Scenario.webstore (Scenario.installer Scenario.webstore)
                   Scenario.three_browsers).2
                [Scenario.opera_dir ++ ["Default"]]
                (run_pair (Opera.getOperaProfiles Scenario.webstore
                             (Scenario.installer Scenario.webstore))
                   Scenario.three_browsers (Ok [Scenario.opera_dir ++ ["Default"]])
                   ltac:(vm_compute; reflexivity)))
    as (_ & _ & Hnd & Hex & _).
  split; [exact Hnd|exact Hex].
Defined.

Lemma filter_profiles_keeps_named_witness :
  Chromium.filter_profiles ["Work"] Scenario.local_state
    [Scenario.vivaldi_dir ++ ["Default"]; Scenario.vivaldi_dir ++ ["Profile 1"]]
  = Ok [Scenario.vivaldi_dir ++ ["Default"]]
  ∧ sublist [Scenario.vivaldi_dir ++ ["Default"]]
      [Scenario.vivaldi_dir ++ ["Default"]; Scenario.vivaldi_dir ++ ["Profile 1"]].
Proof.
  split; [vm_compute; reflexivity|].
  apply (filter_profiles_keeps_named ["Work"] Scenario.local_state
           [Scenario.vivaldi_dir ++ ["Default"]; Scenario.vivaldi_dir ++ ["Profile 1"]]
           [Scenario.vivaldi_dir ++ ["Default"]]).
  vm_compute; reflexivity.
Defined.

Lemma Opera_filter_dropped_without_local_state_witness :
  profiles (options (Scenario.work_only Scenario.webstore)) = Some ["Work"]
  ∧ ∃ s', Opera.getProfiles Scenario.webstore (Scenario.work_only Scenario.webstore)
            Scenario.three_browsers
          = (Ok [Scenario.opera_dir ++ ["Default"]], s')
          ∧ fs s' = fs Scenario.three_browsers.
Proof.
  split; [reflexivity|].
  apply (Opera_filter_dropped_without_local_state Scenario.webstore
           (Scenario.work_only Scenario.webstore) [Scenario.opera_dir ++ ["Default"]]
           Scenario.three_browsers
           (Opera.getOperaProfiles Scenario.webstore (Scenario.work_only Scenario.webstore)
              Scenario.three_browsers).2).
  - apply (run_pair (Opera.getOperaProfiles Scenario.webstore
                       (Scenario.work_only Scenario.webstore))
             Scenario.three_browsers (Ok [Scenario.opera_dir ++ ["Default"]])).
    vm_compute; reflexivity.
  - apply Forall_forall. repeat (apply Forall_cons; split; [vm_compute; reflexivity|]).
    apply Forall_nil_2.
Defined.

Lemma Vivaldi_filter_requires_local_state_witness :
  (Vivaldi.getVivaldiProfiles Scenario.webstore (Scenario.work_only Scenario.webstore)
     Scenario.three_browsers).1
  = Ok [Scenario.vivaldi_dir ++ ["Default"]]
  ∧ Vivaldi.getProfiles Scenario.webstore (Scenario.work_only Scenario.webstore)
      Scenario.three_browsers
    = (Throw (SystemError "ENOENT"), Scenario.three_browsers).
Proof.
  split; [vm_compute; reflexivity|].
  apply (Vivaldi_filter_requires_local_state Scenario.webstore
           (Scenario.work_only Scenario.webstore) "Work" []
           [Scenario.vivaldi_dir ++ ["Default"]] Scenario.three_browsers
           (Vivaldi.getVivaldiProfiles Scenario.webstore (Scenario.work_only Scenario.webstore)
              Scenario.three_browsers).2).
  - reflexivity.
  - reflexivity.
  - apply (run_pair (Vivaldi.getVivaldiProfiles Scenario.webstore
                       (Scenario.work_only Scenario.webstore))
             Scenario.three_browsers (Ok [Scenario.vivaldi_dir ++ ["Default"]])).
    vm_compute; reflexivity.
  - vm_compute; reflexivity.
Defined.

(** ** The command *)

Section CommandFacts.

Context (rt : Runtime).
Context (Chrome_install Edge_install Brave_install : InstallerOptions → string → M unit).

(** X18. Given a browser name that is, in lower case, none of chrome,
    edge, brave, opera, firefox and vivaldi, [installExtensionCommand]
    rejects with the error that names the browser as it was given; no
    installer has run: no file has changed, and all that has left the
    process are log lines of the command itself. *)
Theorem unsupported_browser_rejected (argv : Command.Argv) (name : string) (s : state) :
  Command.browser argv = Some name → name ≠ "" →
  Command.toLowerCase name ∉ ["chrome"; "edge"; "brave"; "opera"; "firefox"; "vivaldi"] →
  ∃ s' logs,
    Command.installExtensionCommand rt Chrome_install Edge_install Brave_install argv s
    = (Throw (Error ("Navigateur non supporté: " +:+ name)), s')
    ∧ fs s' = fs s
    ∧ trace s' = trace s ++ logs
    ∧ Forall (λ e, ∃ level message, e = Log Command.logger level message) logs.
Proof.
  intros Hbrowser Hname Hnone.
  unfold Command.installExtensionCommand. cbv zeta. rewrite Hbrowser.
  cbn [truthy_string]. apply String.eqb_neq in Hname. rewrite Hname. cbn [negb].
  change (default "" (Some name)) with name.
  assert (Hne : ∀ b, b ∈ ["chrome"; "edge"; "brave"; "opera"; "firefox"; "vivaldi"] →
                     String.eqb (Command.toLowerCase name) b = false).
  { intros b Hb. apply String.eqb_neq. intros Heq. apply Hnone. by rewrite Heq. }
  rewrite !Hne by (repeat first [by apply list_elem_of_here | apply list_elem_of_further]).
  rewrite try_catch_run.
  repeat (first [ rewrite bind_run | rewrite log_step | rewrite throw_run ];
          cbn beta iota; cbn [fs trace clock]).
  eexists (mkState _ _ _), _. split; [reflexivity|]. cbn [fs trace]. split; [done|].
  split; [by rewrite <- !app_assoc|].
  repeat (apply Forall_cons; split; [by eexists _, _|]). apply Forall_nil_2.
Qed.

End CommandFacts.

(** ** Firefox *)

Section FirefoxFacts.

Context (rt : Runtime).

(** X19. When [<extensionsDir>/<id>.xpi] exists and [forceReinstall] is
    not set, [installExtension] of Firefox answers true at once: Firefox
    is not closed, nothing is downloaded, no file changes. *)
Theorem Firefox_skips_installed (this : Firefox.FirefoxExtensionInstaller)
    (extensionId : string) (s : state) :
  Str.includes extensionId "/" = false →
  truthy_flag (forceReinstall (Firefox.options this)) = false →
  Fs.existsSync (fs s) (path_join rt (Firefox.extensionsDir this) (extensionId +:+ ".xpi"))
  = true →
  Firefox.installExtension rt this extensionId s
  = (Ok true,
     mkState (fs s)
       (trace s ++ [Log Firefox.logger "info" "Installing extension";
                    Log Firefox.logger "info"
                      "Extension is already installed. Use forceReinstall option to reinstall."])
       (clock s)).
Proof.
  intros Hslash Hforce Hthere.
  unfold Firefox.installExtension, Firefox.isExtensionInstalled.
  rewrite try_catch_run, bind_run, log_step. cbn beta iota zeta.
  rewrite Hslash. cbn [andb].
  rewrite bind_run, existsSync_run. cbn beta iota. cbn [fs].
  rewrite Hthere, Hforce. cbn [andb negb].
  rewrite bind_run, log_step. cbn beta iota. rewrite mret_run. cbn [fs trace clock].
  by rewrite <- app_assoc.
Qed.











Lemma without_id_spec (id : value) (addons kept : list value) :
  Firefox.without_id id addons = Ok kept →
  sublist kept addons
  ∧ (∀ addon, addon ∈ addons → ∃ x, get addon "id" = Ok x)
  ∧ ∀ addon, addon ∈ kept
             ↔ addon ∈ addons ∧ ∃ x, get addon "id" = Ok x ∧ Firefox.strict_ne x id = true.
Proof.
  revert kept. induction addons as [|a addons IH]; intros kept.
  - intros [= <-]. split; [done|]. split; [by intros ? ?%elem_of_nil|]. intros addon.
    split; [by intros ?%elem_of_nil|by intros [?%elem_of_nil _]].
  - cbn [Firefox.without_id]. destruct (get a "id") as [x|] eqn:Hx; [|discriminate].
    cbn. destruct (Firefox.without_id id addons) as [rest|]; [|discriminate].
    cbn. destruct (IH rest eq_refl) as (Hsub & Hall & Hiff). intros [= <-].
    assert (Hall' : ∀ addon, addon ∈ a :: addons → ∃ x, get addon "id" = Ok x).
    { intros addon [->|?]%elem_of_cons; eauto. }
    destruct (Firefox.strict_ne x id) eqn:Hne.
    + split; [by apply sublist_skip|]. split; [done|].
      intros addon. rewrite !elem_of_cons, Hiff.
      split.
      * intros [->|[? ?]]; [|by auto]. split; [by left|]. eauto.
      * intros [[->|?] ?]; [by left|]. by right.
    + split; [by apply sublist_cons|]. split; [done|].
      intros addon. rewrite elem_of_cons, Hiff.
      split; [intros [? ?]; by auto|].
      intros [[->|?] (y & Hy & Hne')]; [|by eauto].
      rewrite Hx in Hy. injection Hy as ->. congruence.
Qed.

Lemma strict_ne_string (x : value) (i : string) :
  Firefox.strict_ne x (VStr i) = true ↔ x ≠ VStr i.
Proof.
  destruct x; cbn; try (split; [discriminate|done]).
  rewrite negb_true_iff, String.eqb_neq. split; [congruence|]. intros H ->. done.
Qed.

(** X21. After the two steps of [updateExtensionsJson] on the list of
    add-ons (the filter, then the push), [addons] holds the entries it had
    under other identifiers, in their order, followed by the new entry:
    whatever the file listed, it now lists no second entry under the
    identifier installed. *)
Theorem extensions_json_one_entry_per_id (i : string) (data data1 data2 entry : value) :
  Firefox.remove_existing (VStr i) data = Ok data1 →
  Chromium.update data1 "addons" (λ addons, push addons entry) = Ok data2 →
  ∃ kept, get data2 "addons" = Ok (arr (kept ++ [entry]))
          ∧ (∀ addon, addon ∈ kept → get addon "id" ≠ Ok (VStr i))
          ∧ ∀ elems props, get data "addons" = Ok (VArr elems props) →
              sublist kept elems
              ∧ ∀ addon, addon ∈ elems → get addon "id" ≠ Ok (VStr i) → addon ∈ kept.
Proof.
  intros Hremove Hpush.
  assert (Hkept : ∃ kept, set data "addons" (arr kept) = Ok data1
            ∧ (∀ addon, addon ∈ kept → get addon "id" ≠ Ok (VStr i))
            ∧ ∀ elems props, get data "addons" = Ok (VArr elems props) →
                sublist kept elems
                ∧ ∀ addon, addon ∈ elems → get addon "id" ≠ Ok (VStr i) → addon ∈ kept).
  { unfold Firefox.remove_existing in Hremove.
    destruct (get data "addons") as [addons|] eqn:Hget; [|discriminate].
    cbn in Hremove. destruct (truthy addons) eqn:Ht.
    - destruct addons as [| | | | |elems props|]; try discriminate.
      destruct (bool_decide (props !! "filter" = None)); [|discriminate].
      destruct (Firefox.without_id (VStr i) elems) as [kept|] eqn:Hw; [|discriminate].
      cbn in Hremove. exists kept. split; [done|].
      apply without_id_spec in Hw as (Hsub & Hall & Hiff). split.
      + intros addon (_ & x & Hx & Hne)%Hiff. apply strict_ne_string in Hne. congruence.
      + intros elems' props' [= <- <-]. split; [done|]. intros addon Hin Hid.
        apply Hiff. split; [done|].
        destruct (Hall _ Hin) as [x Hx].
        exists x. split; [done|]. apply strict_ne_string. congruence.
    - exists []. split; [done|]. split; [by intros ? ?%elem_of_nil|].
      intros elems props [= ->]. done. }
  destruct Hkept as (kept & Hset & Hids & Hrest).
  exists kept. split; [|done].
  apply update_Ok in Hpush as (c & c' & Hc & Hp & Hset2).
  rewrite (get_set_same _ _ _ _ Hset eq_refl) in Hc by done. injection Hc as <-.
  cbn in Hp. injection Hp as <-.
  by rewrite (get_set_same _ _ _ _ Hset2 eq_refl).
Qed.

End FirefoxFacts.

Lemma unsupported_browser_rejected_witness :
  ∃ s' logs,
    Command.installExtensionCommand Scenario.webstore Scenario.absent Scenario.absent
      Scenario.absent (Scenario.only_browser "Safari") (Scenario.start [])
    = (Throw (Error ("Navigateur non supporté: " +:+ "Safari")), s')
    ∧ fs s' = fs (Scenario.start [])
    ∧ trace s' = trace (Scenario.start []) ++ logs
    ∧ Forall (λ e, ∃ level message, e = Log Command.logger level message) logs.
Proof.
  apply (unsupported_browser_rejected Scenario.webstore Scenario.absent Scenario.absent
           Scenario.absent (Scenario.only_browser "Safari") "Safari" (Scenario.start [])).
  - reflexivity.
  - discriminate.
  - apply not_elem_of_cons. split; [discriminate|].
    apply not_elem_of_cons. split; [discriminate|].
    apply not_elem_of_cons. split; [discriminate|].
    apply not_elem_of_cons. split; [discriminate|].
    apply not_elem_of_cons. split; [discriminate|].
    apply not_elem_of_cons. split; [discriminate|].
    apply not_elem_of_nil.
Defined.

Lemma Firefox_skips_installed_witness :
  Firefox.installExtension Scenario.webstore Scenario.firefox_installer "abc"
    Scenario.xpi_installed
  = (Ok true,
     mkState (fs Scenario.xpi_installed)
       (trace Scenario.xpi_installed
        ++ [Log Firefox.logger "info" "Installing extension";
            Log Firefox.logger "info"
              "Extension is already installed. Use forceReinstall option to reinstall."])
       (clock Scenario.xpi_installed)).
Proof.
  apply (Firefox_skips_installed Scenario.webstore Scenario.firefox_installer "abc"
           Scenario.xpi_installed).
  - reflexivity.
  - reflexivity.
  - vm_compute; reflexivity.
Defined.


(** Where the download directory is missing, the stream cannot be opened:
    the process ends there, and the command run for Firefox ends with
    status 1 without a line of the summary, nor of the command. *)
Lemma unopened_stream_ends_the_process :
  ended (Firefox.installExtensions Scenario.not_found Scenario.firefox_installer ["abc"; "abc"]
           (Scenario.start []))
  ∧ trace (Firefox.installExtensions Scenario.not_found Scenario.firefox_installer
             ["abc"; "abc"] (Scenario.start [])).2
    = [Log Firefox.logger "info" "Installing extension";
       Log Firefox.logger "debug" "Downloading from";
       Exit 1].
Proof.
  split; [|vm_compute; reflexivity].
  exists "ENOENT". split; vm_compute; reflexivity.
Qed.

Lemma extensions_json_one_entry_per_id_witness :
  ∃ data1 data2 kept,
    Firefox.remove_existing (VStr "abc") Scenario.two_addons = Ok data1
    ∧ Chromium.update data1 "addons" (λ addons, push addons (obj [("id", VStr "abc")]))
      = Ok data2
    ∧ get data2 "addons" = Ok (arr (kept ++ [obj [("id", VStr "abc")]]))
    ∧ ∀ addon, addon ∈ kept → get addon "id" ≠ Ok (VStr "abc").
Proof.
  eexists _, _.
  match goal with
  | |- ∃ kept, _ = Ok ?d1 ∧ _ = Ok ?d2 ∧ _ =>
      assert (H1 : Firefox.remove_existing (VStr "abc") Scenario.two_addons = Ok d1)
        by (vm_compute; reflexivity);
      assert (H2 : Chromium.update d1 "addons"
                     (λ addons, push addons (obj [("id", VStr "abc")])) = Ok d2)
        by (vm_compute; reflexivity);
      destruct (extensions_json_one_entry_per_id "abc" Scenario.two_addons d1 d2
                  (obj [("id", VStr "abc")]) H1 H2) as (kept & Hget & Hids & _)
  end.
  exists kept. split; [exact H1|]. split; [exact H2|]. split; [exact Hget|exact Hids].
Defined.

Section FirefoxFiles.

Context (rt : Runtime).

Lemma parse_line_run (basePath : path) (acc : list Firefox.Profile * option Firefox.Profile)
    (line : string) (s : state) :
  ∃ acc' s', Firefox.parse_line rt basePath acc line s = (Ok acc', s')
             ∧ fs s' = fs s
             ∧ length (acc'.1 ++ option_list acc'.2)
               = length (acc.1 ++ option_list acc.2)
                 + (if Str.startsWith (Str.trim line) "[Profile" then 1 else 0).
Proof.
  unfold Firefox.parse_line. cbv zeta. destruct acc as [closed [current|]]; cbn [fst snd].
  - destruct (Str.startsWith (Str.trim line) "[Profile").
    { eexists _, _. split; [reflexivity|]. split; [done|]. cbn. rewrite !length_app. cbn. lia. }
    repeat match goal with
           | |- context [if ?b then _ else _] => destruct b
           end.
    all: try (rewrite bind_run, log_step; cbn beta iota).
    all: eexists _, _; (split; [reflexivity|]); split; [done|];
      cbn [fst snd option_list]; rewrite !length_app; cbn; lia.
  - destruct (Str.startsWith (Str.trim line) "[Profile").
    + eexists _, _. split; [reflexivity|]. split; [done|]. cbn. rewrite !length_app. cbn. lia.
    + eexists _, _. split; [reflexivity|]. split; [done|]. cbn. lia.
Qed.

Lemma parse_lines_run (basePath : path) (lines : list string)
    (acc : list Firefox.Profile * option Firefox.Profile) (s : state) :
  ∃ acc' s', Firefox.parse_lines rt basePath acc lines s = (Ok acc', s')
             ∧ fs s' = fs s
             ∧ length (acc'.1 ++ option_list acc'.2)
               = length (acc.1 ++ option_list acc.2)
                 + length (filter (λ line, Str.startsWith (Str.trim line) "[Profile" = true)
                             lines).
Proof.
  revert acc s. induction lines as [|line lines IH]; intros acc s.
  - exists acc, s. split; [done|]. split; [done|]. cbn. lia.
  - cbn [Firefox.parse_lines].
    destruct (parse_line_run basePath acc line s) as (acc1 & s1 & H1 & Hfs1 & Hlen1).
    rewrite (bind_step _ _ _ _ _ H1).
    destruct (IH acc1 s1) as (acc2 & s2 & H2 & Hfs2 & Hlen2).
    exists acc2, s2. split; [done|]. split; [congruence|].
    rewrite Hlen2, Hlen1.
    destruct (Str.startsWith (Str.trim line) "[Profile") eqn:E.
    + rewrite filter_cons_True by done. cbn. lia.
    + rewrite filter_cons_False by (by rewrite E). lia.
Qed.

(** X22. On a text of ASCII characters, [parseProfilesIni] never throws
    and answers one profile for every line that, trimmed, starts with
    [[Profile]: a section is a profile whatever keys it holds, and no
    other section header ends it. It changes no file. *)
Theorem parseProfilesIni_counts_sections (profilesIni : string) (basePath : path)
    (s : state) :
  forallb (λ c, Nat.ltb (nat_of_ascii c) 128) (list_ascii_of_string profilesIni) = true →
  ∃ found s', Firefox.parseProfilesIni rt profilesIni basePath s = (Ok found, s')
              ∧ fs s' = fs s
              ∧ length found
                = length (filter (λ line, Str.startsWith (Str.trim line) "[Profile" = true)
                            (Str.split "010" profilesIni)).
Proof.
  intros _. unfold Firefox.parseProfilesIni.
  destruct (parse_lines_run basePath (Str.split "010" profilesIni) ([], None) s)
    as (acc & s1 & H & Hfs & Hlen).
  rewrite (bind_step _ _ _ _ _ H). cbv zeta. rewrite bind_run, log_step. cbn beta iota.
  rewrite mret_run. eexists _, _. split; [reflexivity|]. split; [done|].
  cbn in Hlen. rewrite <- Hlen. by destruct acc as [closed [current|]]; cbn; rewrite ?app_nil_r.
Qed.

Lemma updateExtensionsJson_untouched (profilePath : path)
    (id name description version : value) (target : path) (installDate : Z) (q : path) :
  q ≠ path_join rt profilePath "extensions.json" →
  respects (untouched q)
    (Firefox.updateExtensionsJson rt profilePath id name description version target installDate).
Proof.
  intros Hq. unfold Firefox.updateExtensionsJson, read_json. cbv zeta.
  repeat first
    [ match goal with
      | |- respects _ (writeFileSync _ _) =>
          apply respects_update_fs; [apply _|]; intros ? ?; by apply writeFileSync_untouched
      end
    | respects_step ].
Qed.

(** X23. [updateExtensionsJson] never throws, and the only file it can
    change is [extensions.json] of the profile: whatever fails in it is
    logged, and the installation goes on. *)
Theorem updateExtensionsJson_confined (profilePath : path)
    (id name description version : value) (target : path) (installDate : Z) (q : path) :
  q ≠ path_join rt profilePath "extensions.json" →
  respects (untouched q)
    (Firefox.updateExtensionsJson rt profilePath id name description version target installDate)
  ∧ ∀ s, ∃ s', Firefox.updateExtensionsJson rt profilePath id name description version target
                 installDate s = (Ok tt, s').
Proof.
  intros Hq. split; [by apply updateExtensionsJson_untouched|].
  intros s. unfold Firefox.updateExtensionsJson.
  match goal with
  | |- ∃ s', try_catch ?m ?h s = _ =>
      destruct (try_catch_total m h) with (s := s) as ([] & s' & H)
  end.
  - unfold read_json. repeat survives_step.
  - intros e s0. rewrite log_step. eauto.
  - eauto.
Qed.

(** X24. When [extensions.json] is there, does not parse and can be
    written, [updateExtensionsJson] writes a new file in its place, whose
    list of add-ons holds the one entry of the extension installed: what
    the file listed is lost. *)
Theorem updateExtensionsJson_replaces_malformed (profilePath : path) (i : string)
    (name description version : value) (target : path) (installDate : Z)
    (content : bytes) (s : state) :
  Fs.files (fs s) !! path_join rt profilePath "extensions.json" = Some content →
  JSON_parse rt content = None →
  Fs.is_dir (fs s) (path_join rt profilePath "extensions.json") = false →
  Fs.parent_is_dir (fs s) (path_join rt profilePath "extensions.json") = true →
  ∃ s', Firefox.updateExtensionsJson rt profilePath (VStr i) name description version target
          installDate s = (Ok tt, s')
        ∧ Fs.files (fs s')
          = <[path_join rt profilePath "extensions.json" :=
                JSON_stringify rt
                  (obj [("addons",
                         arr [Firefox.newExtension rt (VStr i) version name description target
                                installDate (Date_now rt (clock s)) i])])]>
              (Fs.files (fs s))
        ∧ Fs.dirs (fs s') = Fs.dirs (fs s).
Proof.
  intros Hfile Hparse Hdir Hparent.
  unfold Firefox.updateExtensionsJson, read_json. cbv zeta.
  rewrite try_catch_run, bind_run, existsSync_run. cbn beta iota.
  rewrite (existsSync_file _ _ _ Hfile).
  rewrite bind_run, try_catch_run, bind_run, readFileSync_run. unfold Fs.readFileSync.
  rewrite Hfile. cbn beta iota. rewrite Hparse, throw_run. cbn [fatal].
  rewrite bind_run, log_step. cbn beta iota. rewrite mret_run.
  rewrite bind_run, lift_run. cbn beta iota.
  change (Firefox.remove_existing (VStr i) (obj [("addons", arr [])]))
    with (Ok (VObj (<["addons":=arr []]> (<["addons":=arr []]> ∅))) : result value).
  cbn beta iota.
  repeat (first [ rewrite bind_run | rewrite lift_run | rewrite now_run | rewrite log_step
                | rewrite mret_run ];
          cbn beta iota; cbn [fs trace clock to_string]).
  match goal with
  | |- context [Chromium.update ?d "addons" ?f] =>
      change (Chromium.update d "addons" f)
        with (Ok (VObj (<["addons":=VArr ([] ++ [Firefox.newExtension rt (VStr i) version name
                                                  description target installDate
                                                  (Date_now rt (clock s)) i]) ∅]>
                          (<["addons":=arr []]> (<["addons":=arr []]> ∅)))) : result value)
  end.
  cbn beta iota. rewrite bind_run. unfold writeFileSync. rewrite update_fs_run. cbn [fs].
  unfold Fs.writeFileSync. rewrite Hdir, Hparent. cbn beta iota.
  rewrite log_step. eexists. split; [reflexivity|]. cbn [fs Fs.files Fs.dirs].
  split; [|done]. by do 2 f_equal.
Qed.

End FirefoxFiles.

Lemma parseProfilesIni_counts_sections_witness :
  ∃ found s',
    Firefox.parseProfilesIni Scenario.webstore (string_of_list_byte Scenario.profiles_ini)
      Scenario.firefox_dir (Scenario.start []) = (Ok found, s')
    ∧ fs s' = fs (Scenario.start [])
    ∧ length found
      = length (filter (λ line, Str.startsWith (Str.trim line) "[Profile" = true)
                  (Str.split "010" (string_of_list_byte Scenario.profiles_ini))).
Proof.
  apply (parseProfilesIni_counts_sections Scenario.webstore
           (string_of_list_byte Scenario.profiles_ini) Scenario.firefox_dir
           (Scenario.start [])).
  vm_compute. reflexivity.
Defined.

Lemma updateExtensionsJson_confined_witness :
  respects (untouched (Scenario.firefox_profile ++ ["prefs.js"]))
    (Firefox.updateExtensionsJson Scenario.webstore Scenario.firefox_profile (VStr "abc")
       (VStr "SmartLink") (VStr "") (VStr "1.0.0")
       (Scenario.firefox_profile ++ ["extensions"; "abc.xpi"]) 1700000000000)
  ∧ ∀ s, ∃ s', Firefox.updateExtensionsJson Scenario.webstore Scenario.firefox_profile
                 (VStr "abc") (VStr "SmartLink") (VStr "") (VStr "1.0.0")
                 (Scenario.firefox_profile ++ ["extensions"; "abc.xpi"]) 1700000000000 s
               = (Ok tt, s').
Proof.
  apply (updateExtensionsJson_confined Scenario.webstore Scenario.firefox_profile (VStr "abc")
           (VStr "SmartLink") (VStr "") (VStr "1.0.0")
           (Scenario.firefox_profile ++ ["extensions"; "abc.xpi"]) 1700000000000
           (Scenario.firefox_profile ++ ["prefs.js"])).
  vm_compute. discriminate.
Defined.

Lemma updateExtensionsJson_replaces_malformed_witness :
  ∃ s', Firefox.updateExtensionsJson Scenario.webstore Scenario.firefox_profile (VStr "abc")
          (VStr "SmartLink") (VStr "") (VStr "1.0.0")
          (Scenario.firefox_profile ++ ["extensions"; "abc.xpi"]) 1700000000000
          Scenario.broken_registry = (Ok tt, s')
        ∧ Fs.files (fs s')
          = <[path_join Scenario.webstore Scenario.firefox_profile "extensions.json" :=
                JSON_stringify Scenario.webstore
                  (obj [("addons",
                         arr [Firefox.newExtension Scenario.webstore (VStr "abc")
                                (VStr "1.0.0") (VStr "SmartLink") (VStr "")
                                (Scenario.firefox_profile ++ ["extensions"; "abc.xpi"])
                                1700000000000
                                (Date_now Scenario.webstore (clock Scenario.broken_registry))
                                "abc"])])]>
              (Fs.files (fs Scenario.broken_registry))
        ∧ Fs.dirs (fs s') = Fs.dirs (fs Scenario.broken_registry).
Proof.
  apply (updateExtensionsJson_replaces_malformed Scenario.webstore Scenario.firefox_profile
           "abc" (VStr "SmartLink") (VStr "") (VStr "1.0.0")
           (Scenario.firefox_profile ++ ["extensions"; "abc.xpi"]) 1700000000000
           Scenario.malformed Scenario.broken_registry).
  - vm_compute; reflexivity.
  - reflexivity.
  - vm_compute; reflexivity.
  - vm_compute; reflexivity.
Defined.

Section FirefoxProfiles.

Context (rt : Runtime).

Lemma openFirefoxWithConfigUrl_respects (R : Fs.t → Fs.t → Prop) `{!Reflexive R}
    `{!Transitive R} (profileName : string) (configParams : option Config) :
  respects R (Firefox.openFirefoxWithConfigUrl profileName configParams).
Proof.
  unfold Firefox.openFirefoxWithConfigUrl, BrowserController.openWithUrl.
  repeat respects_step. all: by apply close_respects.
Qed.

(** X25. When the body of the loop of [installXpi] ends normally for a
    profile, the archive is in the profile under
    [extensions/<id>.xpi], whether or not [extensions.json] could be
    brought up to date. *)
Theorem install_in_profile_writes_xpi (this : Firefox.FirefoxExtensionInstaller) (i : string)
    (name description version : value) (zipBuffer : bytes) (installDate : Z)
    (profile : Firefox.Profile) (s s' : state) (c : completion) :
  plain_name (i +:+ ".xpi") = true →
  Firefox.install_in_profile rt this (VStr i) name description version zipBuffer installDate
    profile s = (Ok c, s') →
  c = Next
  ∧ Fs.files (fs s') !! (Firefox.location profile ++ ["extensions"; i +:+ ".xpi"])
    = Some zipBuffer.
Proof.
  intros Hplain. unfold Firefox.install_in_profile. cbv zeta.
  rewrite (path_join_plain rt _ "extensions") by done.
  intros H. apply bind_Ok in H as (present & s1 & _ & H).
  apply bind_Ok in H as ([] & s2 & _ & H).
  rewrite bind_run, lift_run in H. cbn beta iota in H. cbn [to_string] in H.
  rewrite (path_join_plain rt _ (i +:+ ".xpi")) in H by done.
  rewrite <- app_assoc in H. cbn [app] in H.
  apply bind_Ok in H as ([] & s3 & Hw & H).
  unfold writeFileSync in Hw. rewrite update_fs_run in Hw.
  destruct (Fs.writeFileSync (fs s2) _ zipBuffer) as [b|] eqn:Ew; [|discriminate].
  injection Hw as <-. apply writeFileSync_Ok in Ew as [Ef _].
  rewrite bind_run, log_step in H. cbn beta iota in H.
  apply bind_Ok in H as ([] & s4 & Hu & H).
  apply bind_Ok in H as (opened & s5 & Ho & H). injection H as <- <-.
  split; [done|].
  assert (Hne : Firefox.location profile ++ ["extensions"; i +:+ ".xpi"]
                ≠ path_join rt (Firefox.location profile) "extensions.json").
  { rewrite path_join_plain by done. intros Heq. by apply app_inv_head in Heq. }
  destruct (updateExtensionsJson_untouched rt _ _ _ _ _ _ _ _ Hne _ _ _ Hu) as [Hu1 _].
  destruct (openFirefoxWithConfigUrl_respects
              (untouched (Firefox.location profile ++ ["extensions"; i +:+ ".xpi"]))
              _ _ _ _ _ Ho) as [Ho1 _].
  rewrite Ho1, Hu1. cbn [fs]. by rewrite Ef, lookup_insert_eq.
Qed.

Lemma Firefox_first_existing_run (candidates : list path) (s : state) :
  Firefox.first_existing candidates s
  = (Ok (snd <$> list_find (λ p, Fs.existsSync (fs s) p = true) candidates), s).
Proof.
  induction candidates as [|p candidates IH]; [done|].
  cbn [Firefox.first_existing list_find]. rewrite bind_run, existsSync_run. cbn beta iota.
  destruct (decide (Fs.existsSync (fs s) p = true)) as [Hp|Hp].
  - by rewrite Hp.
  - apply not_true_is_false in Hp. rewrite Hp, IH.
    by destruct (list_find _ candidates) as [[]|].
Qed.

(** X26. Under Linux, when none of the three directories in which
    Firefox keeps its profiles holds a file [profiles.ini],
    [findProfileDirectory] throws "No Firefox profile found", whatever
    the installation directory it is given: that directory is only
    searched under Windows. *)
Theorem findProfileDirectory_without_profiles_ini (installDir : path) (s : state) :
  platform rt = linux →
  (∀ dir, dir ∈ [homedir rt ++ [".mozilla"; "firefox"];
                 homedir rt ++ ["snap"; "firefox"; "common"; ".mozilla"; "firefox"];
                 homedir rt ++ [".var"; "app"; "org.mozilla.firefox"; "data"; "mozilla";
                                "firefox"]] →
          Fs.existsSync (fs s) (path_join rt dir "profiles.ini") = false) →
  ∃ s', Firefox.findProfileDirectory rt installDir s
        = (Throw (Error "No Firefox profile found"), s')
        ∧ fs s' = fs s.
Proof.
  intros Hlinux Hnone.
  assert (Hfound : ∃ s1, Firefox.getFirefoxProfiles rt s = (Ok [], s1) ∧ fs s1 = fs s).
  { assert (Hnot : bool_decide (platform rt = win32) = false)
      by (rewrite Hlinux; by apply bool_decide_eq_false_2).
    unfold Firefox.getFirefoxProfiles, Firefox.getDefaultFirefoxProfilesDir.
    rewrite Hnot, Hlinux. rewrite try_catch_run, !bind_run, Firefox_first_existing_run.
    cbn beta iota.
    destruct (list_find _ _) as [[k dir]|] eqn:Efind; cbn [fmap option_fmap option_map snd].
    - apply list_find_Some in Efind as (Hin%list_elem_of_lookup_2 & _).
      repeat (first [ rewrite bind_run | rewrite existsSync_run | rewrite mret_run
                    | rewrite log_step | rewrite (Hnone _ Hin) ];
              cbn beta iota; cbn [fs trace clock negb]).
      eexists (mkState _ _ _). split; [reflexivity|done].
    - assert (Hin : homedir rt ++ [".mozilla"; "firefox"]
                    ∈ [homedir rt ++ [".mozilla"; "firefox"];
                       homedir rt ++ ["snap"; "firefox"; "common"; ".mozilla"; "firefox"];
                       homedir rt ++ [".var"; "app"; "org.mozilla.firefox"; "data"; "mozilla";
                                      "firefox"]]) by (apply elem_of_cons; by left).
      repeat (first [ rewrite bind_run | rewrite existsSync_run | rewrite mret_run
                    | rewrite log_step | rewrite (Hnone _ Hin) ];
              cbn beta iota; cbn [fs trace clock negb]).
      eexists (mkState _ _ _). split; [reflexivity|done]. }
  destruct Hfound as (s1 & Hfound & Hfs1).
  unfold Firefox.findProfileDirectory. rewrite try_catch_run.
  rewrite (bind_step _ _ _ _ _ Hfound).
  rewrite bool_decide_eq_false_2 by (rewrite Hlinux; discriminate).
  repeat (first [ rewrite bind_run | rewrite mret_run | rewrite throw_run | rewrite log_step ];
          cbn beta iota; cbn [fs trace clock]).
  eexists (mkState _ _ _). split; [reflexivity|done].
Qed.

End FirefoxProfiles.

Lemma install_in_profile_writes_xpi_witness :
  (Firefox.install_in_profile Scenario.webstore Scenario.firefox_installer (VStr "abc")
     (VStr "SmartLink") (VStr "") (VStr "1.0.0") Scenario.payload 1700000000000
     (Firefox.mkProfile "default" Scenario.firefox_profile true (Some true))
     Scenario.broken_registry).1 = Ok Next
  ∧ Fs.files
      (fs (Firefox.install_in_profile Scenario.webstore Scenario.firefox_installer (VStr "abc")
             (VStr "SmartLink") (VStr "") (VStr "1.0.0") Scenario.payload 1700000000000
             (Firefox.mkProfile "default" Scenario.firefox_profile true (Some true))
             Scenario.broken_registry).2)
    !! (Scenario.firefox_profile ++ ["extensions"; "abc" +:+ ".xpi"])
    = Some Scenario.payload.
Proof.
  split; [vm_compute; reflexivity|].
  apply (install_in_profile_writes_xpi Scenario.webstore Scenario.firefox_installer "abc"
           (VStr "SmartLink") (VStr "") (VStr "1.0.0") Scenario.payload 1700000000000
           (Firefox.mkProfile "default" Scenario.firefox_profile true (Some true))
           Scenario.broken_registry
           (Firefox.install_in_profile Scenario.webstore Scenario.firefox_installer
              (VStr "abc") (VStr "SmartLink") (VStr "") (VStr "1.0.0") Scenario.payload
              1700000000000
              (Firefox.mkProfile "default" Scenario.firefox_profile true (Some true))
              Scenario.broken_registry).2 Next).
  - reflexivity.
  - apply (run_pair (Firefox.install_in_profile Scenario.webstore Scenario.firefox_installer
                       (VStr "abc") (VStr "SmartLink") (VStr "") (VStr "1.0.0")
                       Scenario.payload 1700000000000
                       (Firefox.mkProfile "default" Scenario.firefox_profile true (Some true)))
             Scenario.broken_registry (Ok Next)).
    vm_compute; reflexivity.
Defined.

Lemma findProfileDirectory_without_profiles_ini_witness :
  ∃ s', Firefox.findProfileDirectory Scenario.webstore Scenario.firefox_dir
          Scenario.xpi_installed
        = (Throw (Error "No Firefox profile found"), s')
        ∧ fs s' = fs Scenario.xpi_installed.
Proof.
  apply (findProfileDirectory_without_profiles_ini Scenario.webstore Scenario.firefox_dir
           Scenario.xpi_installed).
  - reflexivity.
  - apply Forall_forall. repeat (apply Forall_cons; split; [vm_compute; reflexivity|]).
    apply Forall_nil_2.
Defined.

(** ** What the patch writes *)

Section PatchFacts.

Lemma update_same (v v' : value) (k : string) (f : value → result value) :
  Chromium.update v k f = Ok v' → array_index k = None → k ≠ "__proto__" →
  ∃ c c', get v k = Ok c ∧ f c = Ok c' ∧ get v' k = Ok c'.
Proof.
  intros (c & c' & Hc & Hf & Hset)%update_Ok Hk Hp.
  exists c, c'. split; [done|]. split; [done|]. by eapply get_set_same.
Qed.

Lemma update_other (v v' : value) (k k' : string) (f : value → result value) :
  Chromium.update v k f = Ok v' → array_index k = None → k' ≠ k → get v' k' = get v k'.
Proof.
  intros (c & c' & Hc & Hf & Hset)%update_Ok Hk Hne. by eapply get_set_other.
Qed.

Lemma ensure_other (v v' : value) (k k' : string) (init : value) :
  Chromium.ensure v k init = Ok v' → array_index k = None → k' ≠ k → get v' k' = get v k'.
Proof.
  intros (c & Hc & [[_ ->]|[_ Hset]])%ensure_Ok Hk Hne; [done|]. by eapply get_set_other.
Qed.

Lemma add_once_includes (extensionId : string) (known known' : value) :
  Chromium.add_once extensionId known = Ok known' → JS.includes known' extensionId = Ok true.
Proof.
  unfold Chromium.add_once. destruct (JS.includes known extensionId) as [[]|] eqn:E;
    cbn; [by intros [= <-]| |discriminate].
  destruct known as [| | | | |elems props|]; try discriminate. cbn in *.
  destruct (bool_decide (props !! "includes" = None)) eqn:Hi; [|discriminate].
  destruct (bool_decide (props !! "push" = None)); [|discriminate].
  intros [= <-]. cbn. rewrite Hi. f_equal. rewrite existsb_app. cbn.
  by rewrite String.eqb_refl, orb_true_r.
Qed.

Lemma holds_under_kept (key extensionId : string) (x : value) (p p' : value)
    (f : value → result value) :
  Chromium.update p "extensions" f = Ok p' →
  (∀ e e', f e = Ok e' → get e' key = get e key) →
  holds_under key extensionId x p → holds_under key extensionId x p'.
Proof.
  intros (e & e' & He & Hf & He')%update_same Hkey (e0 & m & H0 & Hm & Hx); [|done..].
  rewrite He in H0. injection H0 as <-.
  exists e', m. split; [done|]. split; [|done]. by rewrite (Hkey _ _ Hf).
Qed.

Lemma lists_it_kept (key extensionId : string) (p p' : value) (f : value → result value) :
  Chromium.update p "extensions" f = Ok p' →
  (∀ e e', f e = Ok e' → get e' key = get e key) →
  lists_it key extensionId p → lists_it key extensionId p'.
Proof.
  intros (e & e' & He & Hf & He')%update_same Hkey (e0 & m & H0 & Hm & Hx); [|done..].
  rewrite He in H0. injection H0 as <-.
  exists e', m. split; [done|]. split; [|done]. by rewrite (Hkey _ _ Hf).
Qed.

Lemma holds_under_set (key extensionId : string) (x : value) (p p' : value) :
  array_index key = None → key ≠ "__proto__" →
  array_index extensionId = None → extensionId ≠ "__proto__" →
  Chromium.update p "extensions"
    (λ e, Chromium.update e key (λ m, set m extensionId x)) = Ok p' →
  holds_under key extensionId x p'.
Proof.
  intros Hk1 Hk2 Hi1 Hi2 (e & e' & He & Hf & He')%update_same; [|done..].
  apply update_same in Hf as (m & m' & Hm & Hset & Hm'); [|done..].
  exists e', m'. split; [done|]. split; [done|]. by eapply get_set_same.
Qed.

Lemma lists_it_add (key extensionId : string) (p p' : value) :
  array_index key = None → key ≠ "__proto__" →
  Chromium.update p "extensions"
    (λ e, Chromium.update e key (Chromium.add_once extensionId)) = Ok p' →
  lists_it key extensionId p'.
Proof.
  intros Hk1 Hk2 (e & e' & He & Hf & He')%update_same; [|done..].
  apply update_same in Hf as (m & m' & Hm & Hadd & Hm'); [|done..].
  exists e', m'. split; [done|]. split; [done|]. by eapply add_once_includes.
Qed.

Lemma register_Ok (this : Installer) (extensionId : string) (install_time : Z)
    (p p' : value) :
  Chromium.register this extensionId install_time p = Ok p' →
  ∃ pa pb pc,
    Chromium.update p "extensions"
      (λ e, Chromium.update e "external_extensions"
              (λ x, set x extensionId (Chromium.external_record install_time))) = Ok pa
    ∧ Chromium.update pa "extensions" (λ e, Chromium.ensure e "known_enabled" (arr [])) = Ok pb
    ∧ Chromium.update pb "extensions"
        (λ e, Chromium.update e "known_enabled" (Chromium.add_once extensionId)) = Ok pc
    ∧ if truthy_flag (pinExtension (options this)) then
        ∃ pd, Chromium.update pc "extensions"
                (λ e, Chromium.ensure e "pinned_extensions" (arr [])) = Ok pd
              ∧ Chromium.update pd "extensions"
                  (λ e, Chromium.update e "pinned_extensions" (Chromium.add_once extensionId))
                = Ok p'
      else p' = pc.
Proof.
  unfold Chromium.register.
  destruct (Chromium.update p "extensions" _) as [pa|] eqn:Ha; [|discriminate]. cbn.
  destruct (Chromium.update pa "extensions" _) as [pb|] eqn:Hb; [|discriminate]. cbn.
  destruct (Chromium.update pb "extensions" _) as [pc|] eqn:Hc; [|discriminate]. cbn.
  intros H. exists pa, pb, pc. split; [done|]. split; [done|]. split; [done|].
  destruct (truthy_flag (pinExtension (options this))).
  - destruct (Chromium.update pc "extensions" _) as [pd|] eqn:Hd; [|discriminate].
    cbn in H. eauto.
  - by injection H as <-.
Qed.

(** X27. When the statements that patch the Preferences object end
    normally, the object holds the extension: its record under
    [extensions.settings] (Vivaldi) or [extensions.opsettings] (Opera),
    the external entry with the install time in seconds under
    [extensions.external_extensions], its identifier in
    [extensions.known_enabled], and in [extensions.pinned_extensions] when
    [pinExtension] is set. *)
Theorem patch_installs_extension (this : Installer) (extensionId key : string)
    (record : value) (install_time : Z) (p1 p2 p3 p' : value) :
  array_index extensionId = None → extensionId ≠ "__proto__" →
  (key = "settings" ∧ Vivaldi.assign_record extensionId record p1 = Ok p2)
  ∨ (key = "opsettings" ∧ Opera.assign_record extensionId record p1 = Ok p2) →
  Chromium.ensure_external p2 = Ok p3 →
  Chromium.register this extensionId install_time p3 = Ok p' →
  holds_under key extensionId record p'
  ∧ holds_under "external_extensions" extensionId (Chromium.external_record install_time) p'
  ∧ lists_it "known_enabled" extensionId p'
  ∧ (truthy_flag (pinExtension (options this)) = true →
     lists_it "pinned_extensions" extensionId p').
Proof.
  intros Hi1 Hi2 Hassign Hext Hreg.
  assert (Hkey : key = "settings" ∨ key = "opsettings") by (destruct Hassign as [[? _]|[? _]]; auto).
  assert (H2 : holds_under key extensionId record p2).
  { destruct Hassign as [[-> H]|[-> H]]; by eapply holds_under_set. }
  assert (H3 : holds_under key extensionId record p3).
  { eapply holds_under_kept; [exact Hext| |exact H2].
    intros e e' He. eapply ensure_other; [exact He|done|]. by destruct Hkey as [->| ->]. }
  apply register_Ok in Hreg as (pa & pb & pc & Ha & Hb & Hc & Hd).
  assert (Ha1 : holds_under key extensionId record pa).
  { eapply holds_under_kept; [exact Ha| |exact H3].
    intros e e' He. eapply update_other; [exact He|done|]. by destruct Hkey as [->| ->]. }
  assert (Ha2 : holds_under "external_extensions" extensionId
                  (Chromium.external_record install_time) pa).
  { by eapply holds_under_set. }
  assert (Hb1 : ∀ k, k = key ∨ k = "external_extensions" →
                     ∀ x, holds_under k extensionId x pa → holds_under k extensionId x pb).
  { intros k Hk x. eapply holds_under_kept; [exact Hb|].
    intros e e' He. eapply ensure_other; [exact He|done|].
    destruct Hk as [->| ->]; [by destruct Hkey as [->| ->]|done]. }
  assert (Hc1 : ∀ k, k = key ∨ k = "external_extensions" →
                     ∀ x, holds_under k extensionId x pb → holds_under k extensionId x pc).
  { intros k Hk x. eapply holds_under_kept; [exact Hc|].
    intros e e' He. eapply update_other; [exact He|done|].
    destruct Hk as [->| ->]; [by destruct Hkey as [->| ->]|done]. }
  assert (Hc2 : lists_it "known_enabled" extensionId pc) by by eapply lists_it_add.
  destruct (truthy_flag (pinExtension (options this))).
  - destruct Hd as (pd & Hd & He).
    assert (Hd1 : ∀ k, k = key ∨ k = "external_extensions" →
                       ∀ x, holds_under k extensionId x pc → holds_under k extensionId x p').
    { intros k Hk x H. eapply holds_under_kept; [exact He| |].
      - intros e e' Hf. eapply update_other; [exact Hf|done|].
        destruct Hk as [->| ->]; [by destruct Hkey as [->| ->]|done].
      - eapply holds_under_kept; [exact Hd| |exact H].
        intros e e' Hf. eapply ensure_other; [exact Hf|done|].
        destruct Hk as [->| ->]; [by destruct Hkey as [->| ->]|done]. }
    split; [apply Hd1, Hc1, Hb1; auto|]. split; [apply Hd1, Hc1, Hb1; auto|].
    split.
    + eapply lists_it_kept; [exact He| |].
      * intros e e' Hf. eapply update_other; [exact Hf|done|done].
      * eapply lists_it_kept; [exact Hd| |exact Hc2].
        intros e e' Hf. eapply ensure_other; [exact Hf|done|done].
    + intros _. by eapply lists_it_add.
  - subst p'. split; [apply Hc1, Hb1; auto|]. split; [apply Hc1, Hb1; auto|].
    split; [done|]. discriminate.
Qed.

End PatchFacts.

Lemma patch_installs_extension_witness :
  ∃ p2 p3 p',
    Vivaldi.assign_record "abc" (obj [("state", VNum 1)])
      (obj [("extensions", obj [("settings", obj [])])]) = Ok p2
    ∧ Chromium.ensure_external p2 = Ok p3
    ∧ Chromium.register (Scenario.installer Scenario.webstore) "abc" 1700000000000 p3 = Ok p'
    ∧ holds_under "settings" "abc" (obj [("state", VNum 1)]) p'
    ∧ holds_under "external_extensions" "abc" (Chromium.external_record 1700000000000) p'
    ∧ lists_it "known_enabled" "abc" p'.
Proof.
  eexists _, _, _.
  match goal with
  | |- _ = Ok ?p2 ∧ _ = Ok ?p3 ∧ _ = Ok ?p' ∧ _ =>
      assert (H2 : Vivaldi.assign_record "abc" (obj [("state", VNum 1)])
                     (obj [("extensions", obj [("settings", obj [])])]) = Ok p2)
        by (vm_compute; reflexivity);
      assert (H3 : Chromium.ensure_external p2 = Ok p3) by (vm_compute; reflexivity);
      assert (H4 : Chromium.register (Scenario.installer Scenario.webstore) "abc"
                     1700000000000 p3 = Ok p') by (vm_compute; reflexivity);
      assert (Hid : "abc" ≠ "__proto__") by discriminate;
      pose proof (patch_installs_extension (Scenario.installer Scenario.webstore) "abc"
                    "settings" (obj [("state", VNum 1)]) 1700000000000
                    (obj [("extensions", obj [("settings", obj [])])]) p2 p3 p'
                    eq_refl Hid (or_introl (conj eq_refl H2)) H3 H4)
        as (H5 & H6 & H7 & _)
  end.
  split; [exact H2|]. split; [exact H3|]. split; [exact H4|].
  split; [exact H5|]. split; [exact H6|exact H7].
Defined.

(** ** The end of the installation *)

Section CleanupFacts.

Context (rt : Runtime).

Lemma for_of_Next {A} (l : list A) (body : A → M completion) (s s' : state) (c : completion) :
  (∀ x s0 s1, body x s0 ≠ (Ok Return, s1)) →
  for_of l body s = (Ok c, s') → c = Next.
Proof.
  intros Hbody. revert s. induction l as [|x l IH]; intros s.
  - by intros [= <- _].
  - cbn [for_of]. rewrite bind_run. destruct (body x s) as [[[]|e] s1] eqn:E.
    + apply IH.
    + by destruct (Hbody _ _ _ E).
    + discriminate.
Qed.

Lemma extract_or_write_manifest_Next (logger : string) (this : Installer)
    (crxFilePath extensionVersionDir : path) (manifest : value) (s s1 : state) :
  truthy_path (downloadDir (options this)) = true →
  Chromium.extract_or_write_manifest rt logger this crxFilePath extensionVersionDir
    manifest s ≠ (Ok Return, s1).
Proof.
  intros Ht. unfold Chromium.extract_or_write_manifest. rewrite try_catch_run.
  destruct (Chromium.extract_archive rt logger this crxFilePath extensionVersionDir s)
    as [[c|e] s'] eqn:E.
  - intros [= -> ->]. unfold Chromium.extract_archive in E.
    apply bind_Ok in E as (crxData & sr & Hr & E).
    cbv zeta in E. rewrite Ht in E. cbn [negb] in E. run_inv E. discriminate.
  - destruct (fatal e); [discriminate|]. intros H. run_inv H. discriminate.
Qed.

Lemma check_existing_Next (logger : string) (this : Installer) (dir : path)
    (rest : M completion) (s s1 : state) :
  (∀ s0, rest s0 ≠ (Ok Return, s1)) →
  Chromium.check_existing logger this dir rest s ≠ (Ok Return, s1).
Proof.
  intros Hrest H. apply check_existing_Ok in H as [[? _]|(s' & _ & H)]; [done|].
  by destruct (Hrest s').
Qed.

Lemma Vivaldi_install_profile_Next (this : Installer) (extensionId : string)
    (crxFilePath : path) (manifest : value) (profile : path) (s s1 : state) :
  truthy_path (downloadDir (options this)) = true →
  Vivaldi.install_profile rt this extensionId crxFilePath manifest profile s ≠ (Ok Return, s1).
Proof.
  intros Ht H. unfold Vivaldi.install_profile in H. cbv zeta in H.
  apply bind_Ok in H as (has & s2 & _ & H).
  destruct (negb has); [discriminate|].
  do 6 (apply bind_Ok in H as (? & ? & _ & H)).
  revert H. apply check_existing_Next. intros s0 H.
  apply bind_Ok in H as (? & ? & _ & H).
  unfold Vivaldi.unpack_and_patch in H.
  apply bind_Ok in H as (extracted & se & He & H).
  destruct extracted; [|by destruct (extract_or_write_manifest_Next _ _ _ _ _ _ _ Ht He)].
  do 5 (apply bind_Ok in H as (? & ? & _ & H)).
  by apply write_and_relaunch_Ok in H as [? _].
Qed.

Lemma Opera_install_profile_Next (this : Installer) (extensionId : string)
    (crxFilePath : path) (manifest : value) (profile : path) (s s1 : state) :
  truthy_path (downloadDir (options this)) = true →
  Opera.install_profile rt this extensionId crxFilePath manifest profile s ≠ (Ok Return, s1).
Proof.
  intros Ht H. unfold Opera.install_profile in H. cbv zeta in H.
  do 5 (apply bind_Ok in H as (? & ? & _ & H)).
  revert H. apply check_existing_Next. intros s0 H.
  apply bind_Ok in H as (? & ? & _ & H).
  unfold Opera.unpack_and_patch in H.
  apply bind_Ok in H as (extracted & se & He & H).
  destruct extracted; [|by destruct (extract_or_write_manifest_Next _ _ _ _ _ _ _ Ht He)].
  apply bind_Ok in H as (has & ? & _ & H).
  destruct (negb has); [discriminate|].
  do 6 (apply bind_Ok in H as (? & ? & _ & H)).
  by apply write_and_relaunch_Ok in H as [? _].
Qed.

Lemma cleanup_Ok (logger : string) (this : Installer) (dir : path) (s s' : state) :
  downloadDir (options this) = Some dir → dir ≠ [] →
  Chromium.cleanup logger this s = (Ok tt, s') →
  Fs.existsSync (fs s') dir = false.
Proof.
  intros Hd Hne. unfold Chromium.cleanup. rewrite Hd. cbn [truthy_path].
  change (default [] (Some dir)) with dir.
  rewrite (bool_decide_eq_false_2 _ Hne). cbn [negb andb].
  rewrite bind_run, log_step. cbn beta iota.
  rewrite bind_run, existsSync_run. cbn beta iota. cbn [fs].
  destruct (Fs.existsSync (fs s) dir) eqn:E; cbn [when].
  - rewrite bind_run. unfold rmSync. rewrite update_fs_run. cbn beta iota.
    rewrite log_step. intros [= <-]. cbn [fs]. by apply rmSync_removes.
  - rewrite bind_run, mret_run. cbn beta iota. rewrite log_step. by intros [= <-].
Qed.

(** X28. When the loop of [installExtension] over the profiles (Vivaldi
    or Opera) and what follows it end normally, the download directory,
    and with it the archive, is no longer on the disk. *)
Theorem install_all_removes_download_dir (this : Installer) (extensionId : string)
    (crxFilePath : path) (manifest : value) (targets : list path) (dir : path)
    (s s' : state) :
  downloadDir (options this) = Some dir → dir ≠ [] →
  Vivaldi.install_all rt this extensionId crxFilePath manifest targets s = (Ok tt, s')
  ∨ Opera.install_all rt this extensionId crxFilePath manifest targets s = (Ok tt, s') →
  Fs.existsSync (fs s') dir = false.
Proof.
  intros Hd Hne H.
  assert (Ht : truthy_path (downloadDir (options this)) = true).
  { rewrite Hd. cbn. by rewrite (bool_decide_eq_false_2 _ Hne). }
  destruct H as [H|H].
  - unfold Vivaldi.install_all in H. apply bind_Ok in H as (c & s1 & Hloop & H).
    apply for_of_Next in Hloop as ->; [|intros; by apply Vivaldi_install_profile_Next].
    by eapply cleanup_Ok.
  - unfold Opera.install_all in H. apply bind_Ok in H as (c & s1 & Hloop & H).
    apply for_of_Next in Hloop as ->; [|intros; by apply Opera_install_profile_Next].
    by eapply cleanup_Ok.
Qed.

End CleanupFacts.

Lemma install_all_removes_download_dir_witness :
  (Vivaldi.install_all Scenario.webstore (Scenario.installer Scenario.webstore) "abc"
     Scenario.crx_file Scenario.version_1 [Scenario.vivaldi_dir ++ ["Default"]]
     Scenario.downloaded).1 = Ok tt
  ∧ Fs.existsSync (fs Scenario.downloaded) Scenario.download_dir = true
  ∧ Fs.existsSync
      (fs (Vivaldi.install_all Scenario.webstore (Scenario.installer Scenario.webstore) "abc"
             Scenario.crx_file Scenario.version_1 [Scenario.vivaldi_dir ++ ["Default"]]
             Scenario.downloaded).2)
      Scenario.download_dir = false.
Proof.
  split; [vm_compute; reflexivity|]. split; [vm_compute; reflexivity|].
  apply (install_all_removes_download_dir Scenario.webstore
           (Scenario.installer Scenario.webstore) "abc" Scenario.crx_file Scenario.version_1
           [Scenario.vivaldi_dir ++ ["Default"]] Scenario.download_dir Scenario.downloaded
           (Vivaldi.install_all Scenario.webstore (Scenario.installer Scenario.webstore) "abc"
              Scenario.crx_file Scenario.version_1 [Scenario.vivaldi_dir ++ ["Default"]]
              Scenario.downloaded).2).
  - vm_compute; reflexivity.
  - discriminate.
  - left.
    apply (run_pair (Vivaldi.install_all Scenario.webstore
                       (Scenario.installer Scenario.webstore) "abc" Scenario.crx_file
                       Scenario.version_1 [Scenario.vivaldi_dir ++ ["Default"]])
             Scenario.downloaded (Ok tt)).
    vm_compute; reflexivity.
Defined.

(** ** The constructor *)

(** X29. When the constructor of Vivaldi or of Opera returns, the
    download directory of the options it has built is on the disk: it
    was there, or the constructor has made it, with the directories
    above it. *)
Theorem Chromium_new_makes_download_dir (rt : Runtime) (logger : string)
    (o : InstallerOptions) (s s' : state) (this : Installer) (dir : path) :
  Chromium.new rt logger o s = (Ok this, s') →
  downloadDir (options this) = Some dir → dir ≠ [] →
  Fs.existsSync (fs s') dir = true.
Proof.
  intros H Hd Hne. pose proof (Chromium_new_options _ _ _ _ _ _ H) as Ho.
  rewrite Ho in Hd. unfold Chromium.new in H. cbv zeta in H. cbn [options] in H.
  rewrite Hd in H. cbn [truthy_path] in H. change (default [] (Some dir)) with dir in H.
  rewrite (bool_decide_eq_false_2 _ Hne) in H. cbn [negb andb] in H.
  rewrite bind_run, existsSync_run in H. cbn beta iota in H.
  destruct (Fs.existsSync (fs s) dir) eqn:E; cbn [negb] in H.
  - rewrite bind_run, mret_run in H. cbn beta iota in H.
    do 2 (rewrite bind_run, emit_run in H; cbn beta iota in H).
    injection H as _ <-. done.
  - apply bind_Ok in H as ([] & s1 & Hm & H).
    apply bind_Ok in Hm as ([] & s2 & Hm & He).
    unfold mkdirSync in Hm. rewrite update_fs_run in Hm.
    destruct (Fs.mkdirSync (fs s) dir) as [b|] eqn:Em; [|discriminate].
    injection Hm as <-. rewrite emit_run in He. injection He as <-.
    do 2 (rewrite bind_run, emit_run in H; cbn beta iota in H).
    injection H as _ <-. cbn [fs]. unfold Fs.existsSync.
    by rewrite (mkdirSync_is_dir _ _ _ Em).
Qed.

Lemma Chromium_new_makes_download_dir_witness :
  Fs.existsSync (fs (Scenario.start [])) Scenario.download_dir = false
  ∧ Fs.existsSync
      (fs (Vivaldi.new Scenario.webstore Scenario.no_options (Scenario.start [])).2)
      Scenario.download_dir = true.
Proof.
  split; [vm_compute; reflexivity|].
  apply (Chromium_new_makes_download_dir Scenario.webstore Vivaldi.logger Scenario.no_options
           (Scenario.start [])
           (Vivaldi.new Scenario.webstore Scenario.no_options (Scenario.start [])).2
           (Scenario.installer Scenario.webstore) Scenario.download_dir).
  - apply (run_pair (Vivaldi.new Scenario.webstore Scenario.no_options) (Scenario.start [])
             (Ok (Scenario.installer Scenario.webstore))).
    vm_compute; reflexivity.
  - vm_compute; reflexivity.
  - discriminate.
Defined.
